(** * DeepBind / kangaroo [predict.py]: scanning and attribution engine

    A shallow embedding of [kangaroo/predict.py] and the properties its
    specification states about it.

    Conventions of the embedding.
    - Python [int] is [Z]; [len] returns a [Z]; list and string indices
      that the code computes are [Z] and go through Python's slice rules.
    - Python [str] is [string]; a one-dimensional numpy array is a [list].
    - A numpy float is [npfloat]: an exact rational, or one of the IEEE
      special values [+inf], [-inf], [nan].  Rounding and signed zeros are
      not modelled: finite arithmetic is exact.
    - A Python call that may raise is an [outcome]: a returned value or a
      raised exception.  A loop over mutable state returns its outcome
      together with the state, also when it raises.
    - [globals.flags] is a map from flag names to values.
    - Reading files, unpickling, the evaluation of a network and the text
      of a traceback are parameters of the definitions that use them.
      Printing and logging are not modelled.

    - The enumeration of a model directory, [os.path.isfile], the lines
      of a file, [int] and [globals.set_devices] are parameters as well.

    Part I holds the definitions, Part II the theorems about the
    specification, Part III further properties of the code. *)

From Stdlib Require Import ZArith QArith String Ascii List Lia.
From stdpp Require Import base option list strings gmap.

Local Open Scope string_scope.
Local Open Scope Z_scope.

(** * Part I: definitions *)

(** ** Python built-ins used by the source *)

Module Py.

(** [len(s)] for a string and for a list. *)
Definition len_str (s : string) : Z := Z.of_nat (String.length s).
Definition len {A} (l : list A) : Z := Z.of_nat (length l).

(** [s * n]: [n] copies of [s], none when [n <= 0]. *)
Fixpoint str_repeat (s : string) (n : nat) : string :=
  match n with
  | O => ""
  | S n' => s +:+ str_repeat s n'
  end.

Definition str_mul (s : string) (n : Z) : string := str_repeat s (Z.to_nat n).

(** A slice bound [i] over a sequence of length [n]: a negative bound
    counts from the end, and every bound is clamped into [0, n]. *)
Definition clamp_index (n i : Z) : Z :=
  if i <? 0 then Z.max 0 (i + n) else Z.min i n.

(** [s[a:b]] on a string. *)
Definition str_slice (s : string) (a b : Z) : string :=
  let n := len_str s in
  let lo := clamp_index n a in
  let hi := clamp_index n b in
  substring (Z.to_nat lo) (Z.to_nat (hi - lo)) s.

(** [l[a:b]] on a list or on the first axis of an array. *)
Definition slice {A} (l : list A) (a b : Z) : list A :=
  let n := len l in
  let lo := clamp_index n a in
  let hi := clamp_index n b in
  take (Z.to_nat (hi - lo)) (drop (Z.to_nat lo) l).

(** The iteration of [range]: ascending while [i < stop], descending
    while [i > stop]. *)
Fixpoint range_up (fuel : nat) (i stop step : Z) : list Z :=
  match fuel with
  | O => []
  | S fuel' =>
      if i <? stop then i :: range_up fuel' (i + step) stop step else []
  end.

Fixpoint range_down (fuel : nat) (i stop step : Z) : list Z :=
  match fuel with
  | O => []
  | S fuel' =>
      if stop <? i then i :: range_down fuel' (i + step) stop step else []
  end.

(** [range(start, stop, step)]; [None] is the [ValueError] of a zero
    step. *)
Definition range3 (start stop step : Z) : option (list Z) :=
  if step =? 0 then None
  else if 0 <? step
       then Some (range_up (Z.to_nat (stop - start)) start stop step)
       else Some (range_down (Z.to_nat (start - stop)) start stop step).

(** [range(n)]. *)
Definition range (n : Z) : list Z := range_up (Z.to_nat n) 0 n 1.

(** [s.split(sep)] for a separator of one character: the pieces between
    the separators, one more than there are separators. *)
Fixpoint str_split (sep : ascii) (s : string) : list string :=
  match s with
  | EmptyString => [EmptyString]
  | String c s' =>
      if Ascii.eqb c sep then EmptyString :: str_split sep s'
      else match str_split sep s' with
           | w :: ws => String c w :: ws
           | [] => [String c EmptyString]
           end
  end.

(** The characters that [str.rstrip()] removes: the space and the
    controls 9 to 13. *)
Definition isspace (c : ascii) : bool :=
  let n := nat_of_ascii c in
  Nat.eqb n 32 || (Nat.leb 9 n && Nat.leb n 13).

(** [s.rstrip()] *)
Fixpoint str_rstrip (s : string) : string :=
  match s with
  | EmptyString => EmptyString
  | String c s' =>
      match str_rstrip s' with
      | EmptyString => if isspace c then EmptyString else String c EmptyString
      | r => String c r
      end
  end.

End Py.

(** ** Exceptions *)

(** A raised exception: an instance of a class that derives from
    [Exception], with its [message], or one that derives from
    [BaseException] only ([SystemExit], which [quit] raises, and
    [KeyboardInterrupt]).  The message of an error raised inside numpy is
    numpy's own text and is left empty here. *)
Inductive exn :=
| Exception (cls : string) (message : string)
| BaseOnly (cls : string) (message : string).

Definition ValueError (message : string) : exn := Exception "ValueError" message.
Definition IndexError (message : string) : exn := Exception "IndexError" message.
Definition KeyError (message : string) : exn := Exception "KeyError" message.
Definition AssertionError (message : string) : exn := Exception "AssertionError" message.
Definition SystemExit (message : string) : exn := BaseOnly "SystemExit" message.

(** [isinstance(e, Exception)] *)
Definition is_Exception (e : exn) : bool :=
  match e with Exception _ _ => true | BaseOnly _ _ => false end.

(** [e.message] *)
Definition message (e : exn) : string :=
  match e with Exception _ m | BaseOnly _ m => m end.

(** The result of a call: a returned value or a raised exception. *)
Inductive outcome (A : Type) :=
| Return (a : A)
| Raise (e : exn).
Arguments Return {A} a.
Arguments Raise {A} e.

#[global] Instance outcome_ret : MRet outcome := fun A a => Return a.
#[global] Instance outcome_bind : MBind outcome := fun A B f m =>
  match m with Return a => f a | Raise e => Raise e end.

(** A [for] loop that threads a value through its iterations and stops
    at the first exception. *)
Fixpoint for_each {A B} (body : B -> A -> outcome B) (b : B) (l : list A) : outcome B :=
  match l with
  | [] => Return b
  | a :: l' => b' ← body b a; for_each body b' l'
  end.

(** A [for] loop over a mutable state: an exception leaves the state as it
    was when it was raised. *)
Fixpoint for_state {A S} (body : A -> S -> outcome unit * S) (l : list A) (s : S)
  : outcome unit * S :=
  match l with
  | [] => (Return tt, s)
  | a :: l' =>
      match body a s with
      | (Return _, s') => for_state body l' s'
      | (Raise e, s') => (Raise e, s')
      end
  end.

(** An optional value whose absence raises [e]. *)
Definition or_raise {A} (e : exn) (o : option A) : outcome A :=
  match o with Some a => Return a | None => Raise e end.

(** ** numpy floats and the array operations the source uses *)

Inductive npfloat :=
| Fin (q : Q)
| PInf
| NInf
| NaN.

Module Np.

(** Comparison of two floats; [None] when one of them is [nan]. *)
Definition cmp (a b : npfloat) : option comparison :=
  match a, b with
  | NaN, _ | _, NaN => None
  | Fin x, Fin y => Some (x ?= y)%Q
  | PInf, PInf | NInf, NInf => Some Eq
  | PInf, _ | _, NInf => Some Gt
  | NInf, _ | _, PInf => Some Lt
  end.

(** [a >= b] and [a < b]: both are false when a [nan] is involved. *)
Definition ge (a b : npfloat) : bool :=
  match cmp a b with Some Gt | Some Eq => true | _ => false end.

Definition lt (a b : npfloat) : bool :=
  match cmp a b with Some Lt => true | _ => false end.

Definition add (a b : npfloat) : npfloat :=
  match a, b with
  | NaN, _ | _, NaN => NaN
  | Fin x, Fin y => Fin (x + y)
  | PInf, NInf | NInf, PInf => NaN
  | PInf, _ | _, PInf => PInf
  | NInf, _ | _, NInf => NInf
  end.

Definition neg (a : npfloat) : npfloat :=
  match a with
  | Fin x => Fin (- x)
  | PInf => NInf
  | NInf => PInf
  | NaN => NaN
  end.

Definition sub (a b : npfloat) : npfloat := add a (neg b).

(** An infinity ([+inf] when [pos]) times [o]. *)
Definition inf_times (pos : bool) (o : npfloat) : npfloat :=
  match cmp o (Fin 0) with
  | Some Gt => if pos then PInf else NInf
  | Some Lt => if pos then NInf else PInf
  | _ => NaN
  end.

Definition mul (a b : npfloat) : npfloat :=
  match a, b with
  | Fin x, Fin y => Fin (x * y)
  | NaN, _ | _, NaN => NaN
  | PInf, o | o, PInf => inf_times true o
  | NInf, o | o, NInf => inf_times false o
  end.

(** [a / b] as numpy computes it, with a warning instead of an error:
    [0/0] is [nan] and [x/0] an infinity. *)
Definition div (a b : npfloat) : npfloat :=
  match a, b with
  | NaN, _ | _, NaN => NaN
  | Fin x, Fin y =>
      if Qeq_bool y 0
      then match (x ?= 0)%Q with Eq => NaN | Gt => PInf | Lt => NInf end
      else Fin (x / y)
  | Fin _, _ => Fin 0
  | PInf, Fin y => if Qle_bool 0 y then PInf else NInf
  | NInf, Fin y => if Qle_bool 0 y then NInf else PInf
  | _, _ => NaN
  end.

(** [np.maximum(a, b)]: the larger one, [nan] when either is. *)
Definition maximum (a b : npfloat) : npfloat :=
  match cmp a b with
  | None => NaN
  | Some Lt => b
  | Some _ => a
  end.

(** [np.sign(a)] *)
Definition sign (a : npfloat) : npfloat :=
  match cmp a (Fin 0) with
  | None => NaN
  | Some Gt => Fin 1
  | Some Lt => Fin (-1)
  | Some Eq => Fin 0
  end.

(** [np.nan_to_num(a)]: [nan] becomes 0 and an infinity the largest
    finite value [big] of the array's type. *)
Definition nan_to_num (big : Q) (a : npfloat) : npfloat :=
  match a with
  | NaN => Fin 0
  | PInf => Fin big
  | NInf => Fin (- big)
  | Fin x => Fin x
  end.

(** [Z.reshape((-1,2))] on a flat array: [None] is the [ValueError] of
    an odd size. *)
Fixpoint reshape_pairs {A} (l : list A) : option (list (A * A)) :=
  match l with
  | [] => Some []
  | [_] => None
  | a :: b :: rest => cons (a, b) <$> reshape_pairs rest
  end.

(** [Zmask.reshape((-1,1))] and [.ravel()] of an array of pairs. *)
Definition ravel_pairs {A} (l : list (A * A)) : list A :=
  flat_map (fun p => [fst p; snd p]) l.

(** [Z[mask]] with a boolean mask along the first axis. *)
Fixpoint bool_index {A} (l : list A) (mask : list bool) : list A :=
  match l, mask with
  | a :: l', b :: mask' => if b then a :: bool_index l' mask' else bool_index l' mask'
  | _, _ => []
  end.

(** [np.sum], [np.mean] and [np.max] of a one-dimensional array;
    [np.max] of an empty array raises. *)
Definition sum (l : list npfloat) : npfloat := foldl add (Fin 0) l.

Definition mean (l : list npfloat) : npfloat :=
  div (sum l) (Fin (inject_Z (Py.len l))).

Definition max (l : list npfloat) : option npfloat :=
  match l with
  | [] => None
  | a :: l' => Some (foldl maximum a l')
  end.

End Np.

(** ** [globals.flags] *)

(** The values of a flag or of an option such as [want_gmaps], as far as
    this file looks at them: [None], a boolean or a string. *)
Inductive pyval :=
| VNone
| VBool (b : bool)
| VStr (s : string).

(** Truth value of a [pyval] in an [if]. *)
Definition truthy (v : pyval) : bool :=
  match v with
  | VNone => false
  | VBool b => b
  | VStr s => if decide (s = "") then false else true
  end.

(** [v == s] for a string literal [s]. *)
Definition eq_str (v : pyval) (s : string) : bool :=
  match v with
  | VStr s' => if decide (s' = s) then true else false
  | _ => false
  end.

(** ** Strand resolver: [maskout_revcomp] (lines 145-164) *)

Definition maskout_revcomp (flags : gmap string pyval) (Z : list npfloat)
  : outcome (list npfloat * option (list bool)) :=
  match flags !! "reverse_complement" with
  | None => Return (Z, None)
  | Some v =>
      Zcols ← or_raise (ValueError "") (Np.reshape_pairs Z);
      let Zmask :=
        if eq_str v "force"
        then map (fun _ : npfloat * npfloat => (false, true)) Zcols
        else map (fun c => (Np.ge (fst c) (snd c), Np.lt (fst c) (snd c))) Zcols in
      let Zmask := Np.ravel_pairs Zmask in
      Return (Np.bool_index Z Zmask, Some Zmask)
  end.

(** The per-pair selection of the two modes, and a pair of scores that
    are numbers: names for the statements about [maskout_revcomp]. *)
Definition select_forced (_ : npfloat * npfloat) : bool * bool := (false, true).
Definition select_higher (c : npfloat * npfloat) : bool * bool :=
  (Np.ge (fst c) (snd c), Np.lt (fst c) (snd c)).

Definition comparable (c : npfloat * npfloat) : Prop := fst c <> NaN /\ snd c <> NaN.

(** The score that normal mode keeps of a pair: the forward score unless
    the reverse one is higher, and none when either is [nan].  A name for
    the statements about [maskout_revcomp]. *)
Definition resolve_pair (c : npfloat * npfloat) : option npfloat :=
  match Np.cmp (fst c) (snd c) with
  | None => None
  | Some Lt => Some (snd c)
  | Some _ => Some (fst c)
  end.

(** ** Sequence encoder ([util.acgt2ord], [util.revcomp]) *)

(** Modelled from the spec: [util.acgt2ord] and [util.revcomp] are not in
    [predict.py].  The spec (section 4.1) has the encoder map each symbol
    to a small integer, the unknown symbol ['N'] to a distinguished value
    outside the alphabet, and raise an [EncodingError] on any other
    character; the order A, C, G, T is the one [rcindex = [3,2,1,0]]
    complements.  [revcomp] reverses the sequence and complements each
    base. *)
Definition EncodingError (message : string) : exn := Exception "EncodingError" message.

Definition ord_of_symbol (unknown_ord : Z) (c : ascii) : option Z :=
  if decide (c = "A"%char) then Some 0
  else if decide (c = "C"%char) then Some 1
  else if decide (c = "G"%char) then Some 2
  else if decide (c = "T"%char) then Some 3
  else if decide (c = "N"%char) then Some unknown_ord
  else None.

Fixpoint acgt2ord_opt (unknown_ord : Z) (s : string) : option (list Z) :=
  match s with
  | EmptyString => Some []
  | String c s' =>
      o ← ord_of_symbol unknown_ord c;
      cons o <$> acgt2ord_opt unknown_ord s'
  end.

Definition acgt2ord (unknown_ord : Z) (s : string) : outcome (list Z) :=
  or_raise (EncodingError "") (acgt2ord_opt unknown_ord s).

Definition complement (c : ascii) : ascii :=
  if decide (c = "A"%char) then "T"%char
  else if decide (c = "T"%char) then "A"%char
  else if decide (c = "C"%char) then "G"%char
  else if decide (c = "G"%char) then "C"%char
  else c.

Fixpoint revcomp (s : string) : string :=
  match s with
  | EmptyString => EmptyString
  | String c s' => revcomp s' +:+ String (complement c) EmptyString
  end.

(** A sequence over the alphabet A, C, G, T, N. *)
Definition valid_sequence (s : string) : Prop :=
  Forall (fun c => c ∈ ["A"; "C"; "G"; "T"; "N"]%char) (list_ascii_of_string s).

(** ** The data source *)

(** What the file reads of a data source: the names of its sequence
    attributes, the rows of the first one,
    [getattr(data, data._seqattrnames(0)[0])], and whether its
    preprocessors are loaded.  [len(data)] is the number of rows.  The
    other attributes (targets, features, row indices) travel with the rows
    and are not modelled. *)
Record datasrc := {
  sequencenames : list string;
  X_seq : list string;
  preprocessors : bool
}.

Definition data_len (data : datasrc) : Z := Py.len (X_seq data).

(** ** Static-weight models: [gen_pfm_predictionmaps] (lines 113-143) *)

Module Ix.

(** [l[i]] on an array: a negative index counts from the end; [None] is
    the [IndexError] of an index out of range. *)
Definition item {A} (l : list A) (i : Z) : option A :=
  if i <? 0
  then (if 0 <=? i + Py.len l then l !! Z.to_nat (i + Py.len l) else None)
  else l !! Z.to_nat i.

(** The pairing numpy makes of two index arrays (or of the two operands
    of an elementwise operation): equal lengths pair up, an array of one
    element is repeated; [None] is the shape mismatch. *)
Definition broadcast {A B} (a : list A) (b : list B) : option (list (A * B)) :=
  if decide (length a = length b) then Some (zip a b)
  else match a, b with
       | [x], _ => Some (map (fun y => (x, y)) b)
       | _, [y] => Some (map (fun x => (x, y)) a)
       | _, _ => None
       end.

(** [l[i] = v]; [None] is the [IndexError] of an index out of range. *)
Definition set_item {A} (l : list A) (i : Z) (v : A) : option (list A) :=
  let i' := if i <? 0 then i + Py.len l else i in
  if (0 <=? i') && (i' <? Py.len l) then Some (<[Z.to_nat i' := v]> l) else None.

(** An array stretched to [n] entries as the right operand of an
    in-place operation on [n] entries: it has [n] entries already, or
    one entry that is repeated; [None] is the shape mismatch. *)
Definition broadcast_to {A} (n : nat) (src : list A) : option (list A) :=
  if decide (length src = n) then Some src
  else match src with
       | [x] => Some (replicate n x)
       | _ => None
       end.

(** [m[rows, cols]] with two index arrays. *)
Definition fancy {A} (m : list (list A)) (rows cols : list Z) : outcome (list A) :=
  rc ← or_raise (IndexError "") (broadcast rows cols);
  mapM (fun p => r ← or_raise (IndexError "") (item m (fst p));
                 or_raise (IndexError "") (item r (snd p))) rc.

End Ix.

(** [np.hstack([pfm, 0.25*np.ones((len(pfm),1))])] *)
Definition pfmN_of (pfm : list (list npfloat)) : list (list npfloat) :=
  map (fun row => (row ++ [Fin (1 # 4)])%list) pfm.

(** A matrix with one row of four weights per position. *)
Definition four_columns (pfm : list (list npfloat)) : Prop :=
  Forall (fun row => length row = 4%nat) pfm.

(** The prediction map of one strand: the body of [for strand in strands]. *)
Definition strand_pmap (unknown_ord : Z) (pfm : list (list npfloat))
    (s0 : string) (strand : string) : outcome (list npfloat) :=
  let s := if decide (strand = "rev") then revcomp s0 else s0 in
  let k := Py.len pfm in
  x ← acgt2ord unknown_ord (Py.str_mul "N" (k - 1) +:+ s +:+ Py.str_mul "N" (k - 1));
  let n := Py.len x in
  let idx := Py.range k in
  let pfmN := pfmN_of pfm in
  let x := map (fun o => Z.min o 4) x in
  pmap ← mapM (fun i => vals ← Ix.fancy pfmN idx (Py.slice x i (i + k));
                        mret (foldl Np.mul (Fin 1) vals))
              (Py.range (Z.max 1 (n - k + 1)));
  mret (if decide (strand = "rev") then reverse pmap else pmap).

(** [pmaps[0] + pmaps[1]] *)
Definition add_arrays (a b : list npfloat) : outcome (list npfloat) :=
  ab ← or_raise (ValueError "") (Ix.broadcast a b);
  mret (map (fun p => Np.add (fst p) (snd p)) ab).

Definition gen_pfm_predictionmaps (flags : gmap string pyval) (unknown_ord : Z)
    (pfm : list (list npfloat)) (data : datasrc) (windowsize : option Z)
    (want_gmaps : pyval)
  : outcome (list (list npfloat) * option (list (list (list npfloat)))) :=
  if 1 <? Py.len (sequencenames data)
  then Raise (ValueError "Cannot apply PFMs to multi-sequence data.")
  else
    let gmaps := [] in
    let strands := match flags !! "reverse_complement" with
                   | Some _ => ["fwd"; "rev"]
                   | None => ["fwd"]
                   end in
    predictionmaps ←
      mapM (fun s0 =>
              pmaps ← mapM (strand_pmap unknown_ord pfm s0) strands;
              match pmaps with
              | p0 :: p1 :: _ => add_arrays p0 p1
              | [p0] => mret p0
              | [] => Raise (IndexError "")
              end)
           (X_seq data);
    mret (predictionmaps, if truthy want_gmaps then Some gmaps else None).

(** ** Attribution by finite differences
       ([gen_convnet_predictions], lines 208-244) *)

(** The values of the keyword arguments [args] of [model.eval]: an array
    of ordinals (a sequence attribute), a float matrix (the features
    ['F']), an array of regions, or anything else. *)
Inductive argval :=
| AOrd (x : list Z)
| AMat (m : list (list npfloat))
| ARegions (r : list (Z * Z))
| AOther (v : pyval).

(** What the block mutates: the dictionary [args] and the array [dX]. *)
Record fd_state := {
  args : gmap string argval;
  dX : list (list npfloat)
}.

(** An elementwise binary operation on two arrays. *)
Definition map2_arrays (f : npfloat -> npfloat -> npfloat) (a b : list npfloat)
  : outcome (list npfloat) :=
  ab ← or_raise (ValueError "") (Ix.broadcast a b);
  mret (map (fun p => f (fst p) (snd p)) ab).

(** [dZ = mtZ - Z; dZ *= np.maximum(0, np.sign(np.maximum(Z, mtZ)))]
    (lines 236-237) on the two score arrays, and what it computes for one
    pair of scores. *)
Definition delta_array (Z mtZ : list npfloat) : outcome (list npfloat) :=
  dZ ← map2_arrays Np.sub mtZ Z;
  m ← map2_arrays Np.maximum Z mtZ;
  let factor := map (fun x => Np.maximum (Fin 0) (Np.sign x)) m in
  map2_arrays Np.mul dZ factor.


Section FiniteDiff.

(** The scores [Z] that [model.eval] returns for the keyword arguments
    [args], one per row, and
    [data._generate_dinuc_featurevec]. *)
Variable eval_Z : gmap string argval -> outcome (list npfloat).
Variable generate_dinuc_featurevec : list Z -> outcome (list npfloat).

Variable flags : gmap string pyval.

(** The sequence attribute [key], its array [X], its regions [R], the
    padding [pad], the scores [Z] of the unmutated batch (here [Zorig]), and
    [nbase = dX.shape[1]]. *)
Variable key : string.
Variable X : list Z.
Variable R : list (Z * Z).
Variable pad : Z.
Variable Zorig : list npfloat.
Variable nbase : Z.

Definition is_rc : bool := bool_decide (is_Some (flags !! "reverse_complement")).

Definition rcindex : list Z := [3; 2; 1; 0].

(** [(k % 2 == 0) or not is_rc] *)
Definition forward_row (k : Z) : bool := (k mod 2 =? 0) || negb is_rc.

(** [args['F'].asnumpy()] *)
Definition args_F (a : gmap string argval) : outcome (list (list npfloat)) :=
  match a !! "F" with
  | Some (AMat F) => Return F
  | Some _ => Raise (Exception "AttributeError" "")
  | None => Raise (KeyError "F")
  end.

(** One iteration of the first [for k in range(len(R))]: mutate position
    [i] of sequence [k] and recompute its feature vector. *)
Definition mutate_row (i j : Z) (mt : list Z * list (list npfloat)) (k : Z)
  : outcome (list Z * list (list npfloat)) :=
  let '(mtX, mtF) := mt in
  ab ← or_raise (IndexError "") (Ix.item R k);
  let '(a, b) := ab in
  mtX ← (if i <? b - a
         then if forward_row k
              then or_raise (IndexError "") (Ix.set_item mtX (pad + a + i) j)
              else rj ← or_raise (IndexError "") (Ix.item rcindex j);
                   or_raise (IndexError "") (Ix.set_item mtX (b - i - 1) rj)
         else Return mtX);
  vec ← generate_dinuc_featurevec (Py.slice mtX (pad + a) b);
  row ← or_raise (IndexError "") (Ix.item mtF k);
  vec ← or_raise (ValueError "") (Ix.broadcast_to (length row) vec);
  mtF ← or_raise (IndexError "") (Ix.set_item mtF k vec);
  Return (mtX, mtF).

(** One iteration of the second [for k in range(len(R))]: record the
    delta of sequence [k] at [dX[pad+a+i, j]]. *)
Definition record_row (i j : Z) (dZ : list npfloat) (dX : list (list npfloat)) (k : Z)
  : outcome (list (list npfloat)) :=
  if forward_row k
  then ab ← or_raise (IndexError "") (Ix.item R k);
       let '(a, b) := ab in
       if i <? b - a
       then d ← or_raise (IndexError "") (Ix.item dZ (if is_rc then k / 2 else k));
            row ← or_raise (IndexError "") (Ix.item dX (pad + a + i));
            row ← or_raise (IndexError "") (Ix.set_item row j d);
            or_raise (IndexError "") (Ix.set_item dX (pad + a + i) row)
       else Return dX
  else Return dX.

(** The scores of the mutated batch and the recording of their deltas:
    lines 233-242. *)
Definition eval_and_record (i j : Z) (st : fd_state) : outcome (list (list npfloat)) :=
  mtZ ← eval_Z (args st);
  r ← maskout_revcomp flags mtZ;
  let mtZ := fst r in
  dZ ← delta_array Zorig mtZ;
  for_each (record_row i j dZ) (dX st) (Py.range (Py.len R)).

(** The body of [for j in range(nbase)], lines 220-242. *)
Definition fd_step (i j : Z) (st : fd_state) : outcome unit * fd_state :=
  match (F ← args_F (args st);
         for_each (mutate_row i j) (X, F) (Py.range (Py.len R))) with
  | Raise e => (Raise e, st)
  | Return (mtX, mtF) =>
      let st := {| args := <["F" := AMat mtF]> (<[key := AOrd mtX]> (args st));
                   dX := dX st |} in
      match eval_and_record i j st with
      | Raise e => (Raise e, st)
      | Return dX' => (Return tt, {| args := args st; dX := dX' |})
      end
  end.

(** [Xlen.max()] for [Xlen = R[:,1] - R[:,0]]. *)
Definition Xlen_max : outcome Z :=
  match map (fun ab => snd ab - fst ab) R with
  | [] => Raise (ValueError "")
  | l :: ls => Return (foldl Z.max l ls)
  end.

(** Lines 212-244: save [args['F']], run the mutation loops, put the
    saved value back. *)
Definition finite_diff (st : fd_state) : outcome unit * fd_state :=
  match args st !! "F" with
  | None => (Raise (KeyError "F"), st)
  | Some oldF =>
      match Xlen_max with
      | Raise e => (Raise e, st)
      | Return n =>
          match for_state (fun i => for_state (fun j => fd_step i j) (Py.range nbase))
                          (Py.range n) st with
          | (Raise e, st') => (Raise e, st')
          | (Return _, st') =>
              (Return tt, {| args := <["F" := oldF]> (args st'); dX := dX st' |})
          end
      end
  end.





End FiniteDiff.

(** ** The gradient maps of a sequence attribute
       ([gen_convnet_predictions], lines 246-254) *)

Section SequenceGradients.

(** [util.ord2acgt], the decoder of an array of ordinals. *)
Variable ord2acgt : list Z -> string.

(** One entry [(util.ord2acgt(X[a+pad:b]), dX[a+pad:b])] for the region
    [(a, b)]. *)
Definition region_gradient (X : list Z) (dX : list (list npfloat)) (pad : Z)
    (ab : Z * Z) : string * list (list npfloat) :=
  (ord2acgt (Py.slice X (fst ab + pad) (snd ab)), Py.slice dX (fst ab + pad) (snd ab)).

(** Lines 247-250, after finite differences: the rows
    [R[np.arange(0,len(R),2)]] when both strands were scored, all of [R]
    otherwise. *)
Definition finite_diff_gradients (flags : gmap string pyval)
    (X : list Z) (dX : list (list npfloat)) (pad : Z) (R : list (Z * Z))
  : outcome (list (string * list (list npfloat))) :=
  match flags !! "reverse_complement" with
  | Some _ =>
      idx ← or_raise (ValueError "") (Py.range3 0 (Py.len R) 2);
      rows ← mapM (fun i => or_raise (IndexError "") (Ix.item R i)) idx;
      Return (map (region_gradient X dX pad) rows)
  | None => Return (map (region_gradient X dX pad) R)
  end.

(** Lines 252-254, the instantaneous gradient: one entry per region,
    and with a strand mask the entries [i] for which [Zmask[i]] holds. *)
Definition instantaneous_gradients
    (X : list Z) (dX : list (list npfloat)) (pad : Z) (R : list (Z * Z))
    (Zmask : option (list bool))
  : outcome (list (string * list (list npfloat))) :=
  let dX := map (region_gradient X dX pad) R in
  match Zmask with
  | None => Return dX
  | Some Zmask =>
      kept ← mapM (fun i =>
                     b ← or_raise (IndexError "") (Ix.item Zmask i);
                     if b : bool
                     then e ← or_raise (IndexError "") (Ix.item dX i); Return [e]
                     else Return [])
                  (Py.range (Py.len dX));
      Return (concat kept)
  end.

End SequenceGradients.

(** ** Window slicer ([gen_convnet_predictionmaps], lines 300-306) *)

(** [padseq = "N"*(windowsize-1) + rawseq + "N"*(windowsize-1)] *)
Definition padseq (windowsize : Z) (rawseq : string) : string :=
  Py.str_mul "N" (windowsize - 1) +:+ rawseq +:+ Py.str_mul "N" (windowsize - 1).

(** The start offsets
    [range(0, max(1, len(padseq)-windowsize+1), stride)]. *)
Definition window_starts (windowsize stride : Z) (rawseq : string) : option (list Z) :=
  Py.range3 0 (Z.max 1 (Py.len_str (padseq windowsize rawseq) - windowsize + 1)) stride.

(** One entry of [chunk_X]:
    [[padseq[i:i+windowsize] for i in range(...)]]. *)
Definition subwindows (windowsize stride : Z) (rawseq : string) : option (list string) :=
  starts ← window_starts windowsize stride rawseq;
  Some (map (fun i => Py.str_slice (padseq windowsize rawseq) i (i + windowsize)) starts).

(** [chunk_X] over the raw sequences of a chunk, and [nwindows]. *)
Definition chunk_X (windowsize stride : Z) (rawseqs : list string) : option (list (list string)) :=
  mapM (subwindows windowsize stride) rawseqs.

Definition nwindows (chunk_X : list (list string)) : list Z :=
  map Py.len chunk_X.

(** What the stride-1 scan needs of the windows of a sequence: there are
    [L + w - 1] of them, at least one, each of [w] symbols. *)
Definition full_windows (w : Z) (rawseq : string) (ws : list string) : Prop :=
  Py.len ws = Py.len_str rawseq + w - 1
  /\ 1 <= Py.len ws
  /\ Forall (fun win => Py.len_str win = w) ws.

(** ** Map aggregator ([gen_convnet_predictionmaps], lines 320-343) *)

(** One entry of a list of gradient maps that [gen_convnet_predictions]
    returns: the input it belongs to (a decoded sequence, or a row of
    another attribute) and its gradient. *)
Inductive ginput :=
| GSeq (s : string)
| GRow (x : list npfloat).

(** [np.cumsum] *)
Fixpoint cumsum_from (acc : Z) (l : list Z) : list Z :=
  match l with
  | [] => []
  | x :: l' => (acc + x) :: cumsum_from (acc + x) l'
  end.

Definition cumsum (l : list Z) : list Z := cumsum_from 0 l.

(** [np.zeros((n, 4))]: a negative dimension raises. *)
Definition zeros4 (n : Z) : outcome (list (list npfloat)) :=
  if n <? 0 then Raise (ValueError "")
  else Return (replicate (Z.to_nat n) (replicate 4 (Fin 0))).

(** [np.ones_like(a)] *)
Definition ones_like (a : list (list npfloat)) : list (list npfloat) :=
  map (map (fun _ => Fin 1)) a.

(** [m[a:b] += src] on an array [m] of four columns: [src] must have the
    shape of the slice [m[a:b]] or stretch to it, one row to all rows and
    one column to all columns; [None] is numpy's [ValueError] otherwise.
    The rows outside the slice are untouched. *)
Definition iadd_slice (m : list (list npfloat)) (a b : Z) (src : list (list npfloat))
  : option (list (list npfloat)) :=
  let n := Py.len m in
  let lo := Py.clamp_index n a in
  let hi := Z.max lo (Py.clamp_index n b) in
  let view := Py.slice m a b in
  src ← mapM (Ix.broadcast_to 4) src;
  src ← Ix.broadcast_to (length view) src;
  Some (take (Z.to_nat lo) m ++ zip_with (zip_with Np.add) view src ++ drop (Z.to_nat hi) m)%list.

(** The loop [for j in range(0, end_window_idx-start_window_idx)] of
    lines 336-340 over the accumulator and its denominator. *)
Definition fold_window (windowsize stride : Z)
    (dX : list (ginput * list (list npfloat))) (start_window_idx end_window_idx : Z)
    (acc : list (list npfloat) * list (list npfloat)) (j : Z)
  : outcome (list (list npfloat) * list (list npfloat)) :=
  let '(gmap, denom) := acc in
  e ← or_raise (IndexError "") (Ix.item dX (start_window_idx + j));
  let dX_j := Py.slice (snd e) 0
                (Z.min windowsize ((end_window_idx - start_window_idx - j) * stride)) in
  gmap ← or_raise (ValueError "")
           (iadd_slice gmap (j * stride) (j * stride + windowsize) dX_j);
  denom ← or_raise (ValueError "")
            (iadd_slice denom (j * stride) (j * stride + windowsize) (ones_like dX_j));
  Return (gmap, denom).

(** Lines 330-342: the attribution map of one sequence of length
    [rawseq_len] from the gradients [dX] of its windows, which are the
    entries [start_window_idx] to [end_window_idx] of [dX].  [big] is the
    largest finite value of the array's type. *)
Definition build_gmap (big : Q) (windowsize stride : Z) (rawseq_len : Z)
    (dX : list (ginput * list (list npfloat))) (start_window_idx end_window_idx : Z)
  : outcome (list (list npfloat)) :=
  gmap ← zeros4 (rawseq_len + windowsize - 1);
  let denom := gmap in
  acc ← for_each (fold_window windowsize stride dX start_window_idx end_window_idx)
                 (gmap, denom) (Py.range (end_window_idx - start_window_idx));
  let '(gmap, denom) := acc in
  let gmap := zip_with (zip_with Np.div) gmap denom in
  Return (map (map (Np.nan_to_num big)) gmap).

(** The attribution map position by position: names for the statements
    about [build_gmap].  [clipped_gradient] is [dX_j] of line 338, the
    gradient of window [j] cut to [min(windowsize, (end-start-j)*stride)]
    rows; [touching_row] is the row that window [j], placed at offset
    [j*stride], contributes to position [p], if any; [accumulated] adds up,
    in the order of the windows, the rows that touch [p]; [counted] does the
    same with a row of ones for each. *)
Definition clipped_gradient (windowsize stride : Z)
    (dX : list (ginput * list (list npfloat))) (start_window_idx end_window_idx : Z)
    (j : Z) : list (list npfloat) :=
  match Ix.item dX (start_window_idx + j) with
  | Some e => Py.slice (snd e) 0
                (Z.min windowsize ((end_window_idx - start_window_idx - j) * stride))
  | None => []
  end.

Definition touching_row (offset : Z) (rows : list (list npfloat)) (p : nat)
  : option (list npfloat) :=
  if offset <=? Z.of_nat p then rows !! Z.to_nat (Z.of_nat p - offset) else None.

Definition add_touching (offset : Z) (rows : list (list npfloat)) (p : nat)
    (acc : list npfloat) : list npfloat :=
  match touching_row offset rows p with
  | Some r => zip_with Np.add acc r
  | None => acc
  end.

Definition accumulated (stride : Z) (rows_of : Z -> list (list npfloat))
    (js : list Z) (p : nat) : list npfloat :=
  foldl (fun acc j => add_touching (j * stride) (rows_of j) p acc)
        (replicate 4 (Fin 0)) js.

Definition counted (stride : Z) (rows_of : Z -> list (list npfloat))
    (js : list Z) (p : nat) : list npfloat :=
  accumulated stride (fun j => ones_like (rows_of j)) js p.

(** The number of rows of the slice [gmap[a : a+w]] of an array of [n]
    rows, for [a >= 0]. *)
Definition span_rows (n a w : Z) : Z := Z.max 0 (Z.min (a + w) n - Z.min a n).

(** Window [j] exists, its clipped gradient has four columns, and it has
    as many rows as the slice of the accumulator of [n] rows it is added
    to. *)
Definition window_fits (windowsize stride : Z)
    (dX : list (ginput * list (list npfloat))) (start_window_idx end_window_idx : Z)
    (n : Z) (j : Z) : Prop :=
  is_Some (Ix.item dX (start_window_idx + j))
  /\ four_columns (clipped_gradient windowsize stride dX start_window_idx end_window_idx j)
  /\ Py.len (clipped_gradient windowsize stride dX start_window_idx end_window_idx j)
     = span_rows n (j * stride) windowsize.

(** ** Scanning: [gen_convnet_predictionmaps] (lines 273-345) *)

Section Scan.

(** A loaded network and [gen_convnet_predictions] on it: the direct
    predictions, one row per sequence, and with [want_gmaps] the
    gradient maps by name.  The network's evaluation is opaque. *)
Variable net : Type.
Variable gen_convnet_predictions :
  net -> datasrc -> pyval ->
  outcome (list (list npfloat) * option (gmap string (list (ginput * list (list npfloat))))).

Variable big : Q.

(** The body of [for i in range(chunksize)], lines 321-343. *)
Definition scan_sequence (windowsize stride : Z) (rawseqs : list string)
    (chunk_predictions : list (list npfloat))
    (chunk_gmaps : option (gmap string (list (ginput * list (list npfloat)))))
    (chunk_regions : list Z)
    (maps : list (list npfloat) * list (list (list npfloat))) (i : Z)
  : outcome (list (list npfloat) * list (list (list npfloat))) :=
  let '(predictionmaps, gradientmaps) := maps in
  r0 ← or_raise (IndexError "") (Ix.item chunk_regions i);
  r1 ← or_raise (IndexError "") (Ix.item chunk_regions (i + 1));
  let pmap := concat (Py.slice chunk_predictions r0 r1) in
  let predictionmaps := (predictionmaps ++ [pmap])%list in
  match chunk_gmaps with
  | None => Return (predictionmaps, gradientmaps)
  | Some g =>
      rawseq ← or_raise (IndexError "") (Ix.item rawseqs i);
      _ ← or_raise (IndexError "") (Ix.item chunk_predictions 0);
      _ ← zeros4 (Py.len_str rawseq + windowsize - 1);
      dX ← or_raise (KeyError "dX_seq") (g !! "dX_seq");
      _ ← (if decide (pmap = []) then Raise (ValueError "") else Return tt);
      gmap ← build_gmap big windowsize stride (Py.len_str rawseq) dX r0 r1;
      Return (predictionmaps, (gradientmaps ++ [gmap])%list)
  end.

(** The body of [for ci in range(nchunk)], lines 293-343. *)
Definition scan_chunk (model : net) (data : datasrc) (windowsize stride : Z)
    (want_gmaps : pyval)
    (maps : list (list npfloat) * list (list (list npfloat))) (ci : Z)
  : outcome (list (list npfloat) * list (list (list npfloat))) :=
  let max_chunksize := 32 in
  let rawseqs := Py.slice (X_seq data) (ci * max_chunksize) ((ci + 1) * max_chunksize) in
  let chunksize := Py.len rawseqs in
  cX ← or_raise (ValueError "") (chunk_X windowsize stride rawseqs);
  let chunk := {| sequencenames := sequencenames data;
                  X_seq := concat cX;
                  preprocessors := preprocessors data |} in
  r ← gen_convnet_predictions model chunk want_gmaps;
  let '(chunk_predictions, chunk_gmaps) := r in
  let chunk_regions := cumsum (0 :: nwindows cX) in
  for_each (scan_sequence windowsize stride rawseqs chunk_predictions chunk_gmaps
              chunk_regions)
           maps (Py.range chunksize).

Definition gen_convnet_predictionmaps (model : net) (data : datasrc)
    (stride windowsize : Z) (want_gmaps : pyval)
  : outcome (list (list npfloat) * option (list (list (list npfloat)))) :=
  if 1 <? Py.len (sequencenames data)
  then Raise (ValueError "Cannot currently use --scan on multi-sequence data.")
  else
    let max_chunksize := 32 in
    let nchunk := (data_len data + max_chunksize - 1) / max_chunksize in
    maps ← for_each (scan_chunk model data windowsize stride want_gmaps)
                    ([], []) (Py.range nchunk);
    Return (fst maps, if truthy want_gmaps then Some (snd maps) else None).

End Scan.

(** ** The model store: [load_modelinfos] (lines 77-95) *)

(** The argument [include]: [None], a list of model ids, or a string
    (the path of a file of model ids, or ids separated by commas). *)
Inductive include_arg :=
| IncNone
| IncList (ids : list string)
| IncStr (s : string).

(** [if include:] *)
Definition truthy_include (include : include_arg) : bool :=
  match include with
  | IncNone => false
  | IncList ids => negb (bool_decide (ids = []))
  | IncStr s => negb (bool_decide (s = EmptyString))
  end.

(** [line.split("#")[0].rstrip()], line 84. *)
Definition include_line (line : string) : string :=
  Py.str_rstrip (default EmptyString (head (Py.str_split "#" line))).

Section ModelStore.

(** [os.path.isfile], and [open(path).readlines()]: the lines of a file
    with their line ends. *)
Variable isfile : string -> bool.
Variable readlines : string -> outcome (list string).

(** Lines 81-86: the list of ids that a truthy [include] stands for. *)
Definition include_ids (include : include_arg) : outcome (list string) :=
  match include with
  | IncStr s =>
      if isfile s
      then lines ← readlines s; Return (map include_line lines)
      else Return (Py.str_split "," s)
  | IncList ids => Return ids
  | IncNone => Return []
  end.

(** Lines 77-95 on the dictionary [modelinfos] that lines 55-75 have
    enumerated from the model directory. *)
Definition load_modelinfos (modelinfos : gmap string (gmap string string))
    (include : include_arg) : outcome (gmap string (gmap string string)) :=
  modelinfos ←
    (if truthy_include include
     then ids ← include_ids include;
          Return (filter (fun kv => kv.1 ∈ ids) modelinfos)
     else Return modelinfos);
  if decide (modelinfos = ∅)
  then Raise (ValueError "Could not find any models that match criteria.")
  else Return modelinfos.

End ModelStore.

(** ** The worker: [load_model], [is_pfm], [predict_worker.__call__]
       (lines 98-110, 350-351, 394-456) *)

(** A loaded model: the matrix of a PFM file or an unpickled network. *)
Inductive model (net : Type) :=
| PFM (pfm : list (list npfloat))
| Net (n : net).
Arguments PFM {net} pfm.
Arguments Net {net} n.

Definition is_pfm {net} (m : model net) : bool :=
  match m with PFM _ => true | Net _ => false end.

(** The values of the dictionary a job returns. *)
Inductive resval :=
| RNone
| RDirect (rows : list (list npfloat))
| RArray (a : list npfloat)
| RPmaps (pmaps : list (list npfloat))
| RGmaps (gmaps : list (list (list npfloat)))
| RGmapsByName (gmaps : gmap string (list (ginput * list (list npfloat)))).

(** The tuple [params] of a job. *)
Record params := {
  job_modelid : string;
  job_modelinfo : gmap string string;
  job_scan : option Z;
  job_stride : Z;
  job_data : datasrc;
  job_outdir : string;
  job_verbose : bool;
  job_want_pmaps : pyval;
  job_want_gmaps : pyval
}.

(** What a worker hands back: the predictions of its job, or the pair
    [(err, traceback_str)]. *)
Inductive worker_result :=
| Predictions (predictions : gmap string resval)
| Failure (err : exn) (traceback_str : string).

(** [if scan:] for [scan] that is [None] or a window size. *)
Definition truthy_scan (scan : option Z) : bool :=
  match scan with
  | Some w => negb (w =? 0)
  | None => false
  end.

Definition nl : string := String (ascii_of_nat 10) EmptyString.

Definition opt_resval {A} (f : A -> resval) (o : option A) : resval :=
  match o with Some a => f a | None => RNone end.

(** [np.asarray([np.max(pmap) for pmap in pmaps])] *)
Definition pmap_max (pmaps : list (list npfloat)) : outcome (list npfloat) :=
  mapM (fun pmap => or_raise (ValueError "") (Np.max pmap)) pmaps.

(** Lines 434-442: the predictions of a job in scan mode or on a PFM. *)
Definition scan_predictions (modelid : string) (predictions_direct : list (list npfloat))
    (pmaps : list (list npfloat)) (want_pmaps want_gmaps : pyval) (gmaps : resval)
  : outcome (gmap string resval) :=
  maxs ← pmap_max pmaps;
  let predictions : gmap string resval :=
    <[modelid +:+ ".sum" := RArray (map Np.sum pmaps)]>
      (<[modelid +:+ ".avg" := RArray (map Np.mean pmaps)]>
         (<[modelid +:+ ".max" := RArray maxs]>
            (<[modelid +:+ ".direct" := RDirect predictions_direct]> ∅))) in
  let predictions :=
    if truthy want_pmaps then <[modelid +:+ ".pmaps" := RPmaps pmaps]> predictions
    else predictions in
  let predictions :=
    if truthy want_gmaps then <[modelid +:+ ".gmaps" := gmaps]> predictions
    else predictions in
  Return predictions.

(** Lines 445-447: the predictions of a job in direct mode. *)
Definition direct_predictions (modelid : string) (predictions_direct : list (list npfloat))
    (want_gmaps : pyval) (gmaps : resval) : gmap string resval :=
  let predictions : gmap string resval := {[ modelid := RDirect predictions_direct ]} in
  if truthy want_gmaps then <[modelid +:+ ".gmaps" := gmaps]> predictions
  else predictions.

(** The keys of the predictions of the job for [modelid]: a name for the
    statements. *)
Definition result_key (modelid key : string) : Prop :=
  key = modelid
  \/ exists suffix, suffix ∈ ["direct"; "max"; "avg"; "sum"; "pmaps"; "gmaps"]
                    /\ key = modelid +:+ "." +:+ suffix.

(** The text [quit] is called with for the failure record
    [(worker_exception, traceback_str)], line 462. *)
Definition worker_error_text (worker_exception : exn) (traceback_str : string) : string :=
  "Error in Worker..." +:+ nl +:+ message worker_exception +:+ nl +:+ traceback_str.

(** The dictionary that successive [update]s build from the predictions
    of the jobs: a name for the statements. *)
Definition merged (ds : list (gmap string resval)) : gmap string resval :=
  foldl (fun acc d => d ∪ acc) ∅ ds.

Section Worker.

Variable net : Type.

(** The collaborators of a job: reading a PFM file, unpickling
    [model.pkl] from a model directory, [model.data_requirements()],
    [data.load_preprocessors(path)], and [gen_convnet_predictions]. *)
Variable read_pfm : string -> outcome (list (list npfloat)).
Variable load_pickle : string -> outcome net.
Variable data_requirements : net -> outcome unit.
Variable load_preprocessors : string -> outcome unit.
Variable gen_convnet_predictions :
  net -> datasrc -> pyval ->
  outcome (list (list npfloat) * option (gmap string (list (ginput * list (list npfloat))))).

Variable big : Q.
Variable unknown_ord : Z.

(** [globals.flags] and [globals._allow_multiprocessing] as the worker
    sees them, and [traceback.format_exc()] for the exception being
    handled. *)
Variable flags : gmap string pyval.
Variable allow_multiprocessing : bool.
Variable format_exc : exn -> string.

Definition load_model (modelinfo : gmap string string) : outcome (model net) :=
  match modelinfo !! "PFM" with
  | Some path => pfm ← read_pfm path; Return (PFM pfm)
  | None =>
      match modelinfo !! "model" with
      | Some path => n ← load_pickle path; Return (Net n)
      | None =>
          Raise (Exception "NotImplementedError"
                   "Unrecognized modelinfo. Expected it to contain 'PFM' or 'model' value.")
      end
  end.

(** The body of the [try], lines 398-449. *)
Definition job (p : params) : outcome (gmap string resval) :=
  let modelid := job_modelid p in
  let data := job_data p in
  let scan := job_scan p in
  let want_pmaps := job_want_pmaps p in
  let want_gmaps := job_want_gmaps p in
  model ← load_model (job_modelinfo p);
  _ ← match model with Net n => data_requirements n | PFM _ => Return tt end;
  _ ← (if preprocessors data then Return tt
       else path ← or_raise (IndexError "")
                      (head (map snd (map_to_list (job_modelinfo p))));
            load_preprocessors path);
  let data := {| sequencenames := sequencenames data;
                 X_seq := X_seq data;
                 preprocessors := true |} in
  r ← match model with
      | PFM pfm =>
          let predictions_direct := replicate (Z.to_nat (data_len data)) [NaN] in
          pg ← gen_pfm_predictionmaps flags unknown_ord pfm data scan want_gmaps;
          Return (predictions_direct, fst pg, opt_resval RGmaps (snd pg))
      | Net n =>
          if truthy_scan scan
          then d ← gen_convnet_predictions n data (VBool false);
               pg ← gen_convnet_predictionmaps net gen_convnet_predictions big n data
                      (job_stride p) (default 0 scan) want_gmaps;
               Return (fst d, fst pg, opt_resval RGmaps (snd pg))
          else if truthy want_pmaps
               then Raise (AssertionError
                      "In direct evaluation mode, it does not make sense to ask for a predictionmap (pmap)")
               else dg ← gen_convnet_predictions n data want_gmaps;
                    Return (fst dg, [], opt_resval RGmapsByName (snd dg))
      end;
  let '(predictions_direct, pmaps, gmaps) := r in
  if truthy_scan scan || is_pfm model
  then scan_predictions modelid predictions_direct pmaps want_pmaps want_gmaps gmaps
  else Return (direct_predictions modelid predictions_direct want_gmaps gmaps).

(** A job whose model is a PFM file that loads, on single-sequence data
    over the alphabet, with preprocessors present or loadable. *)
Record pfm_job_ok (p : params) (path : string) (pfm : list (list npfloat)) : Prop := {
  ok_modelinfo : job_modelinfo p = {[ "PFM" := path ]};
  ok_read : read_pfm path = Return pfm;
  ok_preprocessors :
    preprocessors (job_data p) = true \/ load_preprocessors path = Return tt;
  ok_unknown : 4 <= unknown_ord;
  ok_width : 1 <= Py.len pfm;
  ok_columns : four_columns pfm;
  ok_single : Py.len (sequencenames (job_data p)) <= 1;
  ok_valid : Forall valid_sequence (X_seq (job_data p))
}.

(** [predict_worker.__call__]: the [try] and its [except Exception]. *)
Definition predict_worker_call (p : params) : outcome worker_result :=
  match job p with
  | Return predictions => Return (Predictions predictions)
  | Raise err =>
      if is_Exception err
      then let traceback_str := format_exc err in
           if negb allow_multiprocessing then Raise err
           else Return (Failure err traceback_str)
      else Raise err
  end.

(** ** The device of a worker: [predict_worker.__init__] (lines 372-387) *)

(** [(int(process_id)-1) % len(devices)]: the remainder has the sign of
    the divisor, and a divisor of 0 raises. *)
Definition worker_index (ndevices process_id : Z) : outcome Z :=
  if ndevices =? 0
  then Raise (Exception "ZeroDivisionError" "integer division or modulo by zero")
  else Return ((process_id - 1) mod ndevices).

Section WorkerInit.

(** The list that [globals._devices] holds after
    [globals.set_devices(devices)], and [int] on a string. *)
Variable set_devices : list Z -> list Z.
Variable int : string -> outcome Z.

(** The worker id that the constructor assigns in the process named
    [process_name], and the device it selects with
    [globals._devices[_workerid]]. *)
Definition predict_worker_init (devices : list Z) (process_name : string)
  : outcome (Z * Z) :=
  let _devices := set_devices devices in
  _workerid ←
    (if decide (process_name = "MainProcess") then Return 0
     else match Py.str_split "-" process_name with
          | [process_type; process_id] =>
              n ← int process_id; worker_index (Py.len devices) n
          | _ => Raise (ValueError "")
          end);
  device ← or_raise (IndexError "") (Ix.item _devices _workerid);
  Return (_workerid, device).

End WorkerInit.

(** ** The orchestrator: [_check_worker_result], [predict]
       (lines 459-508) *)

Definition _check_worker_result (result : worker_result) : outcome worker_result :=
  match result with
  | Failure worker_exception traceback_str =>
      if is_Exception worker_exception
      then Raise (SystemExit (worker_error_text worker_exception traceback_str))
      else Return result
  | Predictions _ => Return result
  end.

(** [predictions.update(result)]: the entries of [result] replace those
    of [predictions]; a pair that is not a dictionary raises. *)
Definition update (predictions : gmap string resval) (result : worker_result)
  : outcome (gmap string resval) :=
  match result with
  | Predictions d => Return (d ∪ predictions)
  | Failure _ _ => Raise (Exception "TypeError" "")
  end.

(** The loop of lines 491-492 over the results of the jobs. *)
Definition collect (results : list worker_result) (acc : gmap string resval)
  : outcome (gmap string resval) :=
  for_each (fun predictions worker_predictions =>
              r ← _check_worker_result worker_predictions;
              update predictions r) acc results.

(** What [predict] does to its pool, or to the worker it runs in its own
    process: the operations in the order it performs them. *)
Inductive pool_event :=
| PoolCreate (nworker : Z)
| PoolTerminate
| PoolClose
| PoolJoin
| WorkerInit
| WorkerDelete.

(** [sorted] on strings. *)
Fixpoint insert_sorted (x : string) (l : list string) : list string :=
  match l with
  | [] => [x]
  | y :: l' => if String.leb x y then x :: l else y :: insert_sorted x l'
  end.

Definition sorted (l : list string) : list string := foldr insert_sorted [] l.

(** [workerargs], line 485. *)
Definition workerargs (data : gmap string datasrc)
    (modelinfos : gmap string (gmap string string))
    (scan : option Z) (stride : Z) (outdir : string) (verbose : bool)
    (want_pmaps want_gmaps : pyval) : outcome (list params) :=
  mapM (fun id =>
          info ← or_raise (KeyError id) (modelinfos !! id);
          d ← or_raise (KeyError id) (data !! id);
          Return {| job_modelid := id; job_modelinfo := info; job_scan := scan;
                    job_stride := stride; job_data := d; job_outdir := outdir;
                    job_verbose := verbose; job_want_pmaps := want_pmaps;
                    job_want_gmaps := want_gmaps |})
       (sorted (map fst (map_to_list modelinfos))).

(** [pool.map(_predict_worker_main, workerargs)]: the results of the
    jobs in the order of [workerargs]; an exception that leaves a worker
    is raised again in the caller. *)
Definition pool_map (wargs : list params) : outcome (list worker_result) :=
  mapM predict_worker_call wargs.

(** [predict] from line 480 on, for [data] that is a dictionary and
    [modelinfos] that [load_modelinfos] returned: the outcome and the
    operations on the pool.  [multiprocessing.Pool(nworker, ...)] of line
    488 raises [ValueError] for [nworker < 1]; it stands before the [try],
    so that no pool exists then and nothing is terminated. *)
Definition predict (devices : list Z) (data : gmap string datasrc)
    (modelinfos : gmap string (gmap string string))
    (scan : option Z) (stride : Z) (outdir : string) (verbose : bool)
    (want_pmaps want_gmaps : pyval)
  : outcome (gmap string resval) * list pool_event :=
  match workerargs data modelinfos scan stride outdir verbose want_pmaps want_gmaps with
  | Raise e => (Raise e, [])
  | Return wargs =>
      if allow_multiprocessing
      then
        if Py.len devices <? 1
        then (Raise (ValueError "Number of processes must be at least 1"), [])
        else
          match (results ← pool_map wargs; collect results ∅) with
          | Raise e => (Raise e, [PoolCreate (Py.len devices); PoolTerminate; PoolJoin])
          | Return predictions =>
              (Return predictions, [PoolCreate (Py.len devices); PoolClose; PoolJoin])
          end
      else
        match for_each (fun predictions workerarg =>
                          w ← predict_worker_call workerarg;
                          r ← _check_worker_result w;
                          update predictions r) ∅ wargs with
        | Raise e => (Raise e, [WorkerInit])
        | Return predictions => (Return predictions, [WorkerInit; WorkerDelete])
        end
  end.

(** Lines 472-474: [include = include + data.keys()], with [None]
    standing for the empty list; a string and a list do not add. *)
Definition include_with_data (include : include_arg) (data : gmap string datasrc)
  : outcome include_arg :=
  match include with
  | IncNone => Return (IncList (map fst (map_to_list data)))
  | IncList ids => Return (IncList (ids ++ map fst (map_to_list data)))
  | IncStr _ => Raise (Exception "TypeError" "cannot concatenate 'str' and 'list' objects")
  end.

(** [predict] from line 472 on, for [data] that is a dictionary, over the
    dictionary [enumerated] of the models of the directory. *)
Definition predict_from_modeldir (isfile : string -> bool)
    (readlines : string -> outcome (list string))
    (enumerated : gmap string (gmap string string))
    (devices : list Z) (data : gmap string datasrc) (include : include_arg)
    (scan : option Z) (stride : Z) (outdir : string) (verbose : bool)
    (want_pmaps want_gmaps : pyval)
  : outcome (gmap string resval) * list pool_event :=
  match (include ← include_with_data include data;
         load_modelinfos isfile readlines enumerated include) with
  | Raise e => (Raise e, [])
  | Return modelinfos =>
      predict devices data modelinfos scan stride outdir verbose want_pmaps want_gmaps
  end.

End Worker.

(** ** Sample inputs *)

(** A static-weight model of [k] positions with uniform weights. *)
Definition uniform_pfm (k : nat) : list (list npfloat) :=
  replicate k (replicate 4 (Fin (1 # 4))).

(** A batch of one sequence, "A", with one feature; its score is 5 and
    every mutated batch scores 3.  The feature of a sequence is the sum of
    its ordinals. *)
Definition sample_state : fd_state :=
  {| args := <["F" := AMat [[Fin 0]]]> (<["X_seq" := AOrd [0]]> ∅);
     dX := [[Fin 0; Fin 0; Fin 0; Fin 0]] |}.

Definition sample_featurevec (x : list Z) : outcome (list npfloat) :=
  Return [Fin (inject_Z (foldl Z.add 0 x))].

Definition sample_eval (_ : gmap string argval) : outcome (list npfloat) :=
  Return [Fin 3].

(** The same model on a device that fails when the sequence is "T". *)
Definition failing_eval (a : gmap string argval) : outcome (list npfloat) :=
  match a !! "X_seq" with
  | Some (AOrd [3]) => Raise (Exception "RuntimeError" "device lost")
  | _ => Return [Fin 3]
  end.

(** A network whose gradient of every window is 1 at every position and
    symbol, and whose score is 0. *)
Definition sample_gradients (_ : unit) (chunk : datasrc) (want_gmaps : pyval)
  : outcome (list (list npfloat) * option (gmap string (list (ginput * list (list npfloat))))) :=
  Return (map (fun _ => [Fin 0]) (X_seq chunk),
          if truthy want_gmaps
          then Some {[ "dX_seq" :=
                         map (fun w => (GSeq w, replicate (String.length w)
                                                  (replicate 4 (Fin 1))))
                             (X_seq chunk) ]}
          else None).

(** The largest finite [float32]. *)
Definition float32_max : Q := inject_Z 340282346638528859811704183484516925440.

(** One sequence, "ACGT". *)
Definition sample_data : datasrc :=
  {| sequencenames := ["seq"]; X_seq := ["ACGT"]; preprocessors := true |}.

(** Collaborators that always succeed: every PFM file holds the uniform
    matrix of width 2. *)
Definition sample_read_pfm (_ : string) : outcome (list (list npfloat)) :=
  Return (uniform_pfm 2).
Definition sample_load_pickle (_ : string) : outcome unit := Return tt.
Definition sample_requirements (_ : unit) : outcome unit := Return tt.
Definition sample_load_preprocessors (_ : string) : outcome unit := Return tt.
Definition sample_format_exc (e : exn) : string :=
  "Traceback (most recent call last): " +:+ message e.

(** A job on a PFM model that asks for gradient maps, and a job whose
    model information names neither a PFM file nor a model directory. *)
Definition pfm_job : params :=
  {| job_modelid := "m1"; job_modelinfo := {[ "PFM" := "models/m1.pfm" ]};
     job_scan := None; job_stride := 1; job_data := sample_data;
     job_outdir := "out"; job_verbose := false;
     job_want_pmaps := VBool false; job_want_gmaps := VBool true |}.

Definition bad_job : params :=
  {| job_modelid := "m2"; job_modelinfo := ∅;
     job_scan := None; job_stride := 1; job_data := sample_data;
     job_outdir := "out"; job_verbose := false;
     job_want_pmaps := VBool false; job_want_gmaps := VBool false |}.

(** A job on a network in direct mode, with or without a request for
    prediction maps, and a job on a PFM over data with two sequence
    attributes. *)
Definition net_job (want_pmaps : pyval) : params :=
  {| job_modelid := "m3"; job_modelinfo := {[ "model" := "models/m3" ]};
     job_scan := None; job_stride := 1; job_data := sample_data;
     job_outdir := "out"; job_verbose := false;
     job_want_pmaps := want_pmaps; job_want_gmaps := VBool false |}.

(** A job on a network that scans with windows of 2 symbols. *)
Definition scan_job : params :=
  {| job_modelid := "m3"; job_modelinfo := {[ "model" := "models/m3" ]};
     job_scan := Some 2; job_stride := 1; job_data := sample_data;
     job_outdir := "out"; job_verbose := false;
     job_want_pmaps := VBool false; job_want_gmaps := VBool false |}.

Definition paired_job : params :=
  {| job_modelid := "m1"; job_modelinfo := {[ "PFM" := "models/m1.pfm" ]};
     job_scan := None; job_stride := 1;
     job_data := {| sequencenames := ["seq"; "seq2"]; X_seq := ["ACGT"];
                    preprocessors := true |};
     job_outdir := "out"; job_verbose := false;
     job_want_pmaps := VBool false; job_want_gmaps := VBool false |}.

(** Two models, the PFM "m1" and "m2" whose model information is empty,
    each with the sample data. *)
Definition sample_modelinfos : gmap string (gmap string string) :=
  {[ "m1" := {[ "PFM" := "models/m1.pfm" ]}; "m2" := ∅ ]}.

Definition sample_datas : gmap string datasrc :=
  {[ "m1" := sample_data; "m2" := sample_data ]}.

(** [int] on the decimal numerals of one digit. *)
Definition sample_int (s : string) : outcome Z :=
  match s with
  | String c EmptyString =>
      let n := nat_of_ascii c in
      if Nat.leb 48 n && Nat.leb n 57 then Return (Z.of_nat n - 48)
      else Raise (ValueError "")
  | _ => Raise (ValueError "")
  end.

(** Data for the model "m1" alone, and a directory that holds it alone. *)
Definition one_data : gmap string datasrc := {[ "m1" := sample_data ]}.

Definition one_modelinfo : gmap string (gmap string string) :=
  {[ "m1" := {[ "PFM" := "models/m1.pfm" ]} ]}.

(** The gradients of the three windows "NA", "CG", "TN" that "ACGT" has
    with window size 2 and stride 2. *)
Definition sample_window_gradients : list (ginput * list (list npfloat)) :=
  map (fun w => (GSeq w, replicate 2 (replicate 4 (Fin 1)))) ["NA"; "CG"; "TN"].

(** * Part II: theorems *)

(** ** Python built-ins *)

Lemma str_length_app (a b : string) :
  String.length (a +:+ b) = (String.length a + String.length b)%nat.
Proof. induction a as [|c a IH]; simpl; [reflexivity | now rewrite IH]. Qed.

Lemma str_repeat_length (c : ascii) (n : nat) :
  String.length (Py.str_repeat (String c "") n) = n.
Proof.
  induction n as [|n IH]; [reflexivity|].
  cbn [Py.str_repeat]. rewrite str_length_app, IH. reflexivity.
Qed.

Lemma substring_length (s : string) (i n : nat) :
  String.length (substring i n s) = Nat.min n (String.length s - i).
Proof.
  revert i n. induction s as [|c s IH]; intros i n.
  - destruct i, n; reflexivity.
  - destruct i as [|i].
    + destruct n as [|n]; simpl; [reflexivity|].
      rewrite IH. rewrite Nat.sub_0_r. reflexivity.
    + simpl. apply IH.
Qed.

Lemma range_up_lookup (step : Z) (Hstep : 0 < step) (fuel : nat) :
  forall (i stop : Z) (k : nat),
    (Z.to_nat (stop - i) <= fuel)%nat ->
    Py.range_up fuel i stop step !! k =
      if i + Z.of_nat k * step <? stop then Some (i + Z.of_nat k * step) else None.
Proof.
  induction fuel as [|fuel IH]; intros i stop k Hfuel.
  - simpl. rewrite lookup_nil.
    destruct (Z.ltb_spec (i + Z.of_nat k * step) stop); [nia | reflexivity].
  - simpl. destruct (Z.ltb_spec i stop) as [Hlt|Hge].
    + destruct k as [|k].
      * simpl. rewrite Z.add_0_r.
        destruct (Z.ltb_spec i stop); [reflexivity | lia].
      * simpl lookup. rewrite IH by lia.
        replace (i + step + Z.of_nat k * step) with (i + Z.of_nat (S k) * step) by lia.
        reflexivity.
    + rewrite lookup_nil.
      destruct (Z.ltb_spec (i + Z.of_nat k * step) stop); [nia | reflexivity].
Qed.

Lemma range_up_length (step : Z) (Hstep : 0 < step) (fuel : nat) :
  forall (i stop : Z),
    (Z.to_nat (stop - i) <= fuel)%nat ->
    Py.len (Py.range_up fuel i stop step) = Z.max 0 ((stop - i + step - 1) / step).
Proof.
  unfold Py.len.
  induction fuel as [|fuel IH]; intros i stop Hfuel.
  - simpl.
    assert ((stop - i + step - 1) / step <= 0); [|lia].
    apply Z.lt_succ_r. apply Z.div_lt_upper_bound; lia.
  - simpl. destruct (Z.ltb_spec i stop) as [Hlt|Hge].
    + simpl length. rewrite Nat2Z.inj_succ. rewrite IH by lia.
      replace (stop - i + step - 1) with ((stop - (i + step) + step - 1) + 1 * step) by lia.
      rewrite Z.div_add by lia.
      assert (0 <= (stop - (i + step) + step - 1) / step); [|lia].
      apply Z.div_pos; lia.
    + simpl.
      assert ((stop - i + step - 1) / step <= 0); [|lia].
      apply Z.lt_succ_r. apply Z.div_lt_upper_bound; lia.
Qed.

Lemma range3_up (stop step : Z) (Hstep : 1 <= step) :
  exists idx, Py.range3 0 stop step = Some idx
    /\ Py.len idx = Z.max 0 ((stop + step - 1) / step)
    /\ forall k : nat,
         idx !! k = if Z.of_nat k * step <? stop then Some (Z.of_nat k * step) else None.
Proof.
  unfold Py.range3.
  destruct (Z.eqb_spec step 0); [lia|].
  destruct (Z.ltb_spec 0 step); [|lia].
  eexists. split; [reflexivity|]. split.
  - rewrite range_up_length by lia. f_equal. f_equal. lia.
  - intros k. rewrite range_up_lookup by lia. reflexivity.
Qed.

Lemma str_slice_inside (s : string) (a n : Z) :
  0 <= a -> 0 <= n -> a + n <= Py.len_str s ->
  Py.len_str (Py.str_slice s a (a + n)) = n.
Proof.
  intros Ha Hn Hfit. unfold Py.str_slice, Py.clamp_index, Py.len_str in *.
  destruct (Z.ltb_spec a 0); [lia|].
  destruct (Z.ltb_spec (a + n) 0); [lia|].
  rewrite substring_length. lia.
Qed.

(** ** Window slicer *)

Lemma padseq_length (windowsize : Z) (rawseq : string) :
  1 <= windowsize ->
  Py.len_str (padseq windowsize rawseq) = Py.len_str rawseq + 2 * (windowsize - 1).
Proof.
  intros Hw. unfold padseq, Py.len_str, Py.str_mul.
  rewrite !str_length_app, !str_repeat_length. lia.
Qed.

Lemma subwindows_general (rawseq : string) (w s : Z) :
  1 <= w -> 1 <= s ->
  let L := Py.len_str rawseq in
  let P := padseq w rawseq in
  let stop := Z.max 1 (L + w - 1) in
  exists ws,
    subwindows w s rawseq = Some ws
    /\ Py.len ws = (stop + s - 1) / s
    /\ 1 <= Py.len ws
    /\ (forall k : nat,
          ws !! k = if Z.of_nat k * s <? stop
                    then Some (Py.str_slice P (Z.of_nat k * s) (Z.of_nat k * s + w))
                    else None).
Proof.
  intros Hw Hs L P stop.
  unfold subwindows, window_starts.
  rewrite padseq_length by assumption.
  replace (Py.len_str rawseq + 2 * (w - 1) - w + 1) with (L + w - 1) by (unfold L; lia).
  fold stop.
  destruct (range3_up stop s Hs) as (idx & -> & Hlen & Hidx).
  simpl. eexists. split; [reflexivity|].
  assert (Hone : 1 <= (stop + s - 1) / s).
  { apply Z.div_le_lower_bound; unfold stop; lia. }
  unfold Py.len in *. rewrite length_map.
  split; [lia|]. split; [lia|].
  intros k. rewrite list_lookup_fmap, Hidx.
  destruct (Z.of_nat k * s <? stop); reflexivity.
Qed.

(** Claim C1, as the code has it.  For every sequence [S], window size
    [w >= 1] and stride [s >= 1]: the padded sequence is [S] with [w-1]
    symbols ['N'] on each side; the slicer returns the windows
    [padded[i : i+w]] for [i = 0, s, 2s, ...] while
    [i < max(1, len(padded) - w + 1)], in that order; there is always at
    least one window; with stride 1 their number is
    [max(1, len(S) + w - 1)].  Unless [S] is empty and [w = 1], the bound
    is [i <= len(padded) - w], every window has exactly [w] symbols, and
    with stride 1 the number of windows is [len(S) + w - 1].  The sequence
    "ACGT" with [w = 2] and stride 1 is padded to "NACGTN" and gives exactly
    "NA", "AC", "CG", "GT", "TN". *)
Theorem C1_window_slicer :
  (forall (S : string) (w s : Z), 1 <= w -> 1 <= s ->
     let L := Py.len_str S in
     let P := padseq w S in
     P = Py.str_repeat "N" (Z.to_nat (w - 1)) +:+ S +:+ Py.str_repeat "N" (Z.to_nat (w - 1))
     /\ Py.len_str P = L + 2 * (w - 1)
     /\ exists ws,
          subwindows w s S = Some ws
          /\ 1 <= Py.len ws
          /\ Py.len ws = (Z.max 1 (L + w - 1) + s - 1) / s
          /\ (forall k : nat,
                ws !! k = if Z.of_nat k * s <? Z.max 1 (Py.len_str P - w + 1)
                          then Some (Py.str_slice P (Z.of_nat k * s) (Z.of_nat k * s + w))
                          else None)
          /\ (s = 1 -> Py.len ws = Z.max 1 (L + w - 1))
          /\ (1 <= L + w - 1 ->
              (s = 1 -> Py.len ws = L + w - 1)
              /\ forall (k : nat) (win : string), ws !! k = Some win ->
                   Z.of_nat k * s <= Py.len_str P - w /\ Py.len_str win = w))
  /\ padseq 2 "ACGT" = "NACGTN"
  /\ subwindows 2 1 "ACGT" = Some ["NA"; "AC"; "CG"; "GT"; "TN"].
Proof.
  split; [|split; reflexivity].
  intros S w s Hw Hs L P.
  split; [reflexivity|].
  assert (HP : Py.len_str P = L + 2 * (w - 1)) by (apply padseq_length; assumption).
  split; [exact HP|].
  destruct (subwindows_general S w s Hw Hs) as (ws & Hws & Hlen & Hone & Hk).
  fold L in Hlen, Hk. fold P in Hk.
  exists ws. split; [exact Hws|]. split; [exact Hone|]. split; [exact Hlen|].
  replace (Py.len_str P - w + 1) with (L + w - 1) by lia.
  split; [exact Hk|].
  assert (Hs1 : s = 1 -> Py.len ws = Z.max 1 (L + w - 1)).
  { intros ->. rewrite Hlen. rewrite Z.div_1_r. lia. }
  split; [exact Hs1|].
  intros Hbig. split.
  - intros Hs'. rewrite (Hs1 Hs'). lia.
  - intros k win Hwin. rewrite Hk in Hwin.
    destruct (Z.ltb_spec (Z.of_nat k * s) (Z.max 1 (L + w - 1))) as [Hlt|]; [|discriminate].
    injection Hwin as <-.
    split; [lia|].
    apply str_slice_inside; lia.
Qed.

(** At the empty sequence with window size 1 and stride 1 the general
    statement gives one window, the one at offset 0. *)
Lemma C1_window_slicer_witness :
  exists ws, subwindows 1 1 "" = Some ws /\ Py.len ws = 1.
Proof.
  destruct C1_window_slicer as [H _].
  destruct (H "" 1 1 ltac:(lia) ltac:(lia)) as (_ & _ & ws & Hws & _ & _ & _ & Hlen & _).
  exists ws. split; [exact Hws|]. rewrite (Hlen eq_refl). reflexivity.
Defined.

(** The count [len(S) + w - 1] and the bound [i <= len(padded) - w] both
    fail for the empty sequence with window size 1: the slicer emits the
    one window at offset 0, although [len(S) + w - 1 = 0] and
    [len(padded) - w = -1]. *)
Lemma C1_counterexample :
  ~ (forall (S : string) (w : Z) (ws : list string),
       subwindows w 1 S = Some ws ->
       Py.len ws = Py.len_str S + w - 1
       /\ forall (k : nat) (win : string),
            ws !! k = Some win -> Z.of_nat k <= Py.len_str (padseq w S) - w).
Proof.
  intros H.
  destruct (H "" 1 [""] eq_refl) as [Hcount _].
  vm_compute in Hcount. discriminate.
Qed.

(** ** numpy floats *)

Lemma cmp_refl (a : npfloat) : a <> NaN -> Np.cmp a a = Some Eq.
Proof.
  destruct a as [x| | |]; intros Ha; try reflexivity; [|congruence].
  simpl. f_equal. apply Qeq_alt. reflexivity.
Qed.

Lemma cmp_antisym (a b : npfloat) : Np.cmp b a = CompOpp <$> Np.cmp a b.
Proof.
  destruct a as [x| | |], b as [y| | |]; try reflexivity.
  simpl. f_equal. symmetry. apply Qcompare_antisym.
Qed.

Lemma cmp_defined (a b : npfloat) :
  a <> NaN -> b <> NaN -> exists c, Np.cmp a b = Some c.
Proof.
  destruct a, b; intros Ha Hb; try congruence; simpl; eauto.
Qed.

Lemma lt_negb_ge (a b : npfloat) :
  a <> NaN -> b <> NaN -> Np.lt a b = negb (Np.ge a b).
Proof.
  intros Ha Hb. unfold Np.lt, Np.ge.
  destruct (cmp_defined a b Ha Hb) as [c ->]. destruct c; reflexivity.
Qed.

Lemma ge_refl (a : npfloat) : a <> NaN -> Np.ge a a = true.
Proof. intros Ha. unfold Np.ge. rewrite cmp_refl by assumption. reflexivity. Qed.

Lemma ge_total (a b : npfloat) :
  a <> NaN -> b <> NaN -> Np.ge a b = false -> Np.ge b a = true.
Proof.
  intros Ha Hb. unfold Np.ge. rewrite (cmp_antisym a b).
  destruct (cmp_defined a b Ha Hb) as [c ->]. destruct c; simpl; congruence.
Qed.

(** ** Strand resolver *)

Lemma reshape_ravel_pairs {A} (ps : list (A * A)) :
  Np.reshape_pairs (Np.ravel_pairs ps) = Some ps.
Proof.
  induction ps as [|[f r] ps IH]; [reflexivity|].
  change (Np.ravel_pairs ((f, r) :: ps)) with (f :: r :: Np.ravel_pairs ps).
  change (Np.reshape_pairs (f :: r :: Np.ravel_pairs ps))
    with (cons (f, r) <$> Np.reshape_pairs (Np.ravel_pairs ps)).
  rewrite IH. reflexivity.
Qed.

Lemma ravel_pairs_length {A} (ps : list (A * A)) :
  length (Np.ravel_pairs ps) = (2 * length ps)%nat.
Proof. induction ps as [|p ps IH]; simpl in *; lia. Qed.

Lemma ravel_pairs_lookup {A} (ps : list (A * A)) (i : nat) :
  Np.ravel_pairs ps !! (2 * i)%nat = fst <$> ps !! i
  /\ Np.ravel_pairs ps !! (2 * i + 1)%nat = snd <$> ps !! i.
Proof.
  revert i. induction ps as [|p ps IH]; intros i.
  - simpl. rewrite !lookup_nil. split; reflexivity.
  - destruct i as [|i]; [split; reflexivity|].
    replace (2 * S i)%nat with (S (S (2 * i))) by lia.
    simpl. apply IH.
Qed.

Lemma bool_index_pairs {A} (sel : A * A -> bool * bool) (ps : list (A * A)) :
  Np.bool_index (Np.ravel_pairs ps) (Np.ravel_pairs (map sel ps)) =
  flat_map (fun c => ((if fst (sel c) then [fst c] else [])
                       ++ (if snd (sel c) then [snd c] else []))%list) ps.
Proof.
  induction ps as [|c ps IH]; [reflexivity|].
  change (Np.ravel_pairs (c :: ps)) with (fst c :: snd c :: Np.ravel_pairs ps).
  change (Np.ravel_pairs (map sel (c :: ps)))
    with (fst (sel c) :: snd (sel c) :: Np.ravel_pairs (map sel ps)).
  cbn [flat_map Np.bool_index].
  destruct (fst (sel c)), (snd (sel c)); cbn [Np.bool_index]; rewrite IH; reflexivity.
Qed.

Lemma flat_map_singleton {A B} (f : A -> B) (g : A -> list B) (l : list A) :
  Forall (fun a => g a = [f a]) l -> flat_map g l = map f l.
Proof.
  induction 1 as [|a l Ha _ IH]; [reflexivity|].
  simpl. rewrite Ha, IH. reflexivity.
Qed.

Lemma maskout_revcomp_pairs (flags : gmap string pyval) (v : pyval)
    (ps : list (npfloat * npfloat)) :
  flags !! "reverse_complement" = Some v ->
  let sel := if eq_str v "force" then select_forced else select_higher in
  maskout_revcomp flags (Np.ravel_pairs ps) =
    Return (Np.bool_index (Np.ravel_pairs ps) (Np.ravel_pairs (map sel ps)),
            Some (Np.ravel_pairs (map sel ps))).
Proof.
  intros Hv sel. unfold maskout_revcomp. rewrite Hv, reshape_ravel_pairs.
  subst sel. destruct (eq_str v "force"); reflexivity.
Qed.

(** Claim C3.  With double-strand scoring disabled, resolution returns the
    scores unchanged and no mask.  With it enabled, on scores interleaved
    as (forward, reverse) pairs: in forced-reverse mode the mask is
    [False, True] for every pair and the reverse scores are kept; in normal
    mode the mask of a pair is [forward >= reverse, forward < reverse], so
    that for scores that are numbers exactly one strand of each pair is
    kept, the one with the higher score, the forward one on a tie. *)
Theorem C3_strand_resolution (flags : gmap string pyval) (ps : list (npfloat * npfloat)) :
  (flags !! "reverse_complement" = None ->
     forall Z : list npfloat, maskout_revcomp flags Z = Return (Z, None))
  /\ (flags !! "reverse_complement" = Some (VStr "force") ->
      maskout_revcomp flags (Np.ravel_pairs ps) =
        Return (map snd ps, Some (flat_map (fun _ => [false; true]) ps)))
  /\ (forall v : pyval,
        flags !! "reverse_complement" = Some v -> v <> VStr "force" ->
        exists (Zsel : list npfloat) (Zmask : list bool),
          maskout_revcomp flags (Np.ravel_pairs ps) = Return (Zsel, Some Zmask)
          /\ length Zmask = (2 * length ps)%nat
          /\ (forall (i : nat) (f r : npfloat), ps !! i = Some (f, r) ->
                Zmask !! (2 * i)%nat = Some (Np.ge f r)
                /\ Zmask !! (2 * i + 1)%nat = Some (Np.lt f r))
          /\ (Forall comparable ps ->
                Zsel = map (fun c => if Np.ge (fst c) (snd c) then fst c else snd c) ps
                /\ forall (i : nat) (f r : npfloat), ps !! i = Some (f, r) ->
                     Np.lt f r = negb (Np.ge f r)
                     /\ exists s, Zsel !! i = Some s
                          /\ (s = f \/ s = r)
                          /\ Np.ge s f = true /\ Np.ge s r = true
                          /\ (Np.cmp f r = Some Eq -> s = f))).
Proof.
  split; [|split].
  - intros Hoff Z. unfold maskout_revcomp. rewrite Hoff. reflexivity.
  - intros Hforce. rewrite (maskout_revcomp_pairs flags _ ps Hforce).
    change (eq_str (VStr "force") "force") with true. cbv iota.
    rewrite bool_index_pairs.
    rewrite (flat_map_singleton snd) by (apply Forall_forall; reflexivity).
    do 3 f_equal. clear. induction ps as [|c ps IH]; [reflexivity|].
    cbn. f_equal. f_equal. exact IH.
  - intros v Hv Hnf. rewrite (maskout_revcomp_pairs flags v ps Hv).
    assert (eq_str v "force" = false) as ->.
    { destruct v as [ |b|s]; try reflexivity. simpl.
      destruct (decide (s = "force")); [congruence | reflexivity]. }
    eexists _, _. split; [reflexivity|].
    split; [rewrite ravel_pairs_length, length_map; reflexivity|].
    split.
    + intros i f r Hi.
      destruct (ravel_pairs_lookup (map select_higher ps) i) as [-> ->].
      rewrite list_lookup_fmap, Hi. split; reflexivity.
    + intros Hcmp. rewrite bool_index_pairs.
      rewrite (flat_map_singleton
                 (fun c => if Np.ge (fst c) (snd c) then fst c else snd c)).
      2:{ eapply Forall_impl; [exact Hcmp|].
          intros [f r] [Hf Hr]. simpl in *.
          rewrite (lt_negb_ge f r Hf Hr). destruct (Np.ge f r); reflexivity. }
      split; [reflexivity|].
      intros i f r Hi.
      assert (Hfr : comparable (f, r)).
      { eapply Forall_lookup_1; [exact Hcmp | exact Hi]. }
      destruct Hfr as [Hf Hr]. simpl in Hf, Hr.
      split; [apply lt_negb_ge; assumption|].
      rewrite list_lookup_fmap, Hi. simpl.
      eexists. split; [reflexivity|].
      destruct (Np.ge f r) eqn:Hge.
      * split; [left; reflexivity|]. split; [apply ge_refl; assumption|].
        split; [exact Hge | reflexivity].
      * split; [right; reflexivity|]. split; [apply ge_total; assumption|].
        split; [apply ge_refl; assumption|].
        intros Heq. unfold Np.ge in Hge. rewrite Heq in Hge. discriminate.
Qed.

(** Two pairs in normal mode: a tie, kept forward, and a pair whose
    reverse strand scores higher. *)
Lemma C3_strand_resolution_witness :
  maskout_revcomp {[ "reverse_complement" := VBool true ]}
    [Fin 1; Fin 1; Fin 2; Fin 3]
  = Return ([Fin 1; Fin 3], Some [true; false; false; true]).
Proof.
  pose (flags := ({[ "reverse_complement" := VBool true ]} : gmap string pyval)).
  pose (ps := [(Fin 1, Fin 1); (Fin 2, Fin 3)]).
  destruct (C3_strand_resolution flags ps) as (_ & _ & H).
  destruct (H (VBool true) eq_refl ltac:(discriminate))
    as (Zsel & Zmask & Hrun & _ & _ & _).
  reflexivity.
Defined.

(** ** Calls that return *)

Lemma mapM_Return {A B} (f : A -> outcome B) (l : list A) :
  (forall a, a ∈ l -> exists b, f a = Return b) ->
  exists bs, mapM f l = Return bs /\ length bs = length l.
Proof.
  induction l as [|a l IH]; intros Hf.
  - exists []. split; reflexivity.
  - destruct (Hf a) as [b Hb]; [left|].
    destruct IH as (bs & Hbs & Hlen).
    { intros a' Ha'. apply Hf. right. exact Ha'. }
    exists (b :: bs). split; [|simpl; congruence].
    cbn [mapM]. rewrite Hb. cbn. rewrite Hbs. reflexivity.
Qed.

Lemma range_lookup (n : Z) (t : nat) :
  Py.range n !! t = if Z.of_nat t <? n then Some (Z.of_nat t) else None.
Proof.
  unfold Py.range. rewrite range_up_lookup by lia.
  replace (0 + Z.of_nat t * 1) with (Z.of_nat t) by lia. reflexivity.
Qed.

Lemma range_length (n : Z) : Py.len (Py.range n) = Z.max 0 n.
Proof.
  unfold Py.range. rewrite range_up_length by lia.
  replace (n - 0 + 1 - 1) with n by lia. rewrite Z.div_1_r. reflexivity.
Qed.

Lemma range_elem (n i : Z) : i ∈ Py.range n -> 0 <= i < n.
Proof.
  intros Hi. apply list_elem_of_lookup in Hi as [t Ht].
  rewrite range_lookup in Ht.
  destruct (Z.ltb_spec (Z.of_nat t) n); [|discriminate].
  injection Ht as <-. lia.
Qed.

Lemma slice_inside {A} (l : list A) (a n : Z) :
  0 <= a -> 0 <= n -> a + n <= Py.len l ->
  Py.len (Py.slice l a (a + n)) = n.
Proof.
  intros Ha Hn Hfit. unfold Py.slice, Py.clamp_index, Py.len in *.
  destruct (Z.ltb_spec a 0); [lia|].
  destruct (Z.ltb_spec (a + n) 0); [lia|].
  rewrite length_take, length_drop. lia.
Qed.

Lemma slice_elem {A} (l : list A) (a b : Z) (x : A) :
  x ∈ Py.slice l a b -> x ∈ l.
Proof.
  unfold Py.slice. intros Hx.
  apply elem_of_take in Hx as (i & Hi & _). rewrite lookup_drop in Hi.
  apply list_elem_of_lookup. eauto.
Qed.

(** ** Sequence encoder *)

Lemma list_ascii_app (a b : string) :
  list_ascii_of_string (a +:+ b) = (list_ascii_of_string a ++ list_ascii_of_string b)%list.
Proof. induction a as [|c a IH]; simpl; [reflexivity | now rewrite IH]. Qed.

Lemma valid_sequence_app (a b : string) :
  valid_sequence a -> valid_sequence b -> valid_sequence (a +:+ b).
Proof.
  unfold valid_sequence. intros Ha Hb. rewrite list_ascii_app.
  apply Forall_app. split; assumption.
Qed.

Lemma valid_sequence_N (n : nat) : valid_sequence (Py.str_repeat "N" n).
Proof.
  induction n as [|n IH]; [constructor|].
  cbn [Py.str_repeat]. apply valid_sequence_app; [|exact IH].
  repeat constructor.
Qed.

Lemma complement_valid (c : ascii) :
  c ∈ ["A"; "C"; "G"; "T"; "N"]%char -> complement c ∈ ["A"; "C"; "G"; "T"; "N"]%char.
Proof.
  intros H. repeat (apply elem_of_cons in H as [->|H]);
    try (apply elem_of_nil in H; contradiction); vm_compute; repeat constructor.
Qed.

Lemma valid_sequence_revcomp (s : string) :
  valid_sequence s -> valid_sequence (revcomp s).
Proof.
  induction s as [|c s IH]; intros Hs; [constructor|].
  unfold valid_sequence in Hs. simpl in Hs. apply Forall_cons in Hs as [Hc Hs].
  cbn [revcomp]. apply valid_sequence_app; [apply IH; exact Hs|].
  constructor; [apply complement_valid; exact Hc | constructor].
Qed.

Lemma revcomp_length (s : string) : String.length (revcomp s) = String.length s.
Proof.
  induction s as [|c s IH]; [reflexivity|].
  cbn [revcomp]. rewrite str_length_app, IH. simpl. lia.
Qed.

Lemma ord_of_symbol_valid (u : Z) (c : ascii) :
  c ∈ ["A"; "C"; "G"; "T"; "N"]%char ->
  exists o, ord_of_symbol u c = Some o /\ (o = u \/ 0 <= o <= 3).
Proof.
  intros H. repeat (apply elem_of_cons in H as [->|H]);
    try (apply elem_of_nil in H; contradiction);
    eexists; (split; [reflexivity|]); lia.
Qed.

Lemma acgt2ord_valid (u : Z) (s : string) :
  valid_sequence s ->
  exists x, acgt2ord u s = Return x
    /\ Py.len x = Py.len_str s
    /\ Forall (fun o => o = u \/ 0 <= o <= 3) x.
Proof.
  unfold acgt2ord, Py.len, Py.len_str.
  induction s as [|c s IH]; intros Hs.
  - exists []. repeat split. constructor.
  - unfold valid_sequence in Hs. simpl in Hs. apply Forall_cons in Hs as [Hc Hs].
    destruct (ord_of_symbol_valid u c Hc) as (o & Ho & Hrange).
    destruct (IH Hs) as (x & Hx & Hlen & Hall).
    exists (o :: x). cbn [acgt2ord_opt]. rewrite Ho. cbn.
    destruct (acgt2ord_opt u s) as [x'|]; [|discriminate].
    injection Hx as ->. cbn. split; [reflexivity|].
    split; [simpl; lia | constructor; assumption].
Qed.

(** ** Static-weight models *)

Lemma item_inside {A} (l : list A) (i : Z) :
  0 <= i < Py.len l -> exists a, Ix.item l i = Some a /\ a ∈ l.
Proof.
  intros Hi. unfold Ix.item, Py.len in *.
  destruct (Z.ltb_spec i 0); [lia|].
  destruct (lookup_lt_is_Some_2 l (Z.to_nat i)) as [a Ha]; [lia|].
  exists a. split; [exact Ha|]. apply list_elem_of_lookup. eauto.
Qed.

Lemma broadcast_defined {A B} (a : list A) (b : list B) :
  length a = length b \/ length a = 1%nat ->
  exists ab, Ix.broadcast a b = Some ab
    /\ forall p, p ∈ ab -> fst p ∈ a /\ snd p ∈ b.
Proof.
  intros Hlen. unfold Ix.broadcast.
  destruct (decide (length a = length b)) as [Heq|Hne].
  - eexists. split; [reflexivity|]. intros [x y] Hp. simpl.
    split; [eapply elem_of_zip_l | eapply elem_of_zip_r]; exact Hp.
  - destruct Hlen as [|Hone]; [contradiction|].
    destruct a as [|x [|? ?]]; try discriminate.
    eexists. split; [reflexivity|]. intros p Hp.
    apply list_elem_of_fmap in Hp as (y & -> & Hy). simpl.
    split; [left | exact Hy].
Qed.

Lemma broadcast_length {A B} (a : list A) (b : list B) (ab : list (A * B)) :
  length a = length b -> Ix.broadcast a b = Some ab -> length ab = length a.
Proof.
  intros Hlen. unfold Ix.broadcast.
  destruct (decide (length a = length b)); [|contradiction].
  intros [= <-]. rewrite length_zip. lia.
Qed.

Lemma fancy_returns (pfm : list (list npfloat)) (rows cols : list Z) :
  four_columns pfm ->
  length rows = length cols \/ length rows = 1%nat ->
  (forall t, t ∈ rows -> 0 <= t < Py.len pfm) ->
  (forall c, c ∈ cols -> 0 <= c <= 4) ->
  exists vals, Ix.fancy (pfmN_of pfm) rows cols = Return vals.
Proof.
  intros Hpfm Hlen Hrows Hcols. unfold Ix.fancy.
  destruct (broadcast_defined rows cols Hlen) as (rc & -> & Hrc). cbn.
  destruct (mapM_Return
              (fun p => r ← or_raise (IndexError "") (Ix.item (pfmN_of pfm) (fst p));
                        or_raise (IndexError "") (Ix.item r (snd p))) rc)
    as (vals & Hvals & _); [|eauto].
  intros p Hp. destruct (Hrc p Hp) as [Ht Hc].
  destruct (item_inside (pfmN_of pfm) (fst p)) as (row & -> & Hrow).
  { unfold pfmN_of, Py.len. rewrite length_map. apply Hrows, Ht. }
  cbn. unfold pfmN_of in Hrow. apply list_elem_of_fmap in Hrow as (r & -> & Hr).
  destruct (item_inside (r ++ [Fin (1 # 4)])%list (snd p)) as (v & -> & _).
  { unfold Py.len. rewrite length_app.
    unfold four_columns in Hpfm. rewrite Forall_forall in Hpfm.
    rewrite (Hpfm r Hr). simpl. specialize (Hcols _ Hc). lia. }
  eauto.
Qed.

Lemma strand_pmap_length (u : Z) (pfm : list (list npfloat)) (s0 strand : string) :
  4 <= u -> 1 <= Py.len pfm -> four_columns pfm -> valid_sequence s0 ->
  exists pmap, strand_pmap u pfm s0 strand = Return pmap
    /\ Py.len pmap = Z.max 1 (Py.len_str s0 + Py.len pfm - 1).
Proof.
  intros Hu Hk Hpfm Hs0. unfold strand_pmap.
  set (k := Py.len pfm) in *.
  set (s := if decide (strand = "rev") then revcomp s0 else s0).
  assert (Hs : valid_sequence s /\ Py.len_str s = Py.len_str s0).
  { subst s. destruct (decide (strand = "rev")); [|split; [assumption | reflexivity]].
    split; [apply valid_sequence_revcomp; assumption|].
    unfold Py.len_str. rewrite revcomp_length. reflexivity. }
  destruct Hs as [Hs HsL].
  destruct (acgt2ord_valid u (Py.str_mul "N" (k - 1) +:+ s +:+ Py.str_mul "N" (k - 1)))
    as (x & -> & Hxlen & Hx).
  { unfold Py.str_mul. repeat apply valid_sequence_app;
      [apply valid_sequence_N | exact Hs | apply valid_sequence_N]. }
  cbn.
  assert (Hn : Py.len x = Py.len_str s0 + 2 * (k - 1)).
  { rewrite Hxlen, <- HsL. unfold Py.len_str, Py.str_mul.
    rewrite !str_length_app, !str_repeat_length. lia. }
  set (x4 := map (fun o => Z.min o 4) x).
  set (body := fun i => vals ← Ix.fancy (pfmN_of pfm) (Py.range k) (Py.slice x4 i (i + k));
                        mret (foldl Np.mul (Fin 1) vals)).
  destruct (mapM_Return body (Py.range (Z.max 1 (Py.len x - k + 1))))
    as (pmap & -> & Hplen).
  { intros i Hi. apply range_elem in Hi. subst body. cbn beta.
    destruct (fancy_returns pfm (Py.range k) (Py.slice x4 i (i + k)) Hpfm)
      as (vals & ->); [| | |cbn; eauto].
    - pose proof (range_length k) as Hrk. unfold Py.len in Hrk.
      destruct (Z_le_gt_dec 1 (Py.len x - k + 1)) as [Hbig|Hsmall].
      + left.
        assert (Hsl : Py.len (Py.slice x4 i (i + k)) = k).
        { apply slice_inside; [lia | lia |].
          subst x4. unfold Py.len. rewrite length_map. fold (Py.len x). lia. }
        unfold Py.len in Hsl. lia.
      + right. unfold Py.len_str in Hn. lia.
    - intros t Ht. apply range_elem in Ht. exact Ht.
    - intros c Hc. apply slice_elem in Hc. subst x4.
      apply list_elem_of_fmap in Hc as (o & -> & Ho).
      rewrite Forall_forall in Hx. specialize (Hx o Ho). lia. }
  cbn. eexists. split; [reflexivity|].
  assert (Hlen : Py.len pmap = Z.max 1 (Py.len_str s0 + k - 1)).
  { pose proof (range_length (Z.max 1 (Py.len x - k + 1))) as Hr.
    unfold Py.len in *. lia. }
  destruct (decide (strand = "rev")); [|exact Hlen].
  unfold Py.len in *. rewrite length_reverse. exact Hlen.
Qed.

Lemma mapM_Return_Forall2 {A B} (f : A -> outcome B) (P : A -> B -> Prop) (l : list A) :
  (forall a, a ∈ l -> exists b, f a = Return b /\ P a b) ->
  exists bs, mapM f l = Return bs /\ Forall2 P l bs.
Proof.
  induction l as [|a l IH]; intros Hf.
  - exists []. split; [reflexivity | constructor].
  - destruct (Hf a) as (b & Hb & HP); [left|].
    destruct IH as (bs & Hbs & Hall).
    { intros a' Ha'. apply Hf. right. exact Ha'. }
    exists (b :: bs). split; [|constructor; assumption].
    cbn [mapM]. rewrite Hb. cbn. rewrite Hbs. reflexivity.
Qed.

Lemma add_arrays_length (a b : list npfloat) :
  length a = length b ->
  exists c, add_arrays a b = Return c /\ length c = length a.
Proof.
  intros Hlen. unfold add_arrays.
  destruct (broadcast_defined a b (or_introl Hlen)) as (ab & Hab & _).
  rewrite Hab. cbn. eexists. split; [reflexivity|].
  rewrite length_map. eapply broadcast_length; eassumption.
Qed.

(** The prediction map of a sequence of length [L] under a matrix of
    [k >= 1] positions has [max(1, L + k - 1)] entries, on one strand or
    on both. *)
Lemma gen_pfm_predictionmaps_lengths (flags : gmap string pyval) (u : Z)
    (pfm : list (list npfloat)) (data : datasrc) (windowsize : option Z)
    (want_gmaps : pyval) :
  4 <= u -> 1 <= Py.len pfm -> four_columns pfm ->
  Py.len (sequencenames data) <= 1 ->
  Forall valid_sequence (X_seq data) ->
  exists predictionmaps,
    gen_pfm_predictionmaps flags u pfm data windowsize want_gmaps =
      Return (predictionmaps, if truthy want_gmaps then Some [] else None)
    /\ Forall2 (fun s pmap => Py.len pmap = Z.max 1 (Py.len_str s + Py.len pfm - 1))
         (X_seq data) predictionmaps.
Proof.
  intros Hu Hk Hpfm Hnames Hvalid. unfold gen_pfm_predictionmaps.
  destruct (Z.ltb_spec 1 (Py.len (sequencenames data))); [lia|].
  set (strands := match flags !! "reverse_complement" with
                  | Some _ => ["fwd"; "rev"] | None => ["fwd"] end).
  set (body := fun s0 => pmaps ← mapM (strand_pmap u pfm s0) strands; _).
  destruct (mapM_Return_Forall2 body
              (fun s pmap => Py.len pmap = Z.max 1 (Py.len_str s + Py.len pfm - 1))
              (X_seq data)) as (pms & -> & Hall).
  - intros s0 Hs0. rewrite Forall_forall in Hvalid. specialize (Hvalid s0 Hs0).
    subst body. cbn beta.
    destruct (strand_pmap_length u pfm s0 "fwd" Hu Hk Hpfm Hvalid) as (pf & Hpf & Hlf).
    destruct (strand_pmap_length u pfm s0 "rev" Hu Hk Hpfm Hvalid) as (pr & Hpr & Hlr).
    subst strands. destruct (flags !! "reverse_complement").
    + cbn [mapM]. rewrite Hpf. cbn. rewrite Hpr. cbn.
      destruct (add_arrays_length pf pr) as (c & -> & Hc).
      { unfold Py.len in *. lia. }
      eexists. split; [reflexivity|]. unfold Py.len in *. lia.
    + cbn [mapM]. rewrite Hpf. cbn. eauto.
  - cbn. eauto.
Qed.

(** Claim C5, as the code has it.  For every static-weight model of width
    [k >= 1] and every single sequence of length [k],
    [gen_pfm_predictionmaps] returns one prediction map, of length
    [2k - 1]: one score per offset of the sequence padded with [k - 1]
    unknown symbols on each side.  That is 1 for [k = 1] only. *)
Theorem C5_pfm_map_length (flags : gmap string pyval) (u : Z)
    (pfm : list (list npfloat)) (names : list string) (s : string)
    (windowsize : option Z) (want_gmaps : pyval) :
  4 <= u -> 1 <= Py.len pfm -> four_columns pfm ->
  Py.len names <= 1 -> valid_sequence s -> Py.len_str s = Py.len pfm ->
  exists pmap gmaps,
    gen_pfm_predictionmaps flags u pfm {| sequencenames := names; X_seq := [s]; preprocessors := true |}
      windowsize want_gmaps = Return ([pmap], gmaps)
    /\ Py.len pmap = 2 * Py.len pfm - 1
    /\ (Py.len pmap = 1 <-> Py.len pfm = 1).
Proof.
  intros Hu Hk Hpfm Hnames Hs Hlen.
  destruct (gen_pfm_predictionmaps_lengths flags u pfm
              {| sequencenames := names; X_seq := [s]; preprocessors := true |} windowsize want_gmaps)
    as (pms & Hrun & Hall); try assumption.
  { constructor; [exact Hs | constructor]. }
  simpl in Hall. inversion Hall as [|? pmap ? pms' Hp Hrest]; subst.
  inversion Hrest; subst.
  exists pmap. eexists. split; [exact Hrun|]. lia.
Qed.

(** A model of width 2 on the sequence "AC". *)
Lemma C5_pfm_map_length_witness :
  exists pmap gmaps,
    gen_pfm_predictionmaps ∅ 255 (uniform_pfm 2)
      {| sequencenames := ["seq"]; X_seq := ["AC"]; preprocessors := true |} (Some 24) (VBool false)
    = Return ([pmap], gmaps)
    /\ Py.len pmap = 3.
Proof.
  destruct (C5_pfm_map_length ∅ 255 (uniform_pfm 2) ["seq"] "AC" (Some 24) (VBool false))
    as (pmap & gmaps & Hrun & Hlen & _).
  - lia.
  - vm_compute. discriminate.
  - repeat constructor.
  - vm_compute. discriminate.
  - repeat constructor.
  - reflexivity.
  - exists pmap, gmaps. split; [exact Hrun | exact Hlen].
Defined.

(** A model of width 2 on a sequence of length 2: the prediction map has
    three entries, not one. *)
Lemma C5_counterexample :
  ~ (forall (pfm : list (list npfloat)) (s : string) (pmap : list npfloat)
            (gmaps : option (list (list (list npfloat)))),
       four_columns pfm -> Py.len_str s = Py.len pfm ->
       gen_pfm_predictionmaps ∅ 255 pfm {| sequencenames := ["seq"]; X_seq := [s]; preprocessors := true |}
         (Some 24) (VBool false) = Return ([pmap], gmaps) ->
       Py.len pmap = 1).
Proof.
  intros H.
  specialize (H (uniform_pfm 2) "AC"
                [Fin ((1 # 4) * (1 # 4))%Q; Fin ((1 # 4) * (1 # 4))%Q;
                 Fin ((1 # 4) * (1 # 4))%Q] None).
  assert (Hlen : Py.len [Fin ((1 # 4) * (1 # 4))%Q; Fin ((1 # 4) * (1 # 4))%Q;
                         Fin ((1 # 4) * (1 # 4))%Q] = 1); [|discriminate Hlen].
  apply H.
  - repeat constructor.
  - reflexivity.
  - vm_compute. reflexivity.
Qed.

(** ** Attribution by finite differences *)





Lemma item_set_item {A} (l l' : list A) (i : Z) (v : A) :
  Ix.set_item l i v = Some l' -> Ix.item l' i = Some v /\ length l' = length l.
Proof.
  unfold Ix.set_item, Ix.item, Py.len. intros Hset.
  destruct (Z.ltb_spec i 0) as [Hneg|Hpos].
  - destruct (Z.leb_spec 0 (i + Z.of_nat (length l))) as [Hlo|]; [|discriminate].
    destruct (Z.ltb_spec (i + Z.of_nat (length l)) (Z.of_nat (length l))); [|discriminate].
    injection Hset as <-. rewrite length_insert.
    destruct (Z.leb_spec 0 (i + Z.of_nat (length l))); [|lia].
    split; [|reflexivity]. apply list_lookup_insert_eq. lia.
  - destruct (Z.leb_spec 0 i); [|lia].
    destruct (Z.ltb_spec i (Z.of_nat (length l))); [|discriminate].
    injection Hset as <-. rewrite length_insert.
    split; [|reflexivity]. apply list_lookup_insert_eq. lia.
Qed.

Section FiniteDiffFacts.

Variable eval_Z : gmap string argval -> outcome (list npfloat).
Variable generate_dinuc_featurevec : list Z -> outcome (list npfloat).
Variable flags : gmap string pyval.
Variable key : string.
Variable X : list Z.
Variable R : list (Z * Z).
Variable pad : Z.
Variable Zorig : list npfloat.
Variable nbase : Z.


(** A state property that every iteration keeps is kept by the loop,
    whether it ends or raises. *)
Lemma for_state_invariant {A S} (P : S -> Prop) (body : A -> S -> outcome unit * S)
    (l : list A) :
  (forall a s, P s -> P (snd (body a s))) ->
  forall s, P s -> P (snd (for_state body l s)).
Proof.
  intros Hbody. induction l as [|a l IH]; intros s Hs; [exact Hs|].
  cbn [for_state]. specialize (Hbody a s Hs).
  destruct (body a s) as [[[]|e] s']; simpl in *; [apply IH|]; assumption.
Qed.

(** [fd_step] touches [args] at [key] and at ['F'] only. *)
Lemma fd_step_frame (i j : Z) (st : fd_state) (name : string) :
  name <> key -> name <> "F" ->
  args (snd (fd_step eval_Z generate_dinuc_featurevec flags key X R pad Zorig i j st)) !! name
  = args st !! name.
Proof.
  intros Hk HF. unfold fd_step.
  destruct (F ← args_F (args st); for_each _ (X, F) _) as [[mtX mtF]|e]; [|reflexivity].
  destruct (eval_and_record _ _ _ _ _ _ _ _) as [dX'|e]; simpl;
    rewrite !lookup_insert_ne by congruence; reflexivity.
Qed.

End FiniteDiffFacts.







Section FiniteDiffCells.

Variable eval_Z : gmap string argval -> outcome (list npfloat).
Variable generate_dinuc_featurevec : list Z -> outcome (list npfloat).
Variable flags : gmap string pyval.
Variable key : string.
Variable X : list Z.
Variable R : list (Z * Z).
Variable pad : Z.
Variable Zorig : list npfloat.
Variable nbase : Z.








End FiniteDiffCells.






(** Claim C9, as the code has it.  When the finite-difference block
    returns, [args['F']] is bound to the value it had on entry, and every
    other argument except the mutated sequence attribute [key] is
    unchanged; the buffers the block evaluated on were copies. *)
Theorem C9_feature_buffer_restored
    (eval_Z : gmap string argval -> outcome (list npfloat))
    (generate_dinuc_featurevec : list Z -> outcome (list npfloat))
    (flags : gmap string pyval) (key : string) (X : list Z) (R : list (Z * Z))
    (pad : Z) (Zorig : list npfloat) (nbase : Z) (st st' : fd_state) :
  finite_diff eval_Z generate_dinuc_featurevec flags key X R pad Zorig nbase st
    = (Return tt, st') ->
  args st' !! "F" = args st !! "F"
  /\ forall name : string, name <> key -> args st' !! name = args st !! name.
Proof.
  unfold finite_diff. intros Hrun.
  destruct (args st !! "F") as [oldF|] eqn:HF; [|discriminate].
  destruct (Xlen_max R) as [n|e]; [|discriminate].
  set (P := fun s : fd_state => forall name : string,
              name <> key -> name <> "F" -> args s !! name = args st !! name).
  assert (Hinner : forall (i : Z) (s : fd_state), P s ->
            P (snd (for_state
                      (fun j => fd_step eval_Z generate_dinuc_featurevec flags key
                                  X R pad Zorig i j) (Py.range nbase) s))).
  { intros i s Hs. apply (for_state_invariant P); [|exact Hs].
    intros j s0 Hs0 name Hk HnF. rewrite fd_step_frame by assumption.
    apply Hs0; assumption. }
  assert (Hend : P (snd (for_state
                           (fun i => for_state
                              (fun j => fd_step eval_Z generate_dinuc_featurevec flags
                                          key X R pad Zorig i j) (Py.range nbase))
                           (Py.range n) st))).
  { apply (for_state_invariant P); [exact Hinner|]. intros name _ _. reflexivity. }
  destruct (for_state _ (Py.range n) st) as [[[]|e] st'']; [|discriminate].
  injection Hrun as <-. simpl in Hend |- *.
  split; [rewrite lookup_insert_eq; reflexivity|].
  intros name Hkey. destruct (decide (name = "F")) as [->|HnF].
  - rewrite lookup_insert_eq. symmetry. exact HF.
  - rewrite lookup_insert_ne by congruence. apply Hend; assumption.
Qed.

(** The sample batch: the block returns and ['F'] is what it was. *)
Lemma C9_feature_buffer_restored_witness :
  exists st',
    finite_diff sample_eval sample_featurevec ∅ "X_seq" [0] [(0, 1)] 0 [Fin 5] 4
      sample_state = (Return tt, st')
    /\ args st' !! "F" = Some (AMat [[Fin 0]]).
Proof.
  eexists. split; [vm_compute; reflexivity|].
  refine (proj1 (C9_feature_buffer_restored sample_eval sample_featurevec ∅ "X_seq"
                   [0] [(0, 1)] 0 [Fin 5] 4 sample_state _ _)).
  vm_compute. reflexivity.
Defined.

(** When the evaluation of a mutated batch raises, the exception leaves
    the block with ['F'] bound to the mutated features. *)
Lemma C9_counterexample :
  exists e st',
    finite_diff failing_eval sample_featurevec ∅ "X_seq" [0] [(0, 1)] 0 [Fin 5] 4
      sample_state = (Raise e, st')
    /\ args sample_state !! "F" = Some (AMat [[Fin 0]])
    /\ args st' !! "F" = Some (AMat [[Fin 3]]).
Proof.
  eexists _, _. split; [vm_compute; reflexivity|]. split; reflexivity.
Qed.

(** ** The worker *)

Section WorkerFacts.

Variable net : Type.
Variable read_pfm : string -> outcome (list (list npfloat)).
Variable load_pickle : string -> outcome net.
Variable data_requirements : net -> outcome unit.
Variable load_preprocessors : string -> outcome unit.
Variable gen_convnet_predictions :
  net -> datasrc -> pyval ->
  outcome (list (list npfloat) * option (gmap string (list (ginput * list (list npfloat))))).
Variable big : Q.
Variable unknown_ord : Z.
Variable flags : gmap string pyval.
Variable allow_multiprocessing : bool.
Variable format_exc : exn -> string.

Let the_job : params -> outcome (gmap string resval) :=
  job net read_pfm load_pickle data_requirements load_preprocessors
    gen_convnet_predictions big unknown_ord flags.

Let call : params -> outcome worker_result :=
  predict_worker_call net read_pfm load_pickle data_requirements load_preprocessors
    gen_convnet_predictions big unknown_ord flags allow_multiprocessing format_exc.

(** Claim C7.  An exception of a class deriving from [Exception] that
    the job raises does not leave the worker: the worker returns the
    failure record of the exception and its traceback text.  With
    multiprocessing disabled the worker raises it again instead.  A job
    that returns has its predictions returned. *)
Theorem C7_worker_boundary (p : params) :
  (forall cls msg : string,
     the_job p = Raise (Exception cls msg) ->
     call p = if allow_multiprocessing
              then Return (Failure (Exception cls msg) (format_exc (Exception cls msg)))
              else Raise (Exception cls msg))
  /\ (forall predictions : gmap string resval,
        the_job p = Return predictions -> call p = Return (Predictions predictions)).
Proof.
  subst the_job call. unfold predict_worker_call. split.
  - intros cls msg ->. simpl. destruct allow_multiprocessing; reflexivity.
  - intros predictions ->. reflexivity.
Qed.

(** A worker returns a failure record only for an [Exception], and only
    with multiprocessing enabled. *)
Lemma predict_worker_call_Failure (p : params) (err : exn) (tb : string) :
  call p = Return (Failure err tb) ->
  is_Exception err = true /\ allow_multiprocessing = true
  /\ the_job p = Raise err /\ tb = format_exc err.
Proof.
  subst the_job call. unfold predict_worker_call.
  destruct (job _ _ _ _ _ _ _ _ _ p) as [d|e]; [discriminate|].
  destruct (is_Exception e) eqn:He; [|discriminate].
  destruct allow_multiprocessing; [|discriminate].
  intros [= <- <-]. repeat split; assumption.
Qed.

Lemma predict_worker_call_Predictions (p : params) (d : gmap string resval) :
  call p = Return (Predictions d) -> the_job p = Return d.
Proof.
  subst the_job call. unfold predict_worker_call.
  destruct (job _ _ _ _ _ _ _ _ _ p) as [d'|e]; [congruence|].
  destruct (is_Exception e); [|discriminate].
  destruct allow_multiprocessing; discriminate.
Qed.

End WorkerFacts.

(** A job without a usable model raises [NotImplementedError]; with
    multiprocessing the worker returns it as a failure record. *)
Lemma C7_worker_boundary_witness :
  predict_worker_call unit sample_read_pfm sample_load_pickle sample_requirements
    sample_load_preprocessors sample_gradients float32_max 255 ∅ true sample_format_exc
    bad_job
  = Return (Failure
              (Exception "NotImplementedError"
                 "Unrecognized modelinfo. Expected it to contain 'PFM' or 'model' value.")
              (sample_format_exc
                 (Exception "NotImplementedError"
                    "Unrecognized modelinfo. Expected it to contain 'PFM' or 'model' value."))).
Proof.
  refine (proj1 (C7_worker_boundary unit sample_read_pfm sample_load_pickle
                   sample_requirements sample_load_preprocessors sample_gradients
                   float32_max 255 ∅ true sample_format_exc bad_job) _ _ _).
  reflexivity.
Defined.

(** ** The predictions of a job *)

Arguments scan_predictions : simpl never.
Arguments direct_predictions : simpl never.
Arguments gen_pfm_predictionmaps : simpl never.

Ltac key_neq :=
  let H := fresh in
  intros H; apply (inj (String.append _)) in H; discriminate H.

Lemma pmap_max_returns (pmaps : list (list npfloat)) :
  Forall (fun pmap => 1 <= Py.len pmap) pmaps ->
  exists maxs, pmap_max pmaps = Return maxs.
Proof.
  intros Hne. unfold pmap_max.
  destruct (mapM_Return (fun pmap => or_raise (ValueError "") (Np.max pmap)) pmaps)
    as (maxs & Hmaxs & _); [|eauto].
  intros pmap Hin. rewrite Forall_forall in Hne. specialize (Hne pmap Hin).
  destruct pmap as [|x pmap]; [unfold Py.len in Hne; simpl in Hne; lia|].
  cbn. eauto.
Qed.

Lemma scan_predictions_returns (modelid : string) (pd : list (list npfloat))
    (pmaps : list (list npfloat)) (wp wg : pyval) (g : resval) :
  Forall (fun pmap => 1 <= Py.len pmap) pmaps ->
  exists d, scan_predictions modelid pd pmaps wp wg g = Return d.
Proof.
  intros Hne. destruct (pmap_max_returns pmaps Hne) as [maxs Hmaxs].
  unfold scan_predictions. rewrite Hmaxs. cbn. eauto.
Qed.

Lemma scan_predictions_direct (modelid : string) (pd : list (list npfloat))
    (pmaps : list (list npfloat)) (wp wg : pyval) (g : resval) (d : gmap string resval) :
  scan_predictions modelid pd pmaps wp wg g = Return d ->
  d !! (modelid +:+ ".direct") = Some (RDirect pd).
Proof.
  unfold scan_predictions. destruct (pmap_max pmaps) as [maxs|e]; [|discriminate].
  cbn. intros [= <-].
  destruct (truthy wg), (truthy wp);
    repeat (rewrite lookup_insert_ne by key_neq); apply lookup_insert_eq.
Qed.

Lemma scan_predictions_gmaps (modelid : string) (pd : list (list npfloat))
    (pmaps : list (list npfloat)) (wp wg : pyval) (g : resval) (d : gmap string resval) :
  scan_predictions modelid pd pmaps wp wg g = Return d ->
  truthy wg = true ->
  d !! (modelid +:+ ".gmaps") = Some g.
Proof.
  unfold scan_predictions. destruct (pmap_max pmaps) as [maxs|e]; [|discriminate].
  cbn. intros [= <-] ->. apply lookup_insert_eq.
Qed.

Lemma result_key_suffix (modelid suffix : string) :
  suffix ∈ ["direct"; "max"; "avg"; "sum"; "pmaps"; "gmaps"] ->
  result_key modelid (modelid +:+ String "." suffix).
Proof. intros Hs. right. exists suffix. split; [exact Hs | reflexivity]. Qed.

Lemma scan_predictions_keys (modelid : string) (pd : list (list npfloat))
    (pmaps : list (list npfloat)) (wp wg : pyval) (g : resval) (d : gmap string resval) :
  scan_predictions modelid pd pmaps wp wg g = Return d ->
  forall key, is_Some (d !! key) -> result_key modelid key.
Proof.
  unfold scan_predictions. destruct (pmap_max pmaps) as [maxs|e]; [|discriminate].
  cbn. intros [= <-] key [v Hv].
  destruct (truthy wg), (truthy wp);
    repeat (apply lookup_insert_Some in Hv as [[<- _]|[_ Hv]];
            [apply result_key_suffix; set_solver|]);
    rewrite lookup_empty in Hv; discriminate.
Qed.

Lemma direct_predictions_keys (modelid : string) (pd : list (list npfloat))
    (wg : pyval) (g : resval) :
  forall key, is_Some (direct_predictions modelid pd wg g !! key) -> result_key modelid key.
Proof.
  unfold direct_predictions. intros key [v Hv].
  destruct (truthy wg).
  - apply lookup_insert_Some in Hv as [[<- _]|[_ Hv]];
      [apply result_key_suffix; set_solver|].
    apply lookup_singleton_Some in Hv as [<- _]. left. reflexivity.
  - apply lookup_singleton_Some in Hv as [<- _]. left. reflexivity.
Qed.

Section PfmJob.

Variable net : Type.
Variable read_pfm : string -> outcome (list (list npfloat)).
Variable load_pickle : string -> outcome net.
Variable data_requirements : net -> outcome unit.
Variable load_preprocessors : string -> outcome unit.
Variable gen_convnet_predictions :
  net -> datasrc -> pyval ->
  outcome (list (list npfloat) * option (gmap string (list (ginput * list (list npfloat))))).
Variable big : Q.
Variable unknown_ord : Z.
Variable flags : gmap string pyval.
Variable allow_multiprocessing : bool.
Variable format_exc : exn -> string.

Let the_job : params -> outcome (gmap string resval) :=
  job net read_pfm load_pickle data_requirements load_preprocessors
    gen_convnet_predictions big unknown_ord flags.

Let call : params -> outcome worker_result :=
  predict_worker_call net read_pfm load_pickle data_requirements load_preprocessors
    gen_convnet_predictions big unknown_ord flags allow_multiprocessing format_exc.

(** The NaN rows that stand for the direct predictions of a PFM. *)
Let nan_rows (p : params) : list (list npfloat) :=
  replicate (Z.to_nat (data_len (job_data p))) [NaN].

Lemma pfm_job_returns (p : params) (path : string) (pfm : list (list npfloat)) :
  pfm_job_ok read_pfm load_preprocessors unknown_ord p path pfm ->
  exists pmaps d,
    the_job p = Return d
    /\ scan_predictions (job_modelid p) (nan_rows p) pmaps
         (job_want_pmaps p) (job_want_gmaps p)
         (opt_resval RGmaps (if truthy (job_want_gmaps p) then Some [] else None))
       = Return d.
Proof.
  intros [Hinfo Hread Hprep Hu Hk Hcols Hsingle Hvalid].
  subst the_job nan_rows. unfold job, load_model.
  rewrite Hinfo, lookup_singleton_eq, Hread. cbn.
  assert (Hp : (if preprocessors (job_data p) then Return tt
                else path0 ← or_raise (IndexError "")
                               (head (map snd (map_to_list
                                  ({[ "PFM" := path ]} : gmap string string))));
                     load_preprocessors path0) = Return tt).
  { destruct (preprocessors (job_data p)); [reflexivity|].
    destruct Hprep as [|Hload]; [discriminate|].
    rewrite map_to_list_singleton. cbn. exact Hload. }
  rewrite Hp. cbn.
  destruct (gen_pfm_predictionmaps_lengths flags unknown_ord pfm
              {| sequencenames := sequencenames (job_data p);
                 X_seq := X_seq (job_data p); preprocessors := true |}
              (job_scan p) (job_want_gmaps p))
    as (pmaps & Hrun & Hlens); try assumption.
  rewrite Hrun. cbn. rewrite orb_true_r.
  destruct (scan_predictions_returns (job_modelid p)
              (replicate (Z.to_nat (data_len (job_data p))) [NaN]) pmaps
              (job_want_pmaps p) (job_want_gmaps p)
              (opt_resval RGmaps (if truthy (job_want_gmaps p) then Some [] else None)))
    as [d Hd].
  { clear -Hlens. simpl in Hlens.
    induction Hlens as [|s pm ss pms Hpm _ IH]; constructor; [lia | exact IH]. }
  exists pmaps, d. split; exact Hd.
Qed.

(** Whatever a job on a PFM returns has the NaN rows under ["direct"]. *)
Lemma pfm_job_direct (p : params) (pfm : list (list npfloat)) (d : gmap string resval) :
  load_model net read_pfm load_pickle (job_modelinfo p) = Return (PFM pfm) ->
  the_job p = Return d ->
  d !! (job_modelid p +:+ ".direct") = Some (RDirect (nan_rows p)).
Proof.
  intros Hload. subst the_job nan_rows. unfold job. rewrite Hload. cbn.
  destruct (if preprocessors (job_data p) then _ else _) as [[]|e]; [|discriminate].
  cbn. destruct (gen_pfm_predictionmaps _ _ _ _ _ _) as [[pmaps gm]|e]; [|discriminate].
  cbn. rewrite orb_true_r. apply scan_predictions_direct.
Qed.

End PfmJob.

(** Claim C6, as the code has it.  A job that requests attribution maps
    on a static-weight model, in finite-difference mode or not, is not
    refused: when the model file loads and the data is a single sequence
    attribute over the alphabet, the worker returns predictions, and their
    entry ["<model_id>.gmaps"] is the empty list.  The check that would
    raise is commented out at lines 416-417. *)
Theorem C6_pfm_gmaps_not_refused
    (net : Type)
    (read_pfm : string -> outcome (list (list npfloat)))
    (load_pickle : string -> outcome net)
    (data_requirements : net -> outcome unit)
    (load_preprocessors : string -> outcome unit)
    (gen_convnet_predictions :
       net -> datasrc -> pyval ->
       outcome (list (list npfloat)
                * option (gmap string (list (ginput * list (list npfloat))))))
    (big : Q) (unknown_ord : Z) (flags : gmap string pyval)
    (allow_multiprocessing : bool) (format_exc : exn -> string)
    (p : params) (path : string) (pfm : list (list npfloat)) :
  pfm_job_ok read_pfm load_preprocessors unknown_ord p path pfm ->
  truthy (job_want_gmaps p) = true ->
  exists predictions,
    predict_worker_call net read_pfm load_pickle data_requirements load_preprocessors
      gen_convnet_predictions big unknown_ord flags allow_multiprocessing format_exc p
    = Return (Predictions predictions)
    /\ predictions !! (job_modelid p +:+ ".gmaps") = Some (RGmaps []).
Proof.
  intros Hok Hwant.
  destruct (pfm_job_returns net read_pfm load_pickle data_requirements load_preprocessors
              gen_convnet_predictions big unknown_ord flags p path pfm Hok)
    as (pmaps & d & Hjob & Hd).
  exists d. split.
  - unfold predict_worker_call. rewrite Hjob. reflexivity.
  - rewrite Hwant in Hd. apply (scan_predictions_gmaps _ _ _ _ _ _ _ Hd Hwant).
Qed.

Lemma pfm_job_is_ok :
  pfm_job_ok sample_read_pfm sample_load_preprocessors 255 pfm_job "models/m1.pfm"
    (uniform_pfm 2).
Proof.
  constructor;
    first [ reflexivity | left; reflexivity | lia
          | vm_compute; discriminate | repeat constructor ].
Qed.

(** The sample job on a PFM with [want_gmaps = True]. *)
Lemma C6_pfm_gmaps_not_refused_witness :
  exists predictions,
    predict_worker_call unit sample_read_pfm sample_load_pickle sample_requirements
      sample_load_preprocessors sample_gradients float32_max 255 ∅ true sample_format_exc
      pfm_job
    = Return (Predictions predictions)
    /\ predictions !! "m1.gmaps" = Some (RGmaps []).
Proof.
  exact (C6_pfm_gmaps_not_refused unit sample_read_pfm sample_load_pickle
           sample_requirements sample_load_preprocessors sample_gradients float32_max 255
           ∅ true sample_format_exc pfm_job "models/m1.pfm" (uniform_pfm 2)
           pfm_job_is_ok eq_refl).
Defined.

(** A job that asks for gradient maps of a PFM, not in finite-difference
    mode, returns: no error is signalled. *)
Lemma C6_counterexample :
  ~ (forall p : params,
       job_modelinfo p = {[ "PFM" := "models/m1.pfm" ]} ->
       job_want_gmaps p = VBool true ->
       exists e,
         job unit sample_read_pfm sample_load_pickle sample_requirements
           sample_load_preprocessors sample_gradients float32_max 255 ∅ p = Raise e).
Proof.
  intros H. destruct (H pfm_job eq_refl eq_refl) as [e He].
  destruct (pfm_job_returns unit sample_read_pfm sample_load_pickle sample_requirements
              sample_load_preprocessors sample_gradients float32_max 255 ∅
              pfm_job "models/m1.pfm" (uniform_pfm 2) pfm_job_is_ok)
    as (pmaps & d & Hjob & _).
  rewrite Hjob in He. discriminate.
Qed.

(** Claim C10.  On a static-weight model the entry ["<model_id>.direct"]
    of the predictions a job returns is an array of NaN, one row per input
    sequence; and the job does return when the model file loads and the
    data is a single sequence attribute over the alphabet. *)
Theorem C10_pfm_direct_is_nan
    (net : Type)
    (read_pfm : string -> outcome (list (list npfloat)))
    (load_pickle : string -> outcome net)
    (data_requirements : net -> outcome unit)
    (load_preprocessors : string -> outcome unit)
    (gen_convnet_predictions :
       net -> datasrc -> pyval ->
       outcome (list (list npfloat)
                * option (gmap string (list (ginput * list (list npfloat))))))
    (big : Q) (unknown_ord : Z) (flags : gmap string pyval)
    (p : params) (pfm : list (list npfloat)) :
  load_model net read_pfm load_pickle (job_modelinfo p) = Return (PFM pfm) ->
  (forall predictions,
     job net read_pfm load_pickle data_requirements load_preprocessors
       gen_convnet_predictions big unknown_ord flags p = Return predictions ->
     exists rows,
       predictions !! (job_modelid p +:+ ".direct") = Some (RDirect rows)
       /\ Py.len rows = data_len (job_data p)
       /\ Forall (fun row => row = [NaN]) rows)
  /\ (forall path,
        pfm_job_ok read_pfm load_preprocessors unknown_ord p path pfm ->
        exists predictions,
          job net read_pfm load_pickle data_requirements load_preprocessors
            gen_convnet_predictions big unknown_ord flags p = Return predictions).
Proof.
  intros Hload. split.
  - intros d Hjob. eexists. split.
    + exact (pfm_job_direct net read_pfm load_pickle data_requirements load_preprocessors
               gen_convnet_predictions big unknown_ord flags p pfm d Hload Hjob).
    + split.
      * unfold Py.len, data_len. rewrite length_replicate. unfold Py.len. lia.
      * apply Forall_replicate. reflexivity.
  - intros path Hok.
    destruct (pfm_job_returns net read_pfm load_pickle data_requirements load_preprocessors
                gen_convnet_predictions big unknown_ord flags p path pfm Hok)
      as (pmaps & d & Hjob & _).
    eauto.
Qed.

(** The sample job on a PFM: one sequence, one row of NaN. *)
Lemma C10_pfm_direct_is_nan_witness :
  exists predictions,
    job unit sample_read_pfm sample_load_pickle sample_requirements
      sample_load_preprocessors sample_gradients float32_max 255 ∅ pfm_job
    = Return predictions
    /\ predictions !! "m1.direct" = Some (RDirect [[NaN]]).
Proof.
  destruct (C10_pfm_direct_is_nan unit sample_read_pfm sample_load_pickle
              sample_requirements sample_load_preprocessors sample_gradients
              float32_max 255 ∅ pfm_job (uniform_pfm 2) eq_refl) as [Hdirect Hret].
  destruct (Hret "models/m1.pfm" pfm_job_is_ok) as [d Hd].
  exists d. split; [exact Hd|].
  destruct (Hdirect d Hd) as (rows & Hrows & Hlen & Hall).
  change (job_modelid pfm_job +:+ ".direct") with "m1.direct" in Hrows.
  rewrite Hrows. do 2 f_equal.
  destruct rows as [|r [|r' rows]].
  - discriminate Hlen.
  - inversion Hall; subst. reflexivity.
  - exfalso. revert Hlen. unfold Py.len, data_len, Py.len. simpl. lia.
Defined.

(** ** The orchestrator *)

Lemma mapM_Return_inv {A B} (f : A -> outcome B) (l : list A) (bs : list B) :
  mapM f l = Return bs -> Forall2 (fun a b => f a = Return b) l bs.
Proof.
  revert bs. induction l as [|a l IH]; intros bs.
  - cbn. intros [= <-]. constructor.
  - cbn [mapM]. destruct (f a) as [b|e] eqn:Hb; [|discriminate].
    cbn. destruct (mapM f l) as [bs'|e]; [|discriminate].
    cbn. intros [= <-]. constructor; [exact Hb | apply IH; reflexivity].
Qed.

Lemma collect_predictions (ds : list (gmap string resval)) (acc : gmap string resval) :
  collect (map Predictions ds) acc = Return (foldl (fun acc d => d ∪ acc) acc ds).
Proof.
  revert acc. induction ds as [|d ds IH]; intros acc; [reflexivity|].
  cbn. apply IH.
Qed.

Lemma collect_failure (ds : list (gmap string resval)) (err : exn) (tb : string)
    (rest : list worker_result) (acc : gmap string resval) :
  is_Exception err = true ->
  collect (map Predictions ds ++ Failure err tb :: rest)%list acc
  = Raise (SystemExit (worker_error_text err tb)).
Proof.
  intros He. revert acc. induction ds as [|d ds IH]; intros acc.
  - cbn. rewrite He. reflexivity.
  - cbn. apply IH.
Qed.

(** A list of results is all predictions, or has a first failure. *)
Lemma results_split (results : list worker_result) :
  (exists ds, results = map Predictions ds)
  \/ (exists ds err tb rest,
        results = (map Predictions ds ++ Failure err tb :: rest)%list).
Proof.
  induction results as [|r results IH].
  - left. exists []. reflexivity.
  - destruct r as [d|err tb].
    + destruct IH as [[ds ->]|(ds & err & tb & rest & ->)].
      * left. exists (d :: ds). reflexivity.
      * right. exists (d :: ds), err, tb, rest. reflexivity.
    + right. exists [], err, tb, results. reflexivity.
Qed.

Lemma merged_lookup (ds : list (gmap string resval)) (acc : gmap string resval)
    (key : string) (v : resval) :
  foldl (fun acc d => d ∪ acc) acc ds !! key = Some v ->
  acc !! key = Some v \/ exists d, d ∈ ds /\ d !! key = Some v.
Proof.
  revert acc. induction ds as [|d ds IH]; intros acc Hv; [left; exact Hv|].
  cbn in Hv. apply IH in Hv as [Hv|(d' & Hd' & Hv)].
  - apply lookup_union_Some_raw in Hv as [Hv|[_ Hv]].
    + right. exists d. split; [left | exact Hv].
    + left. exact Hv.
  - right. exists d'. split; [right; exact Hd' | exact Hv].
Qed.

Arguments gen_convnet_predictionmaps : simpl never.

Section PredictFacts.

Variable net : Type.
Variable read_pfm : string -> outcome (list (list npfloat)).
Variable load_pickle : string -> outcome net.
Variable data_requirements : net -> outcome unit.
Variable load_preprocessors : string -> outcome unit.
Variable gen_convnet_predictions :
  net -> datasrc -> pyval ->
  outcome (list (list npfloat) * option (gmap string (list (ginput * list (list npfloat))))).
Variable big : Q.
Variable unknown_ord : Z.
Variable flags : gmap string pyval.
Variable format_exc : exn -> string.

Let the_job : params -> outcome (gmap string resval) :=
  job net read_pfm load_pickle data_requirements load_preprocessors
    gen_convnet_predictions big unknown_ord flags.

(** Every key of the predictions of a job is its model id, alone or
    followed by one of the six suffixes. *)
Lemma job_keys (p : params) (d : gmap string resval) :
  the_job p = Return d ->
  forall key, is_Some (d !! key) -> result_key (job_modelid p) key.
Proof.
  subst the_job. unfold job.
  destruct (load_model _ _ _ _) as [m|e]; [|discriminate]. cbn.
  destruct (match m with Net n => data_requirements n | PFM _ => Return tt end)
    as [[]|e]; [|discriminate]. cbn.
  destruct (if preprocessors (job_data p) then _ else _) as [[]|e]; [|discriminate].
  cbn. destruct m as [pfm|n].
  - destruct (gen_pfm_predictionmaps _ _ _ _ _ _) as [[pm gm]|e]; [|discriminate].
    cbn. rewrite orb_true_r. apply scan_predictions_keys.
  - destruct (truthy_scan (job_scan p)).
    + destruct (gen_convnet_predictions n _ _) as [[dd gg]|e]; [|discriminate]. cbn.
      destruct (gen_convnet_predictionmaps _ _ _ _ _ _ _ _) as [[pm gm]|e];
        [|discriminate].
      cbn. apply scan_predictions_keys.
    + destruct (truthy (job_want_pmaps p)); [discriminate|].
      destruct (gen_convnet_predictions n _ _) as [[dd gg]|e]; [|discriminate]. cbn.
      intros [= <-]. apply direct_predictions_keys.
Qed.

End PredictFacts.

Section OrchestratorFacts.

Variable net : Type.
Variable read_pfm : string -> outcome (list (list npfloat)).
Variable load_pickle : string -> outcome net.
Variable data_requirements : net -> outcome unit.
Variable load_preprocessors : string -> outcome unit.
Variable gen_convnet_predictions :
  net -> datasrc -> pyval ->
  outcome (list (list npfloat) * option (gmap string (list (ginput * list (list npfloat))))).
Variable big : Q.
Variable unknown_ord : Z.
Variable flags : gmap string pyval.
Variable format_exc : exn -> string.

Let the_job : params -> outcome (gmap string resval) :=
  job net read_pfm load_pickle data_requirements load_preprocessors
    gen_convnet_predictions big unknown_ord flags.

Let the_pool_map : list params -> outcome (list worker_result) :=
  pool_map net read_pfm load_pickle data_requirements load_preprocessors
    gen_convnet_predictions big unknown_ord flags true format_exc.

Let the_predict :=
  predict net read_pfm load_pickle data_requirements load_preprocessors
    gen_convnet_predictions big unknown_ord flags true format_exc.

Lemma pool_map_results (wargs : list params) (results : list worker_result) :
  the_pool_map wargs = Return results ->
  Forall2 (fun p r =>
             match r with
             | Predictions d => the_job p = Return d
             | Failure err tb =>
                 is_Exception err = true /\ the_job p = Raise err /\ tb = format_exc err
             end) wargs results.
Proof.
  subst the_pool_map the_job. unfold pool_map. intros Hmap.
  apply mapM_Return_inv in Hmap.
  eapply Forall2_impl; [exact Hmap|].
  intros p [d|err tb] Hcall; cbn beta iota.
  - eapply predict_worker_call_Predictions. exact Hcall.
  - apply predict_worker_call_Failure in Hcall as (He & _ & Hjob & Htb).
    repeat split; assumption.
Qed.

(** Claim C8.  With multiprocessing and at least one device, over the
    results that the pool returns for the jobs: if one of them is a failure
    record, [predict] raises one error, the [SystemExit] of [quit], whose
    text is "Error in Worker...", a line end, the message of the exception
    of the first failed worker in the order of the jobs, a line end, and
    that worker's traceback; it does so after terminating and joining the
    pool, and returns no predictions.  Otherwise it closes and joins the
    pool and returns the predictions of all jobs merged, each under a key
    that is the model id of its job, alone or followed by a dot and one of
    the six suffixes.  Without a device the pool cannot be created:
    [predict] raises the [ValueError] of [Pool] and no job runs. *)
Theorem C8_predict_all_or_nothing (devices : list Z) (data : gmap string datasrc)
    (modelinfos : gmap string (gmap string string))
    (scan : option Z) (stride : Z) (outdir : string) (verbose : bool)
    (want_pmaps want_gmaps : pyval)
    (wargs : list params) (results : list worker_result) :
  workerargs data modelinfos scan stride outdir verbose want_pmaps want_gmaps
    = Return wargs ->
  the_pool_map wargs = Return results ->
  let run := the_predict devices data modelinfos scan stride outdir verbose
               want_pmaps want_gmaps in
  (Py.len devices < 1 ->
     run = (Raise (ValueError "Number of processes must be at least 1"), []))
  /\ (1 <= Py.len devices ->
      ((exists err tb, Failure err tb ∈ results) ->
         exists p cls msg ds rest,
           let err := Exception cls msg in
           let tb := format_exc err in
           p ∈ wargs /\ the_job p = Raise err
           /\ results = (map Predictions ds ++ Failure err tb :: rest)%list
           /\ run = (Raise (SystemExit
                              ("Error in Worker..." +:+ String (ascii_of_nat 10) msg
                               +:+ String (ascii_of_nat 10) tb)),
                     [PoolCreate (Py.len devices); PoolTerminate; PoolJoin]))
      /\ ((forall err tb, Failure err tb ∉ results) ->
          exists ds,
            results = map Predictions ds
            /\ Forall2 (fun p d => the_job p = Return d) wargs ds
            /\ run = (Return (merged ds),
                      [PoolCreate (Py.len devices); PoolClose; PoolJoin])
            /\ forall key v, merged ds !! key = Some v ->
                 exists p d, p ∈ wargs /\ the_job p = Return d /\ d !! key = Some v
                             /\ result_key (job_modelid p) key)).
Proof.
  intros Hwargs Hmap run. split.
  { intros Hnone. subst run the_predict. unfold predict. rewrite Hwargs.
    cbv iota beta. destruct (Z.ltb_spec (Py.len devices) 1); [reflexivity | lia]. }
  intros Hsome.
  assert (Hrun : run = match collect results ∅ with
                       | Raise e => (Raise e, [PoolCreate (Py.len devices);
                                               PoolTerminate; PoolJoin])
                       | Return predictions =>
                           (Return predictions, [PoolCreate (Py.len devices);
                                                 PoolClose; PoolJoin])
                       end).
  { subst run the_predict. unfold predict. rewrite Hwargs.
    subst the_pool_map. cbv iota beta.
    destruct (Z.ltb_spec (Py.len devices) 1); [lia|]. rewrite Hmap. reflexivity. }
  pose proof (pool_map_results wargs results Hmap) as Hall.
  destruct (results_split results) as [[ds ->]|(ds & err & tb & rest & ->)].
  - split.
    + intros (err & tb & Hin). apply list_elem_of_fmap in Hin as (d & Hd & _).
      discriminate.
    + intros _. exists ds. split; [reflexivity|].
      assert (Hjobs : Forall2 (fun p d => the_job p = Return d) wargs ds).
      { apply Forall2_fmap_r in Hall. exact Hall. }
      split; [exact Hjobs|].
      split; [rewrite Hrun, collect_predictions; reflexivity|].
      intros key v Hv. unfold merged in Hv.
      apply merged_lookup in Hv as [Hv|(d & Hd & Hv)];
        [rewrite lookup_empty in Hv; discriminate|].
      apply list_elem_of_lookup in Hd as [i Hi].
      destruct (Forall2_lookup_r _ _ _ _ _ Hjobs Hi) as (p & Hp & Hjob).
      exists p, d. split; [apply list_elem_of_lookup; eauto|].
      split; [exact Hjob|]. split; [exact Hv|].
      eapply job_keys; [exact Hjob | eauto].
  - split.
    + intros _.
      apply Forall2_app_inv_r in Hall as (w1 & w2 & _ & Hw2 & ->).
      inversion Hw2 as [|p r ws rs Hp _]; subst.
      cbn beta iota in Hp. destruct Hp as (He & Hjob & ->).
      destruct err as [cls msg|cls msg]; [|discriminate He].
      exists p, cls, msg, ds, rest. cbv zeta.
      split; [apply elem_of_app; right; left|].
      split; [exact Hjob|]. split; [reflexivity|].
      rewrite Hrun, collect_failure by exact He. reflexivity.
    + intros Hnone. exfalso. apply (Hnone err tb).
      apply elem_of_app. right. left.
Qed.

End OrchestratorFacts.

(** Of two jobs, the second raises in its worker: the run raises the
    aggregate error, with the message and the traceback of that worker,
    after terminating the pool. *)
Lemma C8_predict_all_or_nothing_witness :
  exists cls msg,
    predict unit sample_read_pfm sample_load_pickle sample_requirements
      sample_load_preprocessors sample_gradients float32_max 255 ∅ true sample_format_exc
      [0] sample_datas sample_modelinfos None 1 "out" false (VBool false) (VBool true)
    = (Raise (SystemExit
                ("Error in Worker..." +:+ String (ascii_of_nat 10) msg
                 +:+ String (ascii_of_nat 10) (sample_format_exc (Exception cls msg)))),
       [PoolCreate 1; PoolTerminate; PoolJoin]).
Proof.
  edestruct (C8_predict_all_or_nothing unit sample_read_pfm sample_load_pickle
               sample_requirements sample_load_preprocessors sample_gradients
               float32_max 255 ∅ sample_format_exc
               [0] sample_datas sample_modelinfos None 1 "out" false
               (VBool false) (VBool true)) as [_ Hpool].
  - vm_compute. reflexivity.
  - vm_compute. reflexivity.
  - destruct Hpool as [Hfail _]; [vm_compute; discriminate|].
    destruct Hfail as (p & cls & msg & ds & rest & _ & _ & _ & Hrun).
    + eexists _, _. right. left.
    + exists cls, msg. exact Hrun.
Defined.

(** ** Map aggregator *)

(** Claim C2 at the sequence "ACGT" with window size 2, stride 2 and
    gradient maps requested.  The windows start at 0, 2 and 4 and the
    accumulator has [4 + 2 - 1 = 5] rows.  For the last window the clip
    [min(windowsize, (end - start - j) * stride)] keeps both rows of the
    gradient, the slice [gmap[4:6]] has one row, and the addition raises
    numpy's [ValueError]: no attribution map is assembled.  The scan
    without gradient maps returns, and so does the scan with stride 1. *)
Theorem C2_gmap_stride_overrun :
  gen_convnet_predictionmaps unit sample_gradients float32_max tt sample_data 2 2
    (VBool true) = Raise (ValueError "")
  /\ build_gmap float32_max 2 2 4 sample_window_gradients 0 3 = Raise (ValueError "")
  /\ Py.len (Py.slice (replicate 5 (replicate 4 (Fin 0))) 4 6) = 1
  /\ Z.min 2 ((3 - 0 - 2) * 2) = 2
  /\ iadd_slice (replicate 5 (replicate 4 (Fin 0))) 4 6 (replicate 2 (replicate 4 (Fin 1)))
     = None
  /\ gen_convnet_predictionmaps unit sample_gradients float32_max tt sample_data 2 2
       (VBool false) = Return ([[Fin 0; Fin 0; Fin 0]], None)
  /\ exists gmap,
       gen_convnet_predictionmaps unit sample_gradients float32_max tt sample_data 1 2
         (VBool true) = Return ([[Fin 0; Fin 0; Fin 0; Fin 0; Fin 0]], Some [gmap])
       /\ Py.len gmap = 5.
Proof.
  split; [vm_compute; reflexivity|].
  split; [vm_compute; reflexivity|].
  split; [reflexivity|].
  split; [reflexivity|].
  split; [vm_compute; reflexivity|].
  split; [vm_compute; reflexivity|].
  eexists. split; [vm_compute; reflexivity | reflexivity].
Qed.

Lemma broadcast_to_same {A} (n : nat) (src : list A) :
  length src = n -> Ix.broadcast_to n src = Some src.
Proof.
  intros Hlen. unfold Ix.broadcast_to.
  destruct (decide (length src = n)); [reflexivity | contradiction].
Qed.

Lemma broadcast_columns (src : list (list npfloat)) :
  four_columns src -> mapM (Ix.broadcast_to 4) src = Some src.
Proof.
  intros Hsrc. apply mapM_Some_2.
  induction Hsrc as [|r src Hr _ IH]; constructor; [|exact IH].
  apply broadcast_to_same. exact Hr.
Qed.

Lemma slice_length_nonneg {A} (m : list A) (a w : Z) :
  0 <= a -> 0 <= w ->
  Py.len (Py.slice m a (a + w)) = span_rows (Py.len m) a w.
Proof.
  intros Ha Hw. unfold Py.slice, Py.clamp_index, span_rows, Py.len.
  destruct (Z.ltb_spec a 0); [lia|].
  destruct (Z.ltb_spec (a + w) 0); [lia|].
  rewrite length_take, length_drop. lia.
Qed.

(** [m[a : a+w] += src] for [src] of four columns and as many rows as the
    slice: row [p] of the result is row [p] of [m] plus the row of [src]
    that lies on it. *)
Lemma iadd_slice_fits (m src : list (list npfloat)) (a w : Z) :
  0 <= a -> 0 <= w -> four_columns src ->
  Py.len src = span_rows (Py.len m) a w ->
  exists m',
    iadd_slice m a (a + w) src = Some m'
    /\ length m' = length m
    /\ forall p : nat, m' !! p = add_touching a src p <$> m !! p.
Proof.
  intros Ha Hw Hcols Hfits. unfold iadd_slice.
  rewrite (broadcast_columns src Hcols). cbn.
  pose proof (slice_length_nonneg m a w Ha Hw) as Hview.
  rewrite broadcast_to_same by (unfold Py.len in *; lia). cbn.
  eexists. split; [reflexivity|].
  unfold Py.slice, Py.clamp_index, span_rows, Py.len in *.
  destruct (Z.ltb_spec a 0); [lia|].
  destruct (Z.ltb_spec (a + w) 0); [lia|].
  set (N := length m) in *.
  set (lo := Z.to_nat (a `min` Z.of_nat N)) in *.
  set (k := length src) in *.
  assert (Hk : Z.to_nat (Z.min (a + w) (Z.of_nat N) - Z.min a (Z.of_nat N)) = k) by lia.
  rewrite Hk in *.
  assert (Hhi : Z.to_nat (Z.max (Z.min a (Z.of_nat N)) (Z.min (a + w) (Z.of_nat N)))
                = (lo + k)%nat) by lia.
  rewrite Hhi.
  assert (Hlo : (lo <= N)%nat) by lia.
  assert (HkN : (lo + k <= N)%nat) by lia.
  split.
  - rewrite !length_app, length_take, length_zip_with, length_take, !length_drop.
    fold N. lia.
  - intros p. unfold add_touching, touching_row.
    destruct (Nat.lt_ge_cases p lo) as [Hp|Hp].
    + rewrite lookup_app_l by (rewrite length_take; fold N; lia).
      rewrite lookup_take_lt by lia.
      destruct (Z.leb_spec a (Z.of_nat p)); [lia|].
      destruct (m !! p); reflexivity.
    + rewrite lookup_app_r by (rewrite length_take; fold N; lia).
      rewrite length_take. fold N. replace (lo `min` N)%nat with lo by lia.
      destruct (Nat.lt_ge_cases (p - lo) k) as [Hin|Hout].
      * rewrite lookup_app_l by (rewrite length_zip_with, length_take, length_drop;
                                 fold N; lia).
        rewrite lookup_zip_with, lookup_take_lt, lookup_drop by lia.
        replace (lo + (p - lo))%nat with p by lia.
        assert (Hlo_a : Z.of_nat lo = a) by lia.
        destruct (Z.leb_spec a (Z.of_nat p)); [|lia].
        replace (Z.to_nat (Z.of_nat p - a)) with (p - lo)%nat by lia.
        destruct (m !! p) as [row|]; [|reflexivity]. cbn.
        destruct (src !! (p - lo)%nat) as [r|] eqn:Hr; [reflexivity|].
        apply lookup_ge_None in Hr. fold k in Hr. lia.
      * rewrite lookup_app_r by (rewrite length_zip_with, length_take, length_drop;
                                 fold N; lia).
        rewrite length_zip_with, length_take, length_drop. fold N k.
        replace ((k `min` (N - lo)) `min` k)%nat with k by lia.
        rewrite lookup_drop. replace (lo + k + (p - lo - k))%nat with p by lia.
        destruct (m !! p) as [row|] eqn:Hrow; [|reflexivity]. cbn.
        apply lookup_lt_Some in Hrow. fold N in Hrow.
        destruct (Z.leb_spec a (Z.of_nat p)); [|reflexivity].
        assert (Hlo_a : Z.of_nat lo = a) by lia.
        rewrite (proj2 (lookup_ge_None src (Z.to_nat (Z.of_nat p - a)))); [reflexivity|].
        fold k. lia.
Qed.

Lemma ones_like_columns (a : list (list npfloat)) :
  four_columns a -> four_columns (ones_like a) /\ Py.len (ones_like a) = Py.len a.
Proof.
  intros Ha. unfold ones_like, four_columns, Py.len. rewrite length_map.
  split; [|reflexivity]. apply Forall_fmap.
  eapply Forall_impl; [exact Ha|]. intros r Hr. cbn. rewrite length_map. exact Hr.
Qed.

Section Aggregation.

Variable windowsize stride : Z.
Variable dX : list (ginput * list (list npfloat)).
Variable start_window_idx end_window_idx : Z.
Variable n : Z.

Hypothesis windowsize_nonneg : 0 <= windowsize.

Let rows_of : Z -> list (list npfloat) :=
  clipped_gradient windowsize stride dX start_window_idx end_window_idx.

Let fits : Z -> Prop :=
  window_fits windowsize stride dX start_window_idx end_window_idx n.

Lemma fold_window_fits (G D : list (list npfloat)) (j : Z) :
  fits j -> 0 <= j * stride -> Py.len G = n -> Py.len D = n ->
  exists G' D',
    fold_window windowsize stride dX start_window_idx end_window_idx (G, D) j
      = Return (G', D')
    /\ Py.len G' = n /\ Py.len D' = n
    /\ forall p : nat,
         G' !! p = add_touching (j * stride) (rows_of j) p <$> G !! p
         /\ D' !! p = add_touching (j * stride) (ones_like (rows_of j)) p <$> D !! p.
Proof.
  subst rows_of fits. unfold window_fits, clipped_gradient, fold_window.
  intros ([e He] & Hcols & Hrows) Hoff HG HD. rewrite He in *. cbn.
  set (dX_j := Py.slice (snd e) 0 _) in *.
  destruct (ones_like_columns dX_j Hcols) as [Hcols1 Hlen1].
  destruct (iadd_slice_fits G dX_j (j * stride) windowsize Hoff windowsize_nonneg Hcols)
    as (G' & -> & HlenG & HG'); [rewrite HG; exact Hrows|].
  cbn.
  destruct (iadd_slice_fits D (ones_like dX_j) (j * stride) windowsize Hoff
              windowsize_nonneg Hcols1)
    as (D' & -> & HlenD & HD'); [rewrite HD, Hlen1; exact Hrows|].
  cbn. exists G', D'. split; [reflexivity|].
  unfold Py.len in *. split; [lia|]. split; [lia|].
  intros p. split; [apply HG' | apply HD'].
Qed.

Lemma for_each_fold_window (js : list Z) :
  forall G D : list (list npfloat),
    (forall j, j ∈ js -> fits j /\ 0 <= j * stride) ->
    Py.len G = n -> Py.len D = n ->
    exists G' D',
      for_each (fold_window windowsize stride dX start_window_idx end_window_idx)
        (G, D) js = Return (G', D')
      /\ Py.len G' = n /\ Py.len D' = n
      /\ forall p : nat,
           G' !! p = (fun row => foldl (fun acc j =>
                                          add_touching (j * stride) (rows_of j) p acc)
                                       row js) <$> G !! p
           /\ D' !! p = (fun row => foldl (fun acc j =>
                                             add_touching (j * stride)
                                               (ones_like (rows_of j)) p acc)
                                          row js) <$> D !! p.
Proof.
  induction js as [|j js IH]; intros G D Hjs HG HD.
  - exists G, D. split; [reflexivity|]. split; [exact HG|]. split; [exact HD|].
    intros p. cbn. destruct (G !! p), (D !! p); split; reflexivity.
  - destruct (Hjs j) as [Hfit Hoff]; [left|].
    destruct (fold_window_fits G D j Hfit Hoff HG HD)
      as (G1 & D1 & Hstep & HG1 & HD1 & Hrows).
    destruct (IH G1 D1) as (G' & D' & Hloop & HG' & HD' & Hall); try assumption.
    { intros j' Hj'. apply Hjs. right. exact Hj'. }
    exists G', D'. cbn [for_each]. rewrite Hstep. cbn.
    split; [exact Hloop|]. split; [exact HG'|]. split; [exact HD'|].
    intros p. destruct (Hall p) as [-> ->]. destruct (Hrows p) as [-> ->].
    destruct (G !! p), (D !! p); split; reflexivity.
Qed.

End Aggregation.

(** The attribution map that [build_gmap] returns, position by position:
    when every window's clipped gradient has four columns and as many rows
    as the slice it is added to, row [p] is the sum of the rows that lie on
    [p], accumulated in the order of the windows, divided by the number of
    such rows, with [nan_to_num] applied. *)
Lemma build_gmap_per_position (big : Q) (windowsize stride rawseq_len : Z)
    (dX : list (ginput * list (list npfloat))) (start_window_idx end_window_idx : Z) :
  0 <= windowsize -> 0 <= stride -> 0 <= rawseq_len + windowsize - 1 ->
  (forall j, 0 <= j < end_window_idx - start_window_idx ->
     window_fits windowsize stride dX start_window_idx end_window_idx
       (rawseq_len + windowsize - 1) j) ->
  let rows_of := clipped_gradient windowsize stride dX start_window_idx end_window_idx in
  let js := Py.range (end_window_idx - start_window_idx) in
  exists gmap,
    build_gmap big windowsize stride rawseq_len dX start_window_idx end_window_idx
      = Return gmap
    /\ Py.len gmap = rawseq_len + windowsize - 1
    /\ forall p : nat, Z.of_nat p < rawseq_len + windowsize - 1 ->
         gmap !! p = Some (map (Np.nan_to_num big)
                             (zip_with Np.div (accumulated stride rows_of js p)
                                              (counted stride rows_of js p))).
Proof.
  intros Hw Hs HN Hfits rows_of js.
  set (N := rawseq_len + windowsize - 1) in *.
  unfold build_gmap, zeros4. fold N.
  destruct (Z.ltb_spec N 0); [lia|]. cbn.
  set (Z0 := replicate (Z.to_nat N) (replicate 4 (Fin 0))).
  assert (HZ0 : Py.len Z0 = N).
  { subst Z0. unfold Py.len. rewrite length_replicate. lia. }
  pose proof (for_each_fold_window windowsize stride dX start_window_idx end_window_idx
                N Hw js Z0 Z0) as Hloop.
  cbv zeta in Hloop.
  destruct Hloop as (G & D & Hrun & HG & HD & Hrows); try assumption.
  { intros j Hj. subst js. apply range_elem in Hj. split; [apply Hfits; lia | nia]. }
  fold js. change (replicate (Z.to_nat N) [Fin 0; Fin 0; Fin 0; Fin 0]) with Z0.
  rewrite Hrun. cbn.
  eexists. split; [reflexivity|]. split.
  - unfold Py.len in *. rewrite !length_map, length_zip_with. lia.
  - intros p Hp. rewrite list_lookup_fmap, lookup_zip_with.
    destruct (Hrows p) as [-> ->].
    assert (HZp : Z0 !! p = Some (replicate 4 (Fin 0))).
    { subst Z0. apply lookup_replicate_2. lia. }
    rewrite HZp. reflexivity.
Qed.

Lemma touching_row_ones_like (offset : Z) (rows : list (list npfloat)) (p : nat) :
  touching_row offset (ones_like rows) p
  = map (fun _ => Fin 1) <$> touching_row offset rows p.
Proof.
  unfold touching_row, ones_like.
  destruct (offset <=? Z.of_nat p); [|reflexivity].
  apply list_lookup_fmap.
Qed.

Lemma accumulated_untouched (stride : Z) (rows_of : Z -> list (list npfloat))
    (js : list Z) (p : nat) :
  (forall j, j ∈ js -> touching_row (j * stride) (rows_of j) p = None) ->
  accumulated stride rows_of js p = replicate 4 (Fin 0)
  /\ counted stride rows_of js p = replicate 4 (Fin 0).
Proof.
  unfold counted, accumulated. generalize (replicate 4 (Fin 0)).
  induction js as [|j js IH]; intros acc Hnone; [split; reflexivity|].
  cbn [foldl]. unfold add_touching at 2 4.
  rewrite touching_row_ones_like, (Hnone j) by left. cbn.
  apply IH. intros j' Hj'. apply Hnone. right. exact Hj'.
Qed.

(** Property X5.  A position that no window touches holds exactly 0 for
    every symbol: [0/0] is [nan], which [nan_to_num] turns into 0. *)
Lemma build_gmap_untouched_zero (big : Q) (windowsize stride rawseq_len : Z)
    (dX : list (ginput * list (list npfloat))) (start_window_idx end_window_idx : Z)
    (p : nat) :
  0 <= windowsize -> 0 <= stride -> Z.of_nat p < rawseq_len + windowsize - 1 ->
  (forall j, 0 <= j < end_window_idx - start_window_idx ->
     window_fits windowsize stride dX start_window_idx end_window_idx
       (rawseq_len + windowsize - 1) j) ->
  (forall j, 0 <= j < end_window_idx - start_window_idx ->
     touching_row (j * stride)
       (clipped_gradient windowsize stride dX start_window_idx end_window_idx j) p
     = None) ->
  exists gmap,
    build_gmap big windowsize stride rawseq_len dX start_window_idx end_window_idx
      = Return gmap
    /\ gmap !! p = Some [Fin 0; Fin 0; Fin 0; Fin 0].
Proof.
  intros Hw Hs Hp Hfits Hnone.
  destruct (build_gmap_per_position big windowsize stride rawseq_len dX
              start_window_idx end_window_idx Hw Hs ltac:(lia) Hfits)
    as (gmap & Hrun & _ & Hrows).
  exists gmap. split; [exact Hrun|]. rewrite (Hrows p Hp).
  destruct (accumulated_untouched stride
              (clipped_gradient windowsize stride dX start_window_idx end_window_idx)
              (Py.range (end_window_idx - start_window_idx)) p) as [-> ->].
  - intros j Hj. apply range_elem in Hj. apply Hnone. exact Hj.
  - reflexivity.
Qed.

(** The quotient of a finite sum by a count that is not 0 is their
    quotient: [nan_to_num] leaves it alone. *)
Lemma mean_entry (big a q : Q) :
  ~ (q == 0)%Q -> Np.nan_to_num big (Np.div (Fin a) (Fin q)) = Fin (a / q).
Proof.
  intros Hq. unfold Np.div.
  destruct (Qeq_bool q 0) eqn:Hz; [apply Qeq_bool_eq in Hz; contradiction|].
  reflexivity.
Qed.

(** The denominator of a position is the number of windows that touch it,
    in every column. *)
Lemma counted_is_count (stride : Z) (rows_of : Z -> list (list npfloat))
    (js : list Z) (p : nat) :
  (forall j, j ∈ js -> four_columns (rows_of j)) ->
  exists q : Q,
    counted stride rows_of js p = replicate 4 (Fin q)
    /\ (q == inject_Z (Z.of_nat
              (length (filter (fun j => is_Some (touching_row (j * stride) (rows_of j) p))
                              js))))%Q.
Proof.
  unfold counted, accumulated.
  assert (Hgen : forall q0 : Q,
            (forall j, j ∈ js -> four_columns (rows_of j)) ->
            exists q : Q,
              foldl (fun acc j => add_touching (j * stride) (ones_like (rows_of j)) p acc)
                    (replicate 4 (Fin q0)) js = replicate 4 (Fin q)
              /\ (q == q0 + inject_Z (Z.of_nat
                      (length (filter (fun j => is_Some (touching_row (j * stride)
                                                           (rows_of j) p)) js))))%Q).
  { induction js as [|j js IH]; intros q0 Hcols.
    - exists q0. split; [reflexivity|]. cbn. ring.
    - cbn [foldl]. unfold add_touching at 2. rewrite touching_row_ones_like.
      rewrite filter_cons.
      destruct (touching_row (j * stride) (rows_of j) p) as [r|] eqn:Hr.
      + assert (Hr4 : length r = 4%nat).
        { unfold touching_row in Hr.
          destruct (j * stride <=? Z.of_nat p); [|discriminate].
          specialize (Hcols j ltac:(left)). unfold four_columns in Hcols.
          rewrite Forall_forall in Hcols. apply Hcols.
          apply list_elem_of_lookup. eauto. }
        destruct r as [|r0 [|r1 [|r2 [|r3 [|]]]]]; try discriminate Hr4.
        cbn [fmap option_fmap option_map map zip_with replicate Np.add].
        destruct (IH (q0 + 1)%Q) as (q & Hq & Heq).
        { intros j' Hj'. apply Hcols. right. exact Hj'. }
        exists q. split; [exact Hq|].
        rewrite decide_True by eauto. cbn [length].
        rewrite Heq, Nat2Z.inj_succ, <- Z.add_1_r, inject_Z_plus. ring.
      + cbn. destruct (IH q0) as (q & Hq & Heq).
        { intros j' Hj'. apply Hcols. right. exact Hj'. }
        exists q. split; [exact Hq|].
        rewrite decide_False by (intros [? ?]; discriminate). exact Heq. }
  intros Hcols. destruct (Hgen 0%Q Hcols) as (q & Hq & Heq).
  exists q. split; [exact Hq|]. rewrite Heq. ring.
Qed.

Lemma slice_columns (rows : list (list npfloat)) (a b : Z) :
  four_columns rows -> four_columns (Py.slice rows a b).
Proof.
  unfold four_columns. rewrite !Forall_forall. intros Hrows r Hr.
  apply Hrows. eapply slice_elem. exact Hr.
Qed.

Lemma slice_prefix_length {A} (rows : list A) (k : Z) :
  0 <= k -> Py.len (Py.slice rows 0 k) = Z.min k (Py.len rows).
Proof.
  intros Hk. replace k with (0 + k) by lia.
  rewrite slice_length_nonneg by lia. unfold span_rows, Py.len. lia.
Qed.

(** Property X4.  With stride 1, one window per position of the
    accumulator and a gradient of [windowsize] rows of four columns for
    each window, every
    clipped gradient fits its slice: [build_gmap] returns the map of
    [L + w - 1] rows, each the accumulated sum over the windows that touch
    it divided by their count, and every position is touched, by the
    window that starts on it. *)
Lemma build_gmap_stride_1 (big : Q) (windowsize rawseq_len : Z)
    (dX : list (ginput * list (list npfloat))) (start_window_idx : Z) :
  let N := rawseq_len + windowsize - 1 in
  let rows_of := clipped_gradient windowsize 1 dX start_window_idx (start_window_idx + N) in
  1 <= windowsize -> 0 <= N ->
  (forall j, 0 <= j < N ->
     exists e, Ix.item dX (start_window_idx + j) = Some e
               /\ Py.len (snd e) = windowsize /\ four_columns (snd e)) ->
  exists gmap,
    build_gmap big windowsize 1 rawseq_len dX start_window_idx (start_window_idx + N)
      = Return gmap
    /\ Py.len gmap = N
    /\ forall p : nat, Z.of_nat p < N ->
         gmap !! p = Some (map (Np.nan_to_num big)
                             (zip_with Np.div (accumulated 1 rows_of (Py.range N) p)
                                              (counted 1 rows_of (Py.range N) p)))
         /\ is_Some (touching_row (Z.of_nat p * 1) (rows_of (Z.of_nat p)) p).
Proof.
  intros N rows_of Hw HN Hgrad.
  assert (Hclip : forall j, 0 <= j < N ->
            four_columns (rows_of j) /\ Py.len (rows_of j) = Z.min windowsize (N - j)).
  { intros j Hj. destruct (Hgrad j Hj) as (e & He & Hlen & Hcols).
    subst rows_of. unfold clipped_gradient. rewrite He.
    split; [apply slice_columns; exact Hcols|].
    rewrite slice_prefix_length by lia. lia. }
  destruct (build_gmap_per_position big windowsize 1 rawseq_len dX start_window_idx
              (start_window_idx + N)) as (gmap & Hrun & Hlen & Hrows); try lia.
  { intros j Hj. replace (start_window_idx + N - start_window_idx) with N in Hj by lia.
    destruct (Hgrad j Hj) as (e & He & _). destruct (Hclip j Hj) as [Hcols Hrowsj].
    split; [rewrite He; eauto|]. split; [exact Hcols|].
    fold N. fold rows_of. rewrite Hrowsj. unfold span_rows. lia. }
  replace (start_window_idx + N - start_window_idx) with N in Hrows by lia.
  exists gmap. split; [exact Hrun|]. split; [exact Hlen|].
  intros p Hp. split; [apply Hrows; exact Hp|].
  unfold touching_row. destruct (Z.leb_spec (Z.of_nat p * 1) (Z.of_nat p)); [|lia].
  apply lookup_lt_is_Some.
  destruct (Hclip (Z.of_nat p)) as [_ Hl]; [lia|]. unfold Py.len in Hl. lia.
Qed.

(** The sample scan with stride 1: four symbols, window size 2, five
    windows with a gradient of 1 everywhere. *)
Example build_gmap_stride_1_sample :
  exists gmap,
    build_gmap float32_max 2 1 4
      (map (fun w => (GSeq w, replicate 2 (replicate 4 (Fin 1))))
           ["NA"; "AC"; "CG"; "GT"; "TN"]) 0 5 = Return gmap
    /\ Py.len gmap = 5.
Proof.
  destruct (build_gmap_stride_1 float32_max 2 4
              (map (fun w => (GSeq w, replicate 2 (replicate 4 (Fin 1))))
                   ["NA"; "AC"; "CG"; "GT"; "TN"]) 0) as (gmap & Hrun & Hlen & _).
  - lia.
  - lia.
  - intros j Hj.
    assert (Hcases : j = 0 \/ j = 1 \/ j = 2 \/ j = 3 \/ j = 4) by lia.
    destruct Hcases as [->|[->|[->|[->| ->]]]];
      (eexists; split; [reflexivity|]; split; [reflexivity | repeat constructor]).
  - exists gmap. split; [exact Hrun | exact Hlen].
Defined.

(** A run over the one job that succeeds: the pool is closed and joined
    and the predictions of the job are returned. *)
Example predict_sample_success :
  exists predictions,
    predict unit sample_read_pfm sample_load_pickle sample_requirements
      sample_load_preprocessors sample_gradients float32_max 255 ∅ true sample_format_exc
      [0] sample_datas {[ "m1" := {[ "PFM" := "models/m1.pfm" ]} ]}
      None 1 "out" false (VBool false) (VBool true)
    = (Return predictions, [PoolCreate 1; PoolClose; PoolJoin])
    /\ predictions !! "m1.direct" = Some (RDirect [[NaN]])
    /\ predictions !! "m1.gmaps" = Some (RGmaps [])
    /\ predictions !! "m1.pmaps" = None.
Proof.
  eexists. split; [vm_compute; reflexivity|].
  split; [vm_compute; reflexivity|]. split; vm_compute; reflexivity.
Qed.

(** The same job with no device: [Pool(0)] raises before the job runs,
    and there is no pool to terminate. *)
Example predict_sample_no_device :
  predict unit sample_read_pfm sample_load_pickle sample_requirements
    sample_load_preprocessors sample_gradients float32_max 255 ∅ true sample_format_exc
    [] sample_datas {[ "m1" := {[ "PFM" := "models/m1.pfm" ]} ]}
    None 1 "out" false (VBool false) (VBool true)
  = (Raise (Exception "ValueError" "Number of processes must be at least 1"), []).
Proof. vm_compute. reflexivity. Qed.

(** Without multiprocessing the same failing job raises in the caller,
    and the worker that was set up is not deleted. *)
Example predict_sample_debug_mode :
  predict unit sample_read_pfm sample_load_pickle sample_requirements
    sample_load_preprocessors sample_gradients float32_max 255 ∅ false sample_format_exc
    [0] sample_datas sample_modelinfos None 1 "out" false (VBool false) (VBool true)
  = (Raise (Exception "NotImplementedError"
              "Unrecognized modelinfo. Expected it to contain 'PFM' or 'model' value."),
     [WorkerInit]).
Proof. vm_compute. reflexivity. Qed.

(** * Part III: further properties of the code *)

(** ** Strand resolver *)

Lemma bool_index_sublist {A} (l : list A) (mask : list bool) :
  sublist (Np.bool_index l mask) l.
Proof.
  revert mask. induction l as [|a l IH]; intros [|b mask]; cbn;
    try apply sublist_nil_l.
  destruct b; [apply sublist_skip | apply sublist_cons]; apply IH.
Qed.

Lemma bool_index_length {A} (l : list A) (mask : list bool) :
  length mask = length l ->
  length (Np.bool_index l mask) = length (filter (fun b : bool => b = true) mask).
Proof.
  revert mask. induction l as [|a l IH]; intros [|b mask] Hlen;
    try discriminate Hlen; [reflexivity|].
  cbn [Np.bool_index]. rewrite filter_cons. injection Hlen as Hlen.
  destruct b.
  - rewrite decide_True by reflexivity. cbn. f_equal. apply IH. exact Hlen.
  - rewrite decide_False by discriminate. apply IH. exact Hlen.
Qed.

Lemma reshape_pairs_cons2 {A} (a b : A) (rest : list A) :
  Np.reshape_pairs (a :: b :: rest) = cons (a, b) <$> Np.reshape_pairs rest.
Proof. reflexivity. Qed.

Lemma reshape_pairs_cases {A} (l : list A) :
  (forall ps, Np.reshape_pairs l = Some ps -> l = Np.ravel_pairs ps)
  /\ (Np.reshape_pairs l = None <-> Nat.odd (length l) = true).
Proof.
  remember (length l) as n eqn:Hn. revert l Hn.
  induction n as [n IH] using lt_wf_ind. intros l Hn.
  destruct l as [|a [|b rest]].
  - split; [intros ps [= <-]; reflexivity|]. subst n. cbn. split; discriminate.
  - split; [discriminate|]. subst n. cbn. split; reflexivity.
  - destruct (IH (length rest) ltac:(subst n; cbn; lia) rest eq_refl) as [Hsome Hnone].
    rewrite reshape_pairs_cons2. subst n.
    change (Nat.odd (length (a :: b :: rest))) with (Nat.odd (length rest)).
    destruct (Np.reshape_pairs rest) as [ps'|]; cbn.
    + split.
      * intros ps [= <-]. cbn. do 2 f_equal. apply Hsome. reflexivity.
      * rewrite <- Hnone. split; discriminate.
    + split; [discriminate|]. rewrite <- Hnone. split; reflexivity.
Qed.

(** Property X1.  Strand resolution only selects: the scores it returns are
    a sublist of the scores it was given, in their order; without a mask
    they are the scores themselves, and with a mask there is one mask entry
    per score given and one score returned per [True] of the mask. *)
Theorem maskout_revcomp_selects (flags : gmap string pyval) (Z Z' : list npfloat)
    (Zmask : option (list bool)) :
  maskout_revcomp flags Z = Return (Z', Zmask) ->
  sublist Z' Z
  /\ match Zmask with
     | None => Z' = Z /\ flags !! "reverse_complement" = None
     | Some mask =>
         length mask = length Z
         /\ Z' = Np.bool_index Z mask
         /\ length Z' = length (filter (fun b : bool => b = true) mask)
     end.
Proof.
  unfold maskout_revcomp.
  destruct (flags !! "reverse_complement") as [v|].
  - destruct (Np.reshape_pairs Z) as [Zcols|] eqn:Hcols; [|discriminate].
    cbn. intros [= <- <-].
    apply (proj1 (reshape_pairs_cases Z)) in Hcols.
    split; [apply bool_index_sublist|].
    assert (Hlen : forall sel : npfloat * npfloat -> bool * bool,
              length (Np.ravel_pairs (map sel Zcols)) = length Z).
    { intros sel. rewrite Hcols, !ravel_pairs_length, length_map. reflexivity. }
    destruct (eq_str v "force");
      (split; [apply Hlen|]; split; [reflexivity|];
       apply bool_index_length; apply Hlen).
  - intros [= <- <-]. split; [reflexivity|]. split; reflexivity.
Qed.

(** Forward and reverse scores 1 and 2, then 4 and 3: the higher of each
    pair is kept. *)
Lemma maskout_revcomp_selects_witness :
  sublist [Fin 2; Fin 4] [Fin 1; Fin 2; Fin 4; Fin 3].
Proof.
  exact (proj1 (maskout_revcomp_selects {[ "reverse_complement" := VBool true ]}
                  [Fin 1; Fin 2; Fin 4; Fin 3] [Fin 2; Fin 4]
                  (Some [false; true; true; false]) eq_refl)).
Defined.

(** Property X2.  Strand resolution raises exactly when double-strand
    scoring is enabled and the number of scores is odd, and what it raises
    then is the [ValueError] of [reshape]. *)
Theorem maskout_revcomp_raises_iff_odd (flags : gmap string pyval) (Z : list npfloat) :
  ((exists e, maskout_revcomp flags Z = Raise e)
   <-> is_Some (flags !! "reverse_complement") /\ Nat.odd (length Z) = true)
  /\ forall e, maskout_revcomp flags Z = Raise e -> e = ValueError "".
Proof.
  unfold maskout_revcomp.
  destruct (flags !! "reverse_complement") as [v|].
  - pose proof (proj2 (reshape_pairs_cases Z)) as Hodd.
    destruct (Np.reshape_pairs Z) as [Zcols|]; cbn.
    + split; [|discriminate]. split.
      * intros [e He]. discriminate.
      * intros [_ H]. apply Hodd in H. discriminate.
    + split; [|intros e [= <-]; reflexivity]. split.
      * intros _. split; [eauto|]. apply Hodd. reflexivity.
      * intros _. eauto.
  - split; [|discriminate]. split.
    + intros [e He]. discriminate.
    + intros [[v Hv] _]. discriminate.
Qed.

Lemma select_higher_resolve (ps : list (npfloat * npfloat)) :
  Np.bool_index (Np.ravel_pairs ps) (Np.ravel_pairs (map select_higher ps))
  = omap resolve_pair ps.
Proof.
  rewrite bool_index_pairs.
  induction ps as [|[f r] ps IH]; [reflexivity|].
  cbn [flat_map omap list_omap]. rewrite IH.
  unfold select_higher, resolve_pair, Np.ge, Np.lt. cbn [fst snd].
  destruct (Np.cmp f r) as [[]|]; reflexivity.
Qed.

(** Property X3.  In normal mode the resolved scores are, pair by pair,
    the forward score unless the reverse one is higher; a pair one of whose
    scores is [nan] has both strands masked out and contributes no score,
    so the result is shorter than the number of pairs. *)
Theorem maskout_revcomp_drops_nan_pairs (flags : gmap string pyval) (v : pyval)
    (ps : list (npfloat * npfloat)) :
  flags !! "reverse_complement" = Some v -> v <> VStr "force" ->
  exists Zmask,
    maskout_revcomp flags (Np.ravel_pairs ps) = Return (omap resolve_pair ps, Some Zmask)
    /\ forall (i : nat) (f r : npfloat), ps !! i = Some (f, r) ->
         (f = NaN \/ r = NaN) ->
         resolve_pair (f, r) = None
         /\ Zmask !! (2 * i)%nat = Some false /\ Zmask !! (2 * i + 1)%nat = Some false.
Proof.
  intros Hv Hnf. rewrite (maskout_revcomp_pairs flags v ps Hv).
  assert (eq_str v "force" = false) as ->.
  { destruct v as [ |b|s]; try reflexivity. simpl.
    destruct (decide (s = "force")); [congruence | reflexivity]. }
  eexists. rewrite select_higher_resolve. split; [reflexivity|].
  intros i f r Hi Hnan.
  destruct (ravel_pairs_lookup (map select_higher ps) i) as [-> ->].
  rewrite list_lookup_fmap, Hi. cbn. unfold resolve_pair, Np.ge, Np.lt. cbn [fst snd].
  destruct Hnan as [-> | ->]; [|destruct f]; repeat split; reflexivity.
Qed.

(** A pair with a [nan] between two pairs of numbers: two scores are
    resolved from three pairs. *)
Lemma maskout_revcomp_drops_nan_pairs_witness :
  exists Zmask,
    maskout_revcomp {[ "reverse_complement" := VBool true ]}
      [Fin 1; Fin 2; NaN; Fin 5; Fin 4; Fin 3]
    = Return ([Fin 2; Fin 4], Some Zmask).
Proof.
  pose (flags := ({[ "reverse_complement" := VBool true ]} : gmap string pyval)).
  assert (Hv : flags !! "reverse_complement" = Some (VBool true)) by reflexivity.
  destruct (maskout_revcomp_drops_nan_pairs flags
              (VBool true) [(Fin 1, Fin 2); (NaN, Fin 5); (Fin 4, Fin 3)]
              Hv ltac:(discriminate)) as (Zmask & Hrun & _).
  exists Zmask. exact Hrun.
Defined.

(** ** Map aggregator *)

(** The sequence "ACG" scanned with window size 1 and stride 2 has the
    windows "A" and "G": position 1 is under no window and holds 0. *)
Lemma build_gmap_untouched_zero_witness :
  exists gmap,
    build_gmap float32_max 1 2 3
      (map (fun w => (GSeq w, [replicate 4 (Fin 1)])) ["A"; "G"]) 0 2 = Return gmap
    /\ gmap !! 1%nat = Some [Fin 0; Fin 0; Fin 0; Fin 0].
Proof.
  apply (build_gmap_untouched_zero float32_max 1 2 3
           (map (fun w => (GSeq w, [replicate 4 (Fin 1)])) ["A"; "G"]) 0 2 1).
  - lia.
  - lia.
  - simpl. lia.
  - intros j Hj.
    assert (Hcases : j = 0 \/ j = 1) by lia.
    destruct Hcases as [-> | ->];
      (split; [eexists; reflexivity|]; split; [repeat constructor | reflexivity]).
  - intros j Hj.
    assert (Hcases : j = 0 \/ j = 1) by lia.
    destruct Hcases as [-> | ->]; reflexivity.
Defined.

(** ** The modes of a job *)

Lemma scan_predictions_dom (modelid : string) (pd : list (list npfloat))
    (pmaps : list (list npfloat)) (wp wg : pyval) (g : resval) (d : gmap string resval) :
  scan_predictions modelid pd pmaps wp wg g = Return d ->
  dom d = ({[ modelid +:+ ".direct"; modelid +:+ ".max";
              modelid +:+ ".avg"; modelid +:+ ".sum" ]}
           ∪ (if truthy wp then {[ modelid +:+ ".pmaps" ]} else ∅)
           ∪ (if truthy wg then {[ modelid +:+ ".gmaps" ]} else ∅) : gset string).
Proof.
  unfold scan_predictions. destruct (pmap_max pmaps) as [maxs|e]; [|discriminate].
  cbn. intros [= <-].
  destruct (truthy wg), (truthy wp); rewrite !dom_insert_L, dom_empty_L;
    apply set_eq; intros key; set_unfold; tauto.
Qed.

Lemma direct_predictions_dom (modelid : string) (pd : list (list npfloat))
    (wg : pyval) (g : resval) :
  dom (direct_predictions modelid pd wg g)
  = ({[ modelid ]} ∪ (if truthy wg then {[ modelid +:+ ".gmaps" ]} else ∅) : gset string).
Proof.
  unfold direct_predictions.
  destruct (truthy wg); rewrite ?dom_insert_L, dom_singleton_L;
    apply set_eq; intros key; set_unfold; tauto.
Qed.

Section JobModes.

Variable net : Type.
Variable read_pfm : string -> outcome (list (list npfloat)).
Variable load_pickle : string -> outcome net.
Variable data_requirements : net -> outcome unit.
Variable load_preprocessors : string -> outcome unit.
Variable gen_convnet_predictions :
  net -> datasrc -> pyval ->
  outcome (list (list npfloat) * option (gmap string (list (ginput * list (list npfloat))))).
Variable big : Q.
Variable unknown_ord : Z.
Variable flags : gmap string pyval.

Let the_job : params -> outcome (gmap string resval) :=
  job net read_pfm load_pickle data_requirements load_preprocessors
    gen_convnet_predictions big unknown_ord flags.

Let the_load_model : gmap string string -> outcome (model net) :=
  load_model net read_pfm load_pickle.

(** The data source as the job passes it on, with its preprocessors
    loaded. *)
Let prepared (data : datasrc) : datasrc :=
  {| sequencenames := sequencenames data; X_seq := X_seq data; preprocessors := true |}.

(** Property X6.  The keys of the predictions a job returns are fixed by
    its mode and its two requests.  In scan mode, and on a PFM in any
    mode, they are the model id followed by [.direct], [.max], [.avg] and
    [.sum], with [.pmaps] exactly when prediction maps were requested and
    [.gmaps] exactly when gradient maps were; in direct mode on a network
    they are the bare model id, with [.gmaps] exactly when gradient maps
    were requested. *)
Theorem job_key_set (p : params) (m : model net) (d : gmap string resval) :
  the_load_model (job_modelinfo p) = Return m ->
  the_job p = Return d ->
  let modelid := job_modelid p in
  dom d
  = ((if truthy_scan (job_scan p) || is_pfm m
      then {[ modelid +:+ ".direct"; modelid +:+ ".max";
              modelid +:+ ".avg"; modelid +:+ ".sum" ]}
           ∪ (if truthy (job_want_pmaps p) then {[ modelid +:+ ".pmaps" ]} else ∅)
      else {[ modelid ]})
     ∪ (if truthy (job_want_gmaps p) then {[ modelid +:+ ".gmaps" ]} else ∅)
     : gset string).
Proof.
  subst the_job the_load_model. unfold job. intros ->. cbn.
  destruct (match m with Net n => data_requirements n | PFM _ => Return tt end)
    as [[]|e]; [|discriminate]. cbn.
  destruct (if preprocessors (job_data p) then _ else _) as [[]|e]; [|discriminate].
  cbn. destruct m as [pfm|n].
  - destruct (gen_pfm_predictionmaps _ _ _ _ _ _) as [[pm gm]|e]; [|discriminate].
    cbn. rewrite orb_true_r. apply scan_predictions_dom.
  - destruct (truthy_scan (job_scan p)).
    + destruct (gen_convnet_predictions n _ _) as [[dd gg]|e]; [|discriminate]. cbn.
      destruct (gen_convnet_predictionmaps _ _ _ _ _ _ _ _) as [[pm gm]|e];
        [|discriminate].
      cbn. apply scan_predictions_dom.
    + destruct (truthy (job_want_pmaps p)); [discriminate|].
      destruct (gen_convnet_predictions n _ _) as [[dd gg]|e]; [|discriminate]. cbn.
      intros [= <-]. apply direct_predictions_dom.
Qed.

(** Property X7.  A network job in direct mode (no window size, or the
    window size 0) that asks for prediction maps never returns, whatever
    the network computes; once the model and the preprocessors are loaded
    it raises the [AssertionError] of line 428, before the network is
    evaluated. *)
Theorem job_direct_mode_refuses_pmaps (p : params) (n : net) :
  the_load_model (job_modelinfo p) = Return (Net n) ->
  truthy_scan (job_scan p) = false ->
  truthy (job_want_pmaps p) = true ->
  (forall d, the_job p <> Return d)
  /\ (data_requirements n = Return tt ->
      preprocessors (job_data p) = true ->
      the_job p
      = Raise (AssertionError
          "In direct evaluation mode, it does not make sense to ask for a predictionmap (pmap)")).
Proof.
  subst the_job the_load_model. unfold job. intros -> Hscan Hwp. cbn.
  rewrite Hscan, Hwp. split.
  - intros d.
    destruct (data_requirements n) as [[]|e]; [|discriminate]. cbn.
    destruct (if preprocessors (job_data p) then _ else _) as [[]|e]; discriminate.
  - intros -> ->. reflexivity.
Qed.

(** Property X8.  Data with more than one sequence attribute is served
    only by a network in direct mode.  A job on a PFM, and a network job
    in scan mode, never return on such data: the PFM job raises the
    [ValueError] of line 115, and the scan raises the [ValueError] of
    line 278, but only after the network has produced the direct
    predictions of the whole data. *)
Theorem job_multi_sequence (p : params) (m : model net) :
  the_load_model (job_modelinfo p) = Return m ->
  1 < Py.len (sequencenames (job_data p)) ->
  truthy_scan (job_scan p) || is_pfm m = true ->
  (forall d, the_job p <> Return d)
  /\ (preprocessors (job_data p) = true ->
      match m with
      | PFM _ =>
          the_job p = Raise (ValueError "Cannot apply PFMs to multi-sequence data.")
      | Net n =>
          data_requirements n = Return tt ->
          the_job p
          = (_ ← gen_convnet_predictions n (prepared (job_data p)) (VBool false);
             Raise (ValueError "Cannot currently use --scan on multi-sequence data."))
      end).
Proof.
  subst the_job the_load_model prepared. unfold job. intros -> Hmulti Hmode. cbn.
  assert (Hlt : (1 <? Py.len (sequencenames (job_data p))) = true)
    by (apply Z.ltb_lt; exact Hmulti).
  split.
  - intros d.
    destruct (match m with Net n => data_requirements n | PFM _ => Return tt end)
      as [[]|e]; [|discriminate]. cbn.
    destruct (if preprocessors (job_data p) then _ else _) as [[]|e]; [|discriminate].
    cbn. destruct m as [pfm|n].
    + unfold gen_pfm_predictionmaps. cbn. rewrite Hlt. discriminate.
    + rewrite orb_false_r in Hmode. rewrite Hmode.
      destruct (gen_convnet_predictions n _ _) as [[dd gg]|e]; [|discriminate]. cbn.
      unfold gen_convnet_predictionmaps. cbn. rewrite Hlt. discriminate.
  - intros ->. destruct m as [pfm|n].
    + cbn. unfold gen_pfm_predictionmaps. cbn. rewrite Hlt. reflexivity.
    + intros ->. cbn. rewrite orb_false_r in Hmode. rewrite Hmode.
      destruct (gen_convnet_predictions n _ _) as [[dd gg]|e]; [|reflexivity]. cbn.
      unfold gen_convnet_predictionmaps. cbn. rewrite Hlt. reflexivity.
Qed.

End JobModes.

(** A network job in direct mode with no requests returns one entry,
    under the bare model id. *)
Lemma job_key_set_witness :
  exists d,
    job unit sample_read_pfm sample_load_pickle sample_requirements
      sample_load_preprocessors sample_gradients float32_max 255 ∅ (net_job (VBool false))
    = Return d
    /\ dom d = ({[ "m3" ]} ∪ ∅ : gset string).
Proof.
  exists {[ "m3" := RDirect [[Fin 0]] ]}.
  assert (Hjob : job unit sample_read_pfm sample_load_pickle sample_requirements
                   sample_load_preprocessors sample_gradients float32_max 255 ∅
                   (net_job (VBool false))
                 = Return {[ "m3" := RDirect [[Fin 0]] ]}) by reflexivity.
  split; [exact Hjob|].
  exact (job_key_set unit sample_read_pfm sample_load_pickle sample_requirements
           sample_load_preprocessors sample_gradients float32_max 255 ∅
           (net_job (VBool false)) (Net tt) _ eq_refl Hjob).
Defined.

(** The same job asking for prediction maps. *)
Lemma job_direct_mode_refuses_pmaps_witness :
  job unit sample_read_pfm sample_load_pickle sample_requirements
    sample_load_preprocessors sample_gradients float32_max 255 ∅ (net_job (VBool true))
  = Raise (AssertionError
      "In direct evaluation mode, it does not make sense to ask for a predictionmap (pmap)").
Proof.
  exact (proj2 (job_direct_mode_refuses_pmaps unit sample_read_pfm sample_load_pickle
                  sample_requirements sample_load_preprocessors sample_gradients
                  float32_max 255 ∅ (net_job (VBool true)) tt eq_refl eq_refl eq_refl)
               eq_refl eq_refl).
Defined.

(** A PFM on data with two sequence attributes. *)
Lemma job_multi_sequence_witness :
  job unit sample_read_pfm sample_load_pickle sample_requirements
    sample_load_preprocessors sample_gradients float32_max 255 ∅ paired_job
  = Raise (ValueError "Cannot apply PFMs to multi-sequence data.").
Proof.
  assert (Hmulti : 1 < Py.len (sequencenames (job_data paired_job))) by reflexivity.
  exact (proj2 (job_multi_sequence unit sample_read_pfm sample_load_pickle
                  sample_requirements sample_load_preprocessors sample_gradients
                  float32_max 255 ∅ paired_job (PFM (uniform_pfm 2))
                  eq_refl Hmulti eq_refl) eq_refl).
Defined.

(** ** The orchestrator without multiprocessing *)

Lemma for_each_ext {A B} (f g : B -> A -> outcome B) (b : B) (l : list A) :
  (forall b a, f b a = g b a) -> for_each f b l = for_each g b l.
Proof.
  intros Hfg. revert b. induction l as [|a l IH]; intros b; [reflexivity|].
  cbn. rewrite Hfg. destruct (g b a) as [b'|e]; [apply IH | reflexivity].
Qed.

Section DebugMode.

Variable net : Type.
Variable read_pfm : string -> outcome (list (list npfloat)).
Variable load_pickle : string -> outcome net.
Variable data_requirements : net -> outcome unit.
Variable load_preprocessors : string -> outcome unit.
Variable gen_convnet_predictions :
  net -> datasrc -> pyval ->
  outcome (list (list npfloat) * option (gmap string (list (ginput * list (list npfloat))))).
Variable big : Q.
Variable unknown_ord : Z.
Variable flags : gmap string pyval.
Variable format_exc : exn -> string.

Let the_job : params -> outcome (gmap string resval) :=
  job net read_pfm load_pickle data_requirements load_preprocessors
    gen_convnet_predictions big unknown_ord flags.

Let call : params -> outcome worker_result :=
  predict_worker_call net read_pfm load_pickle data_requirements load_preprocessors
    gen_convnet_predictions big unknown_ord flags false format_exc.

Let the_predict :=
  predict net read_pfm load_pickle data_requirements load_preprocessors
    gen_convnet_predictions big unknown_ord flags false format_exc.

Lemma debug_call (p : params) :
  call p = (d ← the_job p; Return (Predictions d)).
Proof.
  subst call the_job. unfold predict_worker_call.
  destruct (job _ _ _ _ _ _ _ _ _ p) as [d|e]; [reflexivity|].
  cbn. destruct (is_Exception e); reflexivity.
Qed.

Lemma debug_loop (wargs : list params) (acc : gmap string resval) :
  for_each (fun predictions workerarg =>
              w ← call workerarg;
              r ← _check_worker_result w;
              update predictions r) acc wargs
  = for_each (fun predictions workerarg =>
                d ← the_job workerarg; Return (d ∪ predictions)) acc wargs.
Proof.
  apply for_each_ext. intros b p. rewrite debug_call.
  destruct (the_job p) as [d|e]; reflexivity.
Qed.

Lemma debug_loop_returns (wargs : list params) (ds : list (gmap string resval))
    (acc : gmap string resval) :
  Forall2 (fun p d => the_job p = Return d) wargs ds ->
  for_each (fun predictions workerarg =>
              d ← the_job workerarg; Return (d ∪ predictions)) acc wargs
  = Return (foldl (fun acc d => d ∪ acc) acc ds).
Proof.
  intros Hall. revert acc.
  induction Hall as [|p d wargs ds Hp _ IH]; intros acc; [reflexivity|].
  cbn. rewrite Hp. cbn. apply IH.
Qed.

Lemma debug_loop_raises (finished : list params) (ds : list (gmap string resval))
    (p : params) (rest : list params) (e : exn) (acc : gmap string resval) :
  Forall2 (fun p d => the_job p = Return d) finished ds ->
  the_job p = Raise e ->
  for_each (fun predictions workerarg =>
              d ← the_job workerarg; Return (d ∪ predictions)) acc
           (finished ++ p :: rest)%list
  = Raise e.
Proof.
  intros Hall He. revert acc.
  induction Hall as [|p' d wargs ds Hp _ IH]; intros acc.
  - cbn. rewrite He. reflexivity.
  - cbn. rewrite Hp. cbn. apply IH.
Qed.

(** Property X9.  With multiprocessing disabled the jobs run one after the
    other in the caller.  The first job that raises ends the run: its
    exception leaves [predict] as it is, not wrapped into the [SystemExit]
    of the pool mode, the jobs after it do not run, and the worker that was
    set up is not deleted.  When every job returns, the merged predictions
    are returned and the worker is deleted. *)
Theorem predict_debug_mode (devices : list Z) (data : gmap string datasrc)
    (modelinfos : gmap string (gmap string string))
    (scan : option Z) (stride : Z) (outdir : string) (verbose : bool)
    (want_pmaps want_gmaps : pyval) (wargs : list params) :
  workerargs data modelinfos scan stride outdir verbose want_pmaps want_gmaps
    = Return wargs ->
  let run := the_predict devices data modelinfos scan stride outdir verbose
               want_pmaps want_gmaps in
  (forall finished ds p rest e,
     wargs = (finished ++ p :: rest)%list ->
     Forall2 (fun p d => the_job p = Return d) finished ds ->
     the_job p = Raise e ->
     run = (Raise e, [WorkerInit]))
  /\ (forall ds,
        Forall2 (fun p d => the_job p = Return d) wargs ds ->
        run = (Return (merged ds), [WorkerInit; WorkerDelete])).
Proof.
  intros Hwargs run.
  assert (Hrun : run = match for_each (fun predictions workerarg =>
                                         d ← the_job workerarg;
                                         Return (d ∪ predictions)) ∅ wargs with
                       | Raise e => (Raise e, [WorkerInit])
                       | Return predictions =>
                           (Return predictions, [WorkerInit; WorkerDelete])
                       end).
  { subst run the_predict. unfold predict. rewrite Hwargs. cbv iota beta.
    fold call. rewrite debug_loop. reflexivity. }
  split.
  - intros finished ds p rest e -> Hall He.
    rewrite Hrun, (debug_loop_raises finished ds p rest e ∅ Hall He). reflexivity.
  - intros ds Hall. rewrite Hrun, (debug_loop_returns wargs ds ∅ Hall). reflexivity.
Qed.

End DebugMode.

(** Of the two sample jobs the second raises [NotImplementedError]: it
    reaches the caller as it is. *)
Lemma predict_debug_mode_witness :
  predict unit sample_read_pfm sample_load_pickle sample_requirements
    sample_load_preprocessors sample_gradients float32_max 255 ∅ false sample_format_exc
    [0] sample_datas sample_modelinfos None 1 "out" false (VBool false) (VBool true)
  = (Raise (Exception "NotImplementedError"
              "Unrecognized modelinfo. Expected it to contain 'PFM' or 'model' value."),
     [WorkerInit]).
Proof.
  edestruct (predict_debug_mode unit sample_read_pfm sample_load_pickle
               sample_requirements sample_load_preprocessors sample_gradients
               float32_max 255 ∅ sample_format_exc
               [0] sample_datas sample_modelinfos None 1 "out" false
               (VBool false) (VBool true)) as [Hraise _].
  - vm_compute. reflexivity.
  - eapply (Hraise [_] [_] _ []).
    + reflexivity.
    + constructor; [reflexivity | constructor].
    + reflexivity.
Defined.

(** ** The model store *)

Lemma str_split_head (sep : ascii) (s : string) :
  exists w ws, Py.str_split sep s = w :: ws.
Proof.
  induction s as [|c s (w & ws & IH)]; cbn; [eauto|].
  destruct (Ascii.eqb c sep); [eauto|]. rewrite IH. eauto.
Qed.

Lemma append_nil_l (s : string) : EmptyString +:+ s = s.
Proof. reflexivity. Qed.

Lemma append_cons (c : ascii) (a b : string) : String c a +:+ b = String c (a +:+ b).
Proof. reflexivity. Qed.

Lemma append_assoc (a b c : string) : (a +:+ b) +:+ c = a +:+ b +:+ c.
Proof.
  induction a as [|x a IH]; [reflexivity|].
  rewrite !append_cons, IH. reflexivity.
Qed.

Lemma str_split_before (sep : ascii) (a b : string) :
  sep ∉ list_ascii_of_string a ->
  head (Py.str_split sep a) = Some a
  /\ head (Py.str_split sep (a +:+ String sep b)) = Some a.
Proof.
  induction a as [|c a IH]; intros Hsep.
  - split; [reflexivity|].
    rewrite append_nil_l. cbn [Py.str_split]. rewrite Ascii.eqb_refl. reflexivity.
  - cbn [list_ascii_of_string] in Hsep. apply not_elem_of_cons in Hsep as [Hc Ha].
    destruct (IH Ha) as [IH1 IH2]. rewrite append_cons. cbn [Py.str_split].
    destruct (Ascii.eqb_spec c sep) as [->|_]; [contradiction|].
    destruct (str_split_head sep a) as (w & ws & Hw).
    destruct (str_split_head sep (a +:+ String sep b)) as (w' & ws' & Hw').
    rewrite Hw in IH1 |- *. rewrite Hw' in IH2 |- *. cbn in *.
    injection IH1 as ->. injection IH2 as ->. split; reflexivity.
Qed.

Lemma str_rstrip_spaces (ws : string) :
  Forall (fun c => Py.isspace c = true) (list_ascii_of_string ws) ->
  Py.str_rstrip ws = EmptyString.
Proof.
  induction ws as [|c ws IH]; intros Hws; [reflexivity|].
  cbn in Hws. apply Forall_cons in Hws as [Hc Hws].
  cbn. rewrite (IH Hws), Hc. reflexivity.
Qed.

Lemma str_rstrip_app (a ws : string) :
  Py.str_rstrip a = a ->
  Forall (fun c => Py.isspace c = true) (list_ascii_of_string ws) ->
  Py.str_rstrip (a +:+ ws) = a.
Proof.
  intros Ha Hws. induction a as [|c a IH].
  - rewrite append_nil_l. apply str_rstrip_spaces. exact Hws.
  - rewrite append_cons. cbn [Py.str_rstrip] in Ha |- *.
    destruct (Py.str_rstrip a) as [|c' r] eqn:Hr.
    + destruct (Py.isspace c); [discriminate|].
      injection Ha as <-. rewrite (IH eq_refl). reflexivity.
    + injection Ha as Ha. rewrite (IH Ha). rewrite <- Ha. reflexivity.
Qed.

(** Property X10.  A line of an include file names the model id that
    stands before its first [#], with the white space after the id
    removed: for an id without [#] that does not end in white space,
    followed by white space, the line names the id, with or without a
    comment after it. *)
Theorem include_line_comment (id ws comment : string) :
  "#"%char ∉ list_ascii_of_string id ->
  Py.str_rstrip id = id ->
  Forall (fun c => Py.isspace c = true) (list_ascii_of_string ws) ->
  include_line (id +:+ ws) = id
  /\ include_line (id +:+ ws +:+ String "#" comment) = id.
Proof.
  intros Hid Hstrip Hws.
  assert (Hsep : "#"%char ∉ list_ascii_of_string (id +:+ ws)).
  { rewrite list_ascii_app. intros Hin. apply elem_of_app in Hin as [Hin|Hin].
    - contradiction.
    - rewrite Forall_forall in Hws. specialize (Hws _ Hin). discriminate. }
  unfold include_line.
  destruct (str_split_before "#" (id +:+ ws) comment Hsep) as [H1 H2].
  rewrite H1, <- append_assoc, H2. cbn [default].
  split; apply str_rstrip_app; assumption.
Qed.

(** An id followed by two spaces, alone and with a comment. *)
Lemma include_line_comment_witness :
  include_line ("D00328.003" +:+ "  ") = "D00328.003"
  /\ include_line ("D00328.003" +:+ "  " +:+ String "#" " RBFOX1") = "D00328.003".
Proof.
  apply (include_line_comment "D00328.003" "  " " RBFOX1").
  - intros H. cbn in H.
    repeat (apply elem_of_cons in H as [H|H]; [discriminate H|]).
    apply elem_of_nil in H. exact H.
  - reflexivity.
  - repeat constructor.
Defined.

Section ModelStoreFacts.

Variable isfile : string -> bool.
Variable readlines : string -> outcome (list string).

Let load := load_modelinfos isfile readlines.

(** Property X11.  With an include list in force, [load_modelinfos]
    returns exactly the enumerated models whose id is in the list, each with
    its own model information, and never an empty dictionary: it raises
    [ValueError] exactly when no enumerated model is in the list. *)
Theorem load_modelinfos_filters (enumerated : gmap string (gmap string string))
    (include : include_arg) (ids : list string) :
  truthy_include include = true ->
  include_ids isfile readlines include = Return ids ->
  (load enumerated include
     = Raise (ValueError "Could not find any models that match criteria.")
   <-> forall id, id ∈ ids -> enumerated !! id = None)
  /\ (forall m, load enumerated include = Return m ->
        m <> ∅
        /\ forall id info,
             m !! id = Some info <-> enumerated !! id = Some info /\ id ∈ ids).
Proof.
  intros Htruthy Hids. subst load. unfold load_modelinfos.
  rewrite Htruthy, Hids. cbn.
  set (m := filter (fun kv : string * gmap string string => kv.1 ∈ ids) enumerated).
  assert (Hm : forall id info,
            m !! id = Some info <-> enumerated !! id = Some info /\ id ∈ ids).
  { intros id info. subst m. rewrite map_lookup_filter_Some. reflexivity. }
  destruct (decide (m = ∅)) as [Hempty|Hne].
  - split.
    + split; [|reflexivity]. intros _ id Hid.
      destruct (enumerated !! id) as [info|] eqn:He; [|reflexivity].
      assert (Hin : m !! id = Some info) by (apply Hm; split; assumption).
      rewrite Hempty, lookup_empty in Hin. discriminate.
    + discriminate.
  - split.
    + split; [discriminate|]. intros Hnone. exfalso. apply Hne.
      apply map_empty. intros id.
      destruct (m !! id) as [info|] eqn:Hin; [|reflexivity].
      apply Hm in Hin as [He Hid]. rewrite (Hnone id Hid) in He. discriminate.
    + intros m' [= <-]. split; [exact Hne | exact Hm].
Qed.

End ModelStoreFacts.

(** Two models enumerated, [include="m2,m9"] that is not a file: the
    result is not empty and holds "m2". *)
Lemma load_modelinfos_filters_witness :
  exists m,
    load_modelinfos (fun _ => false) (fun _ => Return []) sample_modelinfos
      (IncStr "m2,m9") = Return m
    /\ m <> ∅
    /\ m !! "m2" = Some ∅.
Proof.
  destruct (load_modelinfos (fun _ => false) (fun _ => Return []) sample_modelinfos
              (IncStr "m2,m9")) as [m|e] eqn:Hrun;
    [|vm_compute in Hrun; discriminate Hrun].
  exists m. split; [reflexivity|].
  destruct (proj2 (load_modelinfos_filters (fun _ => false) (fun _ => Return [])
                     sample_modelinfos (IncStr "m2,m9") ["m2"; "m9"] eq_refl eq_refl)
                  m Hrun) as [Hne Hm].
  split; [exact Hne|]. apply Hm. split; [reflexivity | left].
Defined.

(** ** The orchestrator and its include list *)

Lemma elem_of_insert_sorted (x y : string) (l : list string) :
  x ∈ insert_sorted y l <-> x = y \/ x ∈ l.
Proof.
  induction l as [|z l IH]; cbn.
  - rewrite list_elem_of_singleton, elem_of_nil. tauto.
  - destruct (String.leb y z).
    + rewrite elem_of_cons. reflexivity.
    + rewrite !elem_of_cons, IH. tauto.
Qed.

Lemma elem_of_sorted (x : string) (l : list string) : x ∈ sorted l <-> x ∈ l.
Proof.
  unfold sorted. induction l as [|y l IH]; cbn; [reflexivity|].
  rewrite elem_of_insert_sorted, IH, elem_of_cons. reflexivity.
Qed.

Lemma mapM_first_raise {A B} (f : A -> outcome B) (l : list A) (x : A) (e : exn) :
  x ∈ l -> f x = Raise e ->
  exists x' e', x' ∈ l /\ f x' = Raise e' /\ mapM f l = Raise e'.
Proof.
  induction l as [|a l IH]; intros Hx He.
  - apply elem_of_nil in Hx. contradiction.
  - cbn [mapM]. destruct (f a) as [b|e'] eqn:Ha.
    + apply elem_of_cons in Hx as [->|Hx]; [congruence|].
      destruct (IH Hx He) as (x' & e' & Hx' & He' & Hrun).
      exists x', e'. split; [right; exact Hx'|]. split; [exact He'|].
      cbn. rewrite Hrun. reflexivity.
    + exists a, e'. split; [left|]. split; [exact Ha | reflexivity].
Qed.

Lemma elem_of_keys {V} (m : gmap string V) (id : string) :
  id ∈ map fst (map_to_list m) <-> is_Some (m !! id).
Proof.
  rewrite list_elem_of_fmap. split.
  - intros ([k v] & -> & Hin). apply elem_of_map_to_list in Hin. eauto.
  - intros [v Hv]. exists (id, v). split; [reflexivity|].
    apply elem_of_map_to_list. exact Hv.
Qed.

Lemma job_modelid_workerargs (data : gmap string datasrc)
    (modelinfos : gmap string (gmap string string))
    (scan : option Z) (stride : Z) (outdir : string) (verbose : bool)
    (want_pmaps want_gmaps : pyval) (wargs : list params) :
  workerargs data modelinfos scan stride outdir verbose want_pmaps want_gmaps
    = Return wargs ->
  map job_modelid wargs = sorted (map fst (map_to_list modelinfos)).
Proof.
  unfold workerargs. generalize (sorted (map fst (map_to_list modelinfos))).
  intros l Hrun. apply mapM_Return_inv in Hrun.
  induction Hrun as [|id p l wargs Hp _ IH]; [reflexivity|].
  cbn. rewrite IH. f_equal.
  destruct (modelinfos !! id); [|discriminate]. cbn in Hp.
  destruct (data !! id); [|discriminate]. cbn in Hp.
  injection Hp as <-. reflexivity.
Qed.

Section PredictInclude.

Variable net : Type.
Variable read_pfm : string -> outcome (list (list npfloat)).
Variable load_pickle : string -> outcome net.
Variable data_requirements : net -> outcome unit.
Variable load_preprocessors : string -> outcome unit.
Variable gen_convnet_predictions :
  net -> datasrc -> pyval ->
  outcome (list (list npfloat) * option (gmap string (list (ginput * list (list npfloat))))).
Variable big : Q.
Variable unknown_ord : Z.
Variable flags : gmap string pyval.
Variable allow_multiprocessing : bool.
Variable format_exc : exn -> string.
Variable isfile : string -> bool.
Variable readlines : string -> outcome (list string).

Let the_predict :=
  predict net read_pfm load_pickle data_requirements load_preprocessors
    gen_convnet_predictions big unknown_ord flags allow_multiprocessing format_exc.

Let the_predict_from_modeldir :=
  predict_from_modeldir net read_pfm load_pickle data_requirements load_preprocessors
    gen_convnet_predictions big unknown_ord flags allow_multiprocessing format_exc
    isfile readlines.

(** Property X12.  Called without an include list on data that is not
    empty, [predict] runs the models of the directory that have an entry
    in the data, one job each in the sorted order of their ids, and skips
    the others without a word; when no model of the directory has data it
    raises the [ValueError] of [load_modelinfos] and creates no pool. *)
Theorem predict_default_selection (enumerated : gmap string (gmap string string))
    (devices : list Z) (data : gmap string datasrc)
    (scan : option Z) (stride : Z) (outdir : string) (verbose : bool)
    (want_pmaps want_gmaps : pyval) :
  data <> ∅ ->
  let selected :=
    filter (fun kv : string * gmap string string => is_Some (data !! kv.1)) enumerated in
  the_predict_from_modeldir enumerated devices data IncNone scan stride outdir verbose
    want_pmaps want_gmaps
  = (if decide (selected = ∅)
     then (Raise (ValueError "Could not find any models that match criteria."), [])
     else the_predict devices data selected scan stride outdir verbose
            want_pmaps want_gmaps)
  /\ exists wargs,
       workerargs data selected scan stride outdir verbose want_pmaps want_gmaps
         = Return wargs
       /\ map job_modelid wargs = sorted (map fst (map_to_list selected)).
Proof.
  intros Hdata selected. split.
  - subst the_predict_from_modeldir the_predict.
    unfold predict_from_modeldir, include_with_data, load_modelinfos. cbn.
    assert (Hkeys : map fst (map_to_list data) <> []).
    { intros Hnil. apply Hdata. apply map_to_list_empty_iff.
      destruct (map_to_list data); [reflexivity | discriminate]. }
    rewrite bool_decide_eq_false_2 by exact Hkeys. cbn.
    assert (Hsel : filter (fun kv : string * gmap string string =>
                             kv.1 ∈ map fst (map_to_list data)) enumerated = selected).
    { subst selected. apply map_filter_ext. intros id info _. cbn.
      apply elem_of_keys. }
    rewrite Hsel. destruct (decide (selected = ∅)); reflexivity.
  - destruct (mapM_Return
                (fun id =>
                   info ← or_raise (KeyError id) (selected !! id);
                   d ← or_raise (KeyError id) (data !! id);
                   Return {| job_modelid := id; job_modelinfo := info; job_scan := scan;
                             job_stride := stride; job_data := d; job_outdir := outdir;
                             job_verbose := verbose; job_want_pmaps := want_pmaps;
                             job_want_gmaps := want_gmaps |})
                (sorted (map fst (map_to_list selected)))) as (wargs & Hrun & _).
    { intros id Hid. apply elem_of_sorted, elem_of_keys in Hid as [info Hinfo].
      rewrite Hinfo. cbn. subst selected.
      apply map_lookup_filter_Some in Hinfo as [_ [d Hd]]. cbn in Hd.
      rewrite Hd. cbn. eauto. }
    exists wargs. split; [exact Hrun|].
    eapply job_modelid_workerargs. exact Hrun.
Qed.

(** Property X13.  The include list of [predict] cannot be a string:
    line 474 adds the keys of the data to it, which raises [TypeError]
    for every string, a path or a comma list alike.  And a list that names
    a model of the directory for which the data has no entry makes
    [predict] raise [KeyError] for such a model.  In both cases no pool is
    created and no job runs. *)
Theorem predict_include_without_data (enumerated : gmap string (gmap string string))
    (devices : list Z) (data : gmap string datasrc)
    (scan : option Z) (stride : Z) (outdir : string) (verbose : bool)
    (want_pmaps want_gmaps : pyval) :
  (forall s,
     the_predict_from_modeldir enumerated devices data (IncStr s) scan stride outdir
       verbose want_pmaps want_gmaps
     = (Raise (Exception "TypeError" "cannot concatenate 'str' and 'list' objects"), []))
  /\ (forall ids id,
        id ∈ ids -> is_Some (enumerated !! id) -> data !! id = None ->
        exists id',
          id' ∈ ids /\ is_Some (enumerated !! id') /\ data !! id' = None
          /\ the_predict_from_modeldir enumerated devices data (IncList ids) scan stride
               outdir verbose want_pmaps want_gmaps
             = (Raise (KeyError id'), [])).
Proof.
  split; [reflexivity|].
  intros ids id Hid [info Hinfo] Hnone.
  subst the_predict_from_modeldir.
  unfold predict_from_modeldir, include_with_data, load_modelinfos. cbn.
  set (all := (ids ++ map fst (map_to_list data))%list).
  assert (Hall : all <> []).
  { subst all. destruct ids; [apply elem_of_nil in Hid; contradiction | discriminate]. }
  rewrite bool_decide_eq_false_2 by exact Hall. cbn.
  set (m := filter (fun kv : string * gmap string string => kv.1 ∈ all) enumerated).
  assert (Hm : forall x i, m !! x = Some i <-> enumerated !! x = Some i /\ x ∈ all).
  { intros x i. subst m. rewrite map_lookup_filter_Some. reflexivity. }
  assert (Hmid : m !! id = Some info).
  { apply Hm. split; [exact Hinfo|]. subst all. apply elem_of_app. left. exact Hid. }
  destruct (decide (m = ∅)) as [Hempty|_].
  { rewrite Hempty, lookup_empty in Hmid. discriminate. }
  unfold predict, workerargs.
  destruct (mapM_first_raise
              (fun id =>
                 info ← or_raise (KeyError id) (m !! id);
                 d ← or_raise (KeyError id) (data !! id);
                 Return {| job_modelid := id; job_modelinfo := info; job_scan := scan;
                           job_stride := stride; job_data := d; job_outdir := outdir;
                           job_verbose := verbose; job_want_pmaps := want_pmaps;
                           job_want_gmaps := want_gmaps |})
              (sorted (map fst (map_to_list m))) id (KeyError id))
    as (id' & e' & Hin & He' & Hrun).
  { apply elem_of_sorted, elem_of_keys. eauto. }
  { rewrite Hmid, Hnone. reflexivity. }
  apply elem_of_sorted, elem_of_keys in Hin as [info' Hinfo'].
  rewrite Hinfo' in He'. cbn in He'.
  destruct (data !! id') as [d|] eqn:Hd; [discriminate|]. cbn in He'.
  injection He' as <-.
  apply Hm in Hinfo' as [He Hin]. subst all.
  apply elem_of_app in Hin as [Hin|Hin].
  2:{ apply elem_of_keys in Hin as [d Hd']. congruence. }
  exists id'. split; [exact Hin|]. split; [eauto|]. split; [exact Hd|].
  rewrite Hrun. reflexivity.
Qed.

End PredictInclude.

(** The directory holds "m1" and "m2" and the data has an entry for "m1"
    only: the jobs are those of the models with data. *)
Lemma predict_default_selection_witness :
  exists wargs,
    workerargs one_data
      (filter (fun kv : string * gmap string string => is_Some (one_data !! kv.1))
              sample_modelinfos)
      None 1 "out" false (VBool false) (VBool false) = Return wargs
    /\ map job_modelid wargs
       = sorted (map fst (map_to_list
           (filter (fun kv : string * gmap string string => is_Some (one_data !! kv.1))
                   sample_modelinfos))).
Proof.
  assert (Hdata : one_data <> ∅).
  { intros H. apply (f_equal (fun m : gmap string datasrc => m !! "m1")) in H.
    discriminate H. }
  exact (proj2 (predict_default_selection unit sample_read_pfm sample_load_pickle
                  sample_requirements sample_load_preprocessors sample_gradients
                  float32_max 255 ∅ true sample_format_exc
                  (fun _ => false) (fun _ => Return [])
                  sample_modelinfos [0] one_data None 1 "out" false
                  (VBool false) (VBool false) Hdata)).
Defined.

(** The include list names "m2", which the directory holds and the data
    does not. *)
Lemma predict_include_without_data_witness :
  exists id',
    id' ∈ ["m2"] /\ is_Some (sample_modelinfos !! id') /\ one_data !! id' = None
    /\ predict_from_modeldir unit sample_read_pfm sample_load_pickle
         sample_requirements sample_load_preprocessors sample_gradients
         float32_max 255 ∅ true sample_format_exc
         (fun _ => false) (fun _ => Return [])
         sample_modelinfos [0] one_data (IncList ["m2"]) None 1 "out" false
         (VBool false) (VBool false)
       = (Raise (KeyError id'), []).
Proof.
  apply (proj2 (predict_include_without_data unit sample_read_pfm sample_load_pickle
                  sample_requirements sample_load_preprocessors sample_gradients
                  float32_max 255 ∅ true sample_format_exc
                  (fun _ => false) (fun _ => Return [])
                  sample_modelinfos [0] one_data None 1 "out" false
                  (VBool false) (VBool false)) ["m2"] "m2").
  - left.
  - eexists. reflexivity.
  - reflexivity.
Defined.

(** ** Scanning *)

Lemma range_seq (n : Z) : Py.range n = map Z.of_nat (seq 0 (Z.to_nat n)).
Proof.
  apply list_eq. intros k. rewrite range_lookup, list_lookup_fmap.
  destruct (Z.ltb_spec (Z.of_nat k) n) as [Hlt|Hge].
  - rewrite lookup_seq_lt by lia. reflexivity.
  - rewrite lookup_seq_ge by lia. reflexivity.
Qed.

Lemma for_each_seq_returned {B} (P : nat -> B -> Prop) (body : B -> Z -> outcome B)
    (len : nat) :
  forall (s : nat) (b b' : B),
    P s b ->
    (forall i b b', (s <= i < s + len)%nat -> P i b ->
       body b (Z.of_nat i) = Return b' -> P (S i) b') ->
    for_each body b (map Z.of_nat (seq s len)) = Return b' ->
    P (s + len)%nat b'.
Proof.
  induction len as [|len IH]; intros s b b' Hb Hstep Hrun.
  - cbn in Hrun. injection Hrun as <-. rewrite Nat.add_0_r. exact Hb.
  - cbn in Hrun. destruct (body b (Z.of_nat s)) as [b1|e] eqn:Hb1; [|discriminate].
    replace (s + S len)%nat with (S s + len)%nat by lia.
    apply (IH (S s) b1 b'); [|intros i c c' Hi; apply Hstep; lia | exact Hrun].
    apply (Hstep s b b1); [lia | exact Hb | exact Hb1].
Qed.

Lemma for_each_seq_returns {B} (P : nat -> B -> Prop) (body : B -> Z -> outcome B)
    (len : nat) :
  forall (s : nat) (b : B),
    P s b ->
    (forall i b, (s <= i < s + len)%nat -> P i b ->
       exists b', body b (Z.of_nat i) = Return b' /\ P (S i) b') ->
    exists b', for_each body b (map Z.of_nat (seq s len)) = Return b'
               /\ P (s + len)%nat b'.
Proof.
  induction len as [|len IH]; intros s b Hb Hstep.
  - exists b. split; [reflexivity|]. rewrite Nat.add_0_r. exact Hb.
  - destruct (Hstep s b) as (b1 & Hb1 & HP1); [lia | exact Hb|].
    destruct (IH (S s) b1 HP1) as (b' & Hrun & HP').
    { intros i c Hi. apply Hstep. lia. }
    exists b'. split; [cbn; rewrite Hb1; exact Hrun|].
    replace (s + S len)%nat with (S s + len)%nat by lia. exact HP'.
Qed.

Lemma item_nat {A} (l : list A) (i : nat) : Ix.item l (Z.of_nat i) = l !! i.
Proof.
  unfold Ix.item. destruct (Z.ltb_spec (Z.of_nat i) 0); [lia|].
  rewrite Nat2Z.id. reflexivity.
Qed.

Lemma cumsum_from_lookup {A} (ls : list (list A)) (acc : Z) (i : nat) :
  (i < length ls)%nat ->
  cumsum_from acc (map Py.len ls) !! i = Some (acc + Py.len (concat (take (S i) ls))).
Proof.
  revert acc i. induction ls as [|x ls IH]; intros acc i Hi; [simpl in Hi; lia|].
  destruct i as [|i].
  - cbn. unfold Py.len. rewrite take_0, app_nil_r. reflexivity.
  - cbn [map cumsum_from lookup list_lookup]. rewrite IH by (simpl in Hi; lia).
    f_equal. cbn [take concat]. unfold Py.len. rewrite (length_app x). lia.
Qed.

Lemma cumsum_regions (ls : list (list string)) (i : nat) :
  (i <= length ls)%nat ->
  cumsum (0 :: nwindows ls) !! i = Some (Py.len (concat (take i ls))).
Proof.
  intros Hi. unfold cumsum, nwindows. cbn [cumsum_from].
  destruct i as [|i]; [reflexivity|].
  cbn [lookup list_lookup]. rewrite cumsum_from_lookup by lia. reflexivity.
Qed.

Lemma slice_middle {A} (a x c : list A) :
  Py.slice (a ++ x ++ c)%list (Py.len a) (Py.len a + Py.len x) = x.
Proof.
  unfold Py.slice, Py.clamp_index, Py.len. rewrite !length_app.
  destruct (Z.ltb_spec (Z.of_nat (length a)) 0); [lia|].
  destruct (Z.ltb_spec (Z.of_nat (length a) + Z.of_nat (length x)) 0); [lia|].
  rewrite Z.min_l, Z.min_l by lia.
  rewrite Nat2Z.id, drop_app_length.
  replace (Z.to_nat (Z.of_nat (length a) + Z.of_nat (length x) - Z.of_nat (length a)))
    with (length x) by lia.
  apply take_app_length.
Qed.

Lemma slice_concat {A} (ls : list (list A)) (i : nat) (x : list A) :
  ls !! i = Some x ->
  Py.slice (concat ls) (Py.len (concat (take i ls))) (Py.len (concat (take (S i) ls))) = x.
Proof.
  intros Hx.
  rewrite <- (take_drop_middle ls i x Hx) at 1.
  rewrite concat_app. cbn [concat].
  rewrite (take_S_r ls i x Hx), concat_app. cbn [concat]. rewrite app_nil_r.
  unfold Py.len at 2. rewrite length_app, Nat2Z.inj_add.
  apply slice_middle.
Qed.

Lemma slice_fmap {A B} (f : A -> B) (l : list A) (a b : Z) :
  Py.slice (f <$> l) a b = f <$> Py.slice l a b.
Proof.
  unfold Py.slice, Py.len. rewrite length_fmap, fmap_take, fmap_drop. reflexivity.
Qed.

Lemma slice_chunk {A} (l : list A) (a k : nat) :
  Py.slice l (Z.of_nat a) (Z.of_nat a + Z.of_nat k) = take k (drop a l).
Proof.
  unfold Py.slice, Py.clamp_index, Py.len.
  destruct (Z.ltb_spec (Z.of_nat a) 0); [lia|].
  destruct (Z.ltb_spec (Z.of_nat a + Z.of_nat k) 0); [lia|].
  destruct (Nat.le_gt_cases (length l) a) as [Hge|Hlt].
  - rewrite !drop_ge by lia. rewrite !take_nil. reflexivity.
  - rewrite (Z.min_l (Z.of_nat a)) by lia. rewrite Nat2Z.id.
    destruct (Z.le_gt_cases (Z.of_nat a + Z.of_nat k) (Z.of_nat (length l))).
    + rewrite Z.min_l by lia. f_equal. lia.
    + rewrite Z.min_r by lia.
      rewrite !take_ge; [reflexivity | rewrite length_drop; lia | rewrite length_drop; lia].
Qed.

Lemma mapM_option_total {A B} (f : A -> option B) (g : A -> B) (l : list A) :
  (forall a, a ∈ l -> f a = Some (g a)) -> mapM f l = Some (map g l).
Proof.
  intros Hf. apply mapM_Some. induction l as [|a l IH]; constructor.
  - apply Hf. left.
  - apply IH. intros a' Ha'. apply Hf. right. exact Ha'.
Qed.

Lemma subwindows_returns (w s : Z) (rawseq : string) :
  1 <= s -> exists ws, subwindows w s rawseq = Some ws.
Proof.
  intros Hs. unfold subwindows, window_starts.
  destruct (range3_up (Z.max 1 (Py.len_str (padseq w rawseq) - w + 1)) s Hs)
    as (idx & -> & _).
  cbn. eauto.
Qed.

Section ScanFacts.

Variable net : Type.
Variable gen_convnet_predictions :
  net -> datasrc -> pyval ->
  outcome (list (list npfloat) * option (gmap string (list (ginput * list (list npfloat))))).
Variable big : Q.

Let scan := gen_convnet_predictionmaps net gen_convnet_predictions big.

(** The windows of a sequence, and the prediction map that a network
    scoring each window by [score] gives it. *)
Let wins (w s : Z) (rawseq : string) : list string := default [] (subwindows w s rawseq).

Lemma scan_sequences_plain (w s : Z) (rawseqs : list string) (cX : list (list string))
    (score : string -> list npfloat)
    (maps : list (list npfloat) * list (list (list npfloat))) :
  for_each (scan_sequence big w s rawseqs (map score (concat cX)) None
              (cumsum (0 :: nwindows cX)))
           maps (Py.range (Py.len cX))
  = Return ((fst maps ++ map (fun ws => concat (map score ws)) cX)%list, snd maps).
Proof.
  rewrite range_seq. unfold Py.len. rewrite Nat2Z.id.
  destruct (for_each_seq_returns
              (fun i m => m = ((fst maps ++ map (fun ws => concat (map score ws))
                                              (take i cX))%list, snd maps))
              (scan_sequence big w s rawseqs (map score (concat cX)) None
                 (cumsum (0 :: nwindows cX)))
              (length cX) 0%nat maps) as (m' & Hrun & Hm').
  - rewrite take_0. cbn. rewrite app_nil_r. destruct maps; reflexivity.
  - intros i m Hi ->.
    assert (H0 : Ix.item (cumsum (0 :: nwindows cX)) (Z.of_nat i)
                 = Some (Py.len (concat (take i cX))))
      by (rewrite item_nat; apply cumsum_regions; lia).
    assert (H1 : Ix.item (cumsum (0 :: nwindows cX)) (Z.of_nat i + 1)
                 = Some (Py.len (concat (take (S i) cX)))).
    { replace (Z.of_nat i + 1) with (Z.of_nat (S i)) by lia.
      rewrite item_nat. apply cumsum_regions. lia. }
    unfold scan_sequence. rewrite H0, H1. cbn.
    destruct (lookup_lt_is_Some_2 cX i) as [x Hx]; [lia|].
    eexists. split; [reflexivity|].
    rewrite slice_fmap, (slice_concat cX i x Hx), (take_S_r cX i x Hx).
    rewrite map_app, app_assoc. reflexivity.
  - rewrite Hrun, Hm'. cbn. rewrite take_ge by lia. reflexivity.
Qed.

Lemma scan_chunk_plain (model : net) (data : datasrc) (w s : Z) (want_gmaps : pyval)
    (score : string -> list npfloat)
    (maps : list (list npfloat) * list (list (list npfloat))) (ci : nat) :
  1 <= s ->
  (forall chunk, gen_convnet_predictions model chunk want_gmaps
                 = Return (map score (X_seq chunk), None)) ->
  scan_chunk net gen_convnet_predictions big model data w s want_gmaps maps (Z.of_nat ci)
  = Return ((fst maps ++ map (fun rawseq => concat (map score (wins w s rawseq)))
                            (take 32 (drop (32 * ci) (X_seq data))))%list,
            snd maps).
Proof.
  intros Hs Hnet. unfold scan_chunk. cbv zeta.
  replace (Z.of_nat ci * 32) with (Z.of_nat (32 * ci)) by lia.
  replace ((Z.of_nat ci + 1) * 32) with (Z.of_nat (32 * ci) + Z.of_nat 32) by lia.
  rewrite slice_chunk.
  set (rawseqs := take 32 (drop (32 * ci) (X_seq data))).
  assert (HcX : chunk_X w s rawseqs = Some (map (wins w s) rawseqs)).
  { apply mapM_option_total. intros rawseq _. subst wins. cbv beta.
    destruct (subwindows_returns w s rawseq Hs) as [ws ->]. reflexivity. }
  rewrite HcX. cbn [or_raise mbind outcome_bind]. rewrite Hnet. cbn [mbind outcome_bind X_seq].
  replace (Py.len rawseqs) with (Py.len (map (wins w s) rawseqs))
    by (unfold Py.len; rewrite length_map; reflexivity).
  rewrite scan_sequences_plain. rewrite map_map. reflexivity.
Qed.

Lemma scan_returns_windows (model : net) (data : datasrc) (stride windowsize : Z)
    (want_gmaps : pyval) (score : string -> list npfloat) :
  1 <= stride ->
  Py.len (sequencenames data) <= 1 ->
  (forall chunk, gen_convnet_predictions model chunk want_gmaps
                 = Return (map score (X_seq chunk), None)) ->
  scan model data stride windowsize want_gmaps
  = Return (map (fun rawseq => concat (map score (wins windowsize stride rawseq)))
                (X_seq data),
            if truthy want_gmaps then Some [] else None).
Proof.
  intros Hs Hsingle Hnet. subst scan. unfold gen_convnet_predictionmaps.
  destruct (Z.ltb_spec 1 (Py.len (sequencenames data))); [lia|]. cbv zeta.
  set (pm := fun rawseq => concat (map score (wins windowsize stride rawseq))).
  set (nchunk := (data_len data + 32 - 1) / 32).
  rewrite range_seq.
  destruct (for_each_seq_returns
              (fun ci maps => maps = (map pm (take (32 * ci) (X_seq data)), []))
              (scan_chunk net gen_convnet_predictions big model data windowsize stride
                 want_gmaps)
              (Z.to_nat nchunk) 0%nat ([], [])) as (maps & Hrun & Hmaps).
  - reflexivity.
  - intros ci maps _ ->.
    rewrite (scan_chunk_plain model data windowsize stride want_gmaps score _ ci Hs Hnet).
    eexists. split; [reflexivity|]. cbn [fst snd].
    fold pm. rewrite <- map_app, take_take_drop. do 3 f_equal. lia.
  - rewrite Hrun. cbn [mbind outcome_bind]. subst maps. cbn [fst snd].
    assert (Hall : take (32 * (0 + Z.to_nat nchunk)) (X_seq data) = X_seq data).
    { apply take_ge. subst nchunk. unfold data_len, Py.len.
      pose proof (Z.div_mod (Z.of_nat (length (X_seq data)) + 32 - 1) 32 ltac:(lia)).
      pose proof (Z.mod_pos_bound (Z.of_nat (length (X_seq data)) + 32 - 1) 32 ltac:(lia)).
      lia. }
    rewrite Hall. reflexivity.
Qed.

(** Property X14.  Scanning with a network that scores every window on its
    own, without gradient maps, gives each sequence the scores of its own
    windows, in the order of the windows: one prediction map per sequence,
    in the order of the data, whatever the number of chunks of 32
    sequences. *)
Theorem scan_maps_windows (model : net) (data : datasrc) (stride windowsize : Z)
    (want_gmaps : pyval) (score : string -> list npfloat) :
  1 <= stride ->
  Py.len (sequencenames data) <= 1 ->
  (forall chunk, gen_convnet_predictions model chunk want_gmaps
                 = Return (map score (X_seq chunk), None)) ->
  exists pmaps,
    scan model data stride windowsize want_gmaps
      = Return (pmaps, if truthy want_gmaps then Some [] else None)
    /\ length pmaps = length (X_seq data)
    /\ forall (i : nat) (rawseq : string),
         X_seq data !! i = Some rawseq ->
         exists ws, subwindows windowsize stride rawseq = Some ws
                    /\ pmaps !! i = Some (concat (map score ws)).
Proof.
  intros Hs Hsingle Hnet.
  rewrite (scan_returns_windows model data stride windowsize want_gmaps score
             Hs Hsingle Hnet).
  eexists. split; [reflexivity|]. split; [apply length_map|].
  intros i rawseq Hi.
  destruct (subwindows_returns windowsize stride rawseq Hs) as [ws Hws].
  exists ws. split; [exact Hws|].
  rewrite list_lookup_fmap, Hi. cbn. subst wins. cbv beta. rewrite Hws. reflexivity.
Qed.

Lemma scan_sequence_appends (w s : Z) (rawseqs : list string)
    (chunk_predictions : list (list npfloat))
    (chunk_gmaps : option (gmap string (list (ginput * list (list npfloat)))))
    (chunk_regions : list Z)
    (m m' : list (list npfloat) * list (list (list npfloat))) (i : Z) :
  scan_sequence big w s rawseqs chunk_predictions chunk_gmaps chunk_regions m i
    = Return m' ->
  length (fst m') = S (length (fst m))
  /\ (length (snd m) <= length (snd m') <= S (length (snd m)))%nat.
Proof.
  unfold scan_sequence. destruct m as [pmaps gmaps].
  destruct (Ix.item chunk_regions i) as [r0|]; [|discriminate].
  cbn [or_raise mbind outcome_bind].
  destruct (Ix.item chunk_regions (i + 1)) as [r1|]; [|discriminate].
  cbn [or_raise mbind outcome_bind].
  destruct chunk_gmaps as [g|].
  - destruct (Ix.item rawseqs i) as [rawseq|]; [|discriminate].
    cbn [or_raise mbind outcome_bind].
    destruct (Ix.item chunk_predictions 0) as [p0|]; [|discriminate].
    cbn [or_raise mbind outcome_bind].
    destruct (zeros4 _) as [z|e]; [|discriminate]. cbn [or_raise mbind outcome_bind].
    destruct (g !! "dX_seq") as [dX|]; [|discriminate]. cbn [or_raise mbind outcome_bind].
    destruct (decide _); [discriminate|]. cbn [or_raise mbind outcome_bind].
    destruct (build_gmap _ _ _ _ _ _ _) as [gmap|e]; [|discriminate].
    cbn [or_raise mbind outcome_bind].
    intros [= <-]. cbn [fst snd]. rewrite !length_app. cbn [length]. lia.
  - intros [= <-]. cbn [fst snd]. rewrite length_app. cbn [length]. lia.
Qed.

Lemma scan_chunk_appends (model : net) (data : datasrc) (w s : Z) (want_gmaps : pyval)
    (m m' : list (list npfloat) * list (list (list npfloat))) (ci : nat) :
  scan_chunk net gen_convnet_predictions big model data w s want_gmaps m (Z.of_nat ci)
    = Return m' ->
  length (fst m') = (length (fst m) + length (take 32 (drop (32 * ci) (X_seq data))))%nat
  /\ (length (snd m') - length (snd m) <= length (fst m') - length (fst m))%nat.
Proof.
  unfold scan_chunk. cbv zeta.
  replace (Z.of_nat ci * 32) with (Z.of_nat (32 * ci)) by lia.
  replace ((Z.of_nat ci + 1) * 32) with (Z.of_nat (32 * ci) + Z.of_nat 32) by lia.
  rewrite slice_chunk.
  set (rawseqs := take 32 (drop (32 * ci) (X_seq data))).
  destruct (chunk_X w s rawseqs) as [cX|]; [|discriminate]. cbn [or_raise mbind outcome_bind].
  destruct (gen_convnet_predictions model _ want_gmaps) as [[preds g]|e]; [|discriminate].
  cbn [mbind outcome_bind]. rewrite range_seq. unfold Py.len at 1. rewrite Nat2Z.id.
  intros Hrun.
  apply (for_each_seq_returned
           (fun i x => length (fst x) = (length (fst m) + i)%nat
                       /\ (length (snd x) - length (snd m) <= i)%nat)
           _ (length rawseqs) 0%nat m m') in Hrun.
  - cbv beta in Hrun. fold rawseqs. lia.
  - lia.
  - intros i b b' _ [Hf Hg] Hstep. apply scan_sequence_appends in Hstep. lia.
Qed.

(** Property X15.  Whatever the network returns, a scan that returns has
    produced exactly one prediction map per sequence of the data, and
    gradient maps exactly when they were requested, no more of them than
    there are sequences. *)
Theorem scan_one_map_per_sequence (model : net) (data : datasrc) (stride windowsize : Z)
    (want_gmaps : pyval) (pmaps : list (list npfloat))
    (gmaps : option (list (list (list npfloat)))) :
  scan model data stride windowsize want_gmaps = Return (pmaps, gmaps) ->
  length pmaps = length (X_seq data)
  /\ match gmaps with
     | None => truthy want_gmaps = false
     | Some g => truthy want_gmaps = true /\ (length g <= length (X_seq data))%nat
     end.
Proof.
  subst scan. unfold gen_convnet_predictionmaps.
  destruct (1 <? Py.len (sequencenames data)); [discriminate|]. cbv zeta.
  set (nchunk := (data_len data + 32 - 1) / 32).
  rewrite range_seq.
  destruct (for_each _ _ _) as [maps|e] eqn:Hrun; [|discriminate].
  cbn [mbind outcome_bind]. intros [= <- <-].
  apply (for_each_seq_returned
           (fun ci x => length (fst x) = length (take (32 * ci) (X_seq data))
                        /\ (length (snd x) <= length (fst x))%nat)
           _ (Z.to_nat nchunk) 0%nat ([], []) maps) in Hrun.
  - destruct Hrun as [Hf Hg].
    assert (Hall : take (32 * (0 + Z.to_nat nchunk)) (X_seq data) = X_seq data).
    { apply take_ge. subst nchunk. unfold data_len, Py.len.
      pose proof (Z.div_mod (Z.of_nat (length (X_seq data)) + 32 - 1) 32 ltac:(lia)).
      pose proof (Z.mod_pos_bound (Z.of_nat (length (X_seq data)) + 32 - 1) 32 ltac:(lia)).
      lia. }
    rewrite Hall in Hf. split; [exact Hf|].
    destruct (truthy want_gmaps); [split; [reflexivity | lia] | reflexivity].
  - cbn. split; [reflexivity | lia].
  - intros ci b b' _ [Hf Hg] Hstep. apply scan_chunk_appends in Hstep as [Hf' Hg'].
    split; [|lia].
    rewrite Hf', Hf. replace (32 * S ci)%nat with (32 * ci + 32)%nat by lia.
    rewrite <- take_take_drop, length_app. reflexivity.
Qed.

Lemma range_head (n : Z) : 1 <= n -> exists rest, Py.range n = 0 :: rest.
Proof.
  intros Hn. rewrite range_seq.
  destruct (Z.to_nat n) as [|k] eqn:Hk; [lia|]. cbn. eauto.
Qed.

Lemma scan_chunk_stride_zero (model : net) (data : datasrc) (windowsize : Z)
    (want_gmaps : pyval) (maps : list (list npfloat) * list (list (list npfloat))) :
  X_seq data <> [] ->
  scan_chunk net gen_convnet_predictions big model data windowsize 0 want_gmaps maps 0
  = Raise (ValueError "").
Proof.
  intros Hdata. unfold scan_chunk. cbv zeta.
  destruct (X_seq data) as [|rawseq rest] eqn:HX; [contradiction|].
  replace (Py.slice (rawseq :: rest) (0 * 32) ((0 + 1) * 32))
    with (rawseq :: take 31 rest)
    by (symmetry; apply (slice_chunk (rawseq :: rest) 0 32)).
  unfold chunk_X. cbn [mapM]. unfold subwindows at 1, window_starts, Py.range3.
  reflexivity.
Qed.

(** Property X16.  A stride of 0 is refused before the network is asked for
    anything: on data that is not empty the scan raises the [ValueError]
    of [range], whatever the network would return. *)
Theorem scan_stride_zero (model : net) (data : datasrc) (windowsize : Z)
    (want_gmaps : pyval) :
  X_seq data <> [] ->
  Py.len (sequencenames data) <= 1 ->
  scan model data 0 windowsize want_gmaps = Raise (ValueError "").
Proof.
  intros Hdata Hsingle. subst scan. unfold gen_convnet_predictionmaps.
  destruct (Z.ltb_spec 1 (Py.len (sequencenames data))); [lia|]. cbv zeta.
  destruct (range_head ((data_len data + 32 - 1) / 32)) as [cis ->].
  { unfold data_len, Py.len. destruct (X_seq data); [contradiction|]. cbn [length].
    apply Z.div_le_lower_bound; lia. }
  cbn [for_each]. rewrite scan_chunk_stride_zero by exact Hdata. reflexivity.
Qed.

End ScanFacts.

(** The sample network gives every window the score 0: "ACGT" with
    window size 2 and stride 1 gets one map. *)
Lemma scan_maps_windows_witness :
  exists pmaps,
    gen_convnet_predictionmaps unit sample_gradients float32_max tt sample_data 1 2
      (VBool false) = Return (pmaps, None)
    /\ length pmaps = 1%nat.
Proof.
  destruct (scan_maps_windows unit sample_gradients float32_max tt sample_data 1 2
              (VBool false) (fun _ => [Fin 0]))
    as (pmaps & Hrun & Hlen & _).
  - lia.
  - vm_compute. discriminate.
  - intros chunk. reflexivity.
  - exists pmaps. split; [exact Hrun | exact Hlen].
Defined.

(** The same scan with gradient maps requested. *)
Lemma scan_one_map_per_sequence_witness :
  exists pmaps gmaps,
    gen_convnet_predictionmaps unit sample_gradients float32_max tt sample_data 1 2
      (VBool true) = Return (pmaps, gmaps)
    /\ length pmaps = 1%nat.
Proof.
  destruct (gen_convnet_predictionmaps unit sample_gradients float32_max tt sample_data
              1 2 (VBool true)) as [[pmaps gmaps]|e] eqn:Hrun;
    [|vm_compute in Hrun; discriminate Hrun].
  exists pmaps, gmaps. split; [reflexivity|].
  exact (proj1 (scan_one_map_per_sequence unit sample_gradients float32_max tt
                  sample_data 1 2 (VBool true) pmaps gmaps Hrun)).
Defined.

(** The sample data scanned with stride 0. *)
Lemma scan_stride_zero_witness :
  gen_convnet_predictionmaps unit sample_gradients float32_max tt sample_data 0 2
    (VBool false) = Raise (ValueError "").
Proof.
  apply (scan_stride_zero unit sample_gradients float32_max tt sample_data 2 (VBool false)).
  - discriminate.
  - vm_compute. discriminate.
Defined.

(** ** The gradient array of the finite differences *)

Lemma for_each_returned {A B} (P : B -> Prop) (body : B -> A -> outcome B) (l : list A) :
  (forall b a b', P b -> body b a = Return b' -> P b') ->
  forall b b', P b -> for_each body b l = Return b' -> P b'.
Proof.
  intros Hbody. induction l as [|a l IH]; intros b b' Hb Hrun.
  - cbn in Hrun. injection Hrun as <-. exact Hb.
  - cbn in Hrun. destruct (body b a) as [b1|e] eqn:Hb1; [|discriminate].
    apply (IH b1 b'); [eapply Hbody; eassumption | exact Hrun].
Qed.

Lemma set_item_shape {A} (m m' : list (list A)) (i : Z) (row row' : list A) :
  Ix.item m i = Some row -> length row' = length row ->
  Ix.set_item m i row' = Some m' ->
  map length m' = map length m.
Proof.
  unfold Ix.item, Ix.set_item. intros Hrow Hlen Hset.
  destruct (_ && _); [|discriminate]. injection Hset as <-.
  assert (Hat : m !! Z.to_nat (if i <? 0 then i + Py.len m else i) = Some row).
  { destruct (i <? 0); [|exact Hrow].
    destruct (0 <=? i + Py.len m); [exact Hrow | discriminate]. }
  change (length <$> <[Z.to_nat (if i <? 0 then i + Py.len m else i) := row']> m
          = length <$> m).
  rewrite list_fmap_insert, Hlen. apply list_insert_id.
  rewrite list_lookup_fmap, Hat. reflexivity.
Qed.

Section FiniteDiffShape.

Variable eval_Z : gmap string argval -> outcome (list npfloat).
Variable generate_dinuc_featurevec : list Z -> outcome (list npfloat).
Variable flags : gmap string pyval.
Variable key : string.
Variable X : list Z.
Variable R : list (Z * Z).
Variable pad : Z.
Variable Zorig : list npfloat.
Variable nbase : Z.

Lemma record_row_shape (i j k : Z) (dZ : list npfloat) (dX dX' : list (list npfloat)) :
  record_row flags R pad i j dZ dX k = Return dX' ->
  map length dX' = map length dX.
Proof.
  unfold record_row. destruct (forward_row flags k); [|intros [= <-]; reflexivity].
  destruct (Ix.item R k) as [[a b]|]; [|discriminate]. cbn [or_raise mbind outcome_bind].
  destruct (i <? b - a); [|intros [= <-]; reflexivity].
  destruct (Ix.item dZ _) as [d|]; [|discriminate]. cbn [or_raise mbind outcome_bind].
  destruct (Ix.item dX (pad + a + i)) as [row|] eqn:Hrow; [|discriminate].
  cbn [or_raise mbind outcome_bind].
  destruct (Ix.set_item row j d) as [row'|] eqn:Hrow'; [|discriminate].
  cbn [or_raise mbind outcome_bind].
  destruct (Ix.set_item dX (pad + a + i) row') as [dX''|] eqn:HdX; [|discriminate].
  cbn [or_raise]. intros [= <-].
  eapply set_item_shape; [exact Hrow | | exact HdX].
  apply (item_set_item _ _ _ _ Hrow').
Qed.

Lemma fd_step_shape (i j : Z) (st : fd_state) :
  map length (dX (snd (fd_step eval_Z generate_dinuc_featurevec flags key X R pad Zorig
                         i j st)))
  = map length (dX st).
Proof.
  unfold fd_step.
  destruct (F ← args_F (args st); for_each _ (X, F) _) as [[mtX mtF]|e]; [|reflexivity].
  destruct (eval_and_record _ _ _ _ _ _ _ _) as [dX'|e] eqn:Hrec; [|reflexivity].
  cbn [snd dX]. unfold eval_and_record in Hrec. cbn [args dX] in Hrec.
  destruct (eval_Z _) as [mtZ|e]; [|discriminate]. cbn [mbind outcome_bind] in Hrec.
  destruct (maskout_revcomp flags mtZ) as [r|e]; [|discriminate].
  cbn [mbind outcome_bind] in Hrec.
  destruct (delta_array Zorig (fst r)) as [dZ|e]; [|discriminate].
  cbn [mbind outcome_bind] in Hrec.
  apply (for_each_returned (fun m => map length m = map length (dX st))
           (record_row flags R pad i j dZ) _) in Hrec; [exact Hrec | | reflexivity].
  intros m k m' Hm Hstep. rewrite <- Hm. eapply record_row_shape. exact Hstep.
Qed.

(** Property X17.  The finite differences never change the shape of the
    gradient array: whether the block returns or raises, [dX] has the rows
    it had, each of the width it had. *)
Theorem finite_diff_keeps_shape (st : fd_state) :
  map length
    (dX (snd (finite_diff eval_Z generate_dinuc_featurevec flags key X R pad Zorig nbase st)))
  = map length (dX st).
Proof.
  unfold finite_diff.
  destruct (args st !! "F") as [oldF|]; [|reflexivity].
  destruct (Xlen_max R) as [n|e]; [|reflexivity].
  set (P := fun s : fd_state => map length (dX s) = map length (dX st)).
  assert (Hend : P (snd (for_state
                           (fun i => for_state
                              (fun j => fd_step eval_Z generate_dinuc_featurevec flags
                                          key X R pad Zorig i j) (Py.range nbase))
                           (Py.range n) st))).
  { apply (for_state_invariant P); [|reflexivity].
    intros i s Hs. apply (for_state_invariant P); [|exact Hs].
    intros j s0 Hs0. unfold P. rewrite fd_step_shape. exact Hs0. }
  destruct (for_state _ (Py.range n) st) as [[[]|e] st'']; exact Hend.
Qed.

End FiniteDiffShape.

(** ** The gradient maps of a sequence attribute *)

Lemma maskout_revcomp_mask (flags : gmap string pyval) (Z Z' : list npfloat)
    (mask : list bool) :
  maskout_revcomp flags Z = Return (Z', Some mask) ->
  length mask = length Z /\ Z' = Np.bool_index Z mask.
Proof.
  unfold maskout_revcomp.
  destruct (flags !! "reverse_complement") as [v|]; [|discriminate].
  destruct (Np.reshape_pairs Z) as [Zcols|] eqn:Hcols; [|discriminate].
  cbn. apply (proj1 (reshape_pairs_cases Z)) in Hcols.
  destruct (eq_str v "force"); intros [= <- <-];
    (split; [|reflexivity]);
    rewrite Hcols, !ravel_pairs_length, length_map; reflexivity.
Qed.

Lemma bool_index_zip {A} (l : list A) (mask : list bool) :
  concat (map (fun p : bool * A => if p.1 then [p.2] else []) (zip mask l))
  = Np.bool_index l mask.
Proof.
  revert mask. induction l as [|a l IH]; intros [|b mask]; try reflexivity.
  cbn. rewrite IH. destruct b; reflexivity.
Qed.

Section SequenceGradientFacts.

Variable ord2acgt : list Z -> string.

Let keep (dX : list (string * list (list npfloat))) (Zmask : list bool) (i : Z)
  : outcome (list (string * list (list npfloat))) :=
  b ← or_raise (IndexError "") (Ix.item Zmask i);
  if b : bool
  then e ← or_raise (IndexError "") (Ix.item dX i); Return [e]
  else Return [].

Lemma keep_raises (dX : list (string * list (list npfloat))) (Zmask : list bool)
    (i : Z) (e : exn) :
  keep dX Zmask i = Raise e -> e = IndexError "".
Proof.
  subst keep. cbv beta.
  destruct (Ix.item Zmask i) as [[]|]; cbn; [|discriminate|intros [= <-]; reflexivity].
  destruct (Ix.item dX i); cbn; [discriminate | intros [= <-]; reflexivity].
Qed.

Lemma keep_all (dX : list (string * list (list npfloat))) (Zmask : list bool) :
  (length dX <= length Zmask)%nat ->
  exists kept,
    mapM (keep dX Zmask) (Py.range (Py.len dX)) = Return kept
    /\ concat kept = Np.bool_index dX Zmask.
Proof.
  intros Hlen.
  destruct (mapM_Return_Forall2 (keep dX Zmask)
              (fun i k => exists b e, Zmask !! Z.to_nat i = Some b
                                      /\ dX !! Z.to_nat i = Some e
                                      /\ k = if b : bool then [e] else [])
              (Py.range (Py.len dX))) as (kept & Hrun & Hall).
  { intros i Hi. apply range_elem in Hi. unfold Py.len in Hi.
    destruct (lookup_lt_is_Some_2 Zmask (Z.to_nat i)) as [b Hb]; [lia|].
    destruct (lookup_lt_is_Some_2 dX (Z.to_nat i)) as [e He]; [lia|].
    exists (if b then [e] else []). split; [|eauto].
    subst keep. cbv beta. unfold Ix.item.
    destruct (Z.ltb_spec i 0); [lia|]. rewrite Hb. cbn.
    destruct b; [|reflexivity]. rewrite He. reflexivity. }
  exists kept. split; [exact Hrun|].
  rewrite <- bool_index_zip. f_equal.
  apply list_eq. intros t. rewrite list_lookup_fmap.
  destruct (Nat.lt_ge_cases t (length dX)) as [Hlt|Hge].
  - assert (Ht : Py.range (Py.len dX) !! t = Some (Z.of_nat t)).
    { rewrite range_lookup. unfold Py.len.
      destruct (Z.ltb_spec (Z.of_nat t) (Z.of_nat (length dX))); [reflexivity | lia]. }
    destruct (Forall2_lookup_l _ _ _ _ _ Hall Ht) as (k & Hk & b & e & Hb & He & ->).
    rewrite Nat2Z.id in Hb, He.
    rewrite Hk, lookup_zip_with, Hb. cbn. rewrite He. reflexivity.
  - rewrite (lookup_ge_None_2 kept t).
    + rewrite lookup_zip_with.
      destruct (Zmask !! t); [|reflexivity]. cbn.
      rewrite (lookup_ge_None_2 dX t) by lia. reflexivity.
    + apply Forall2_length in Hall. rewrite <- Hall.
      pose proof (range_length (Py.len dX)) as Hr. unfold Py.len in *. lia.
Qed.

(** Property X18.  With strand resolution, the instantaneous gradients that
    are kept are those of the regions whose score was kept, in their
    order: the mask that selected the scores selects the gradient entries,
    so that there is one entry per resolved score.  A mask shorter than
    the regions raises [IndexError]. *)
Theorem instantaneous_gradients_follow_scores (flags : gmap string pyval)
    (Zall Zsel : list npfloat) (Zmask : list bool)
    (X : list Z) (dX : list (list npfloat)) (pad : Z) (R : list (Z * Z)) :
  maskout_revcomp flags Zall = Return (Zsel, Some Zmask) ->
  (length R = length Zall ->
     exists g,
       instantaneous_gradients ord2acgt X dX pad R (Some Zmask) = Return g
       /\ g = Np.bool_index (map (region_gradient ord2acgt X dX pad) R) Zmask
       /\ length g = length Zsel)
  /\ ((length Zall < length R)%nat ->
      instantaneous_gradients ord2acgt X dX pad R (Some Zmask) = Raise (IndexError "")).
Proof.
  intros Hmask. apply maskout_revcomp_mask in Hmask as [Hlen ->].
  unfold instantaneous_gradients. fold (keep (map (region_gradient ord2acgt X dX pad) R) Zmask).
  set (all := map (region_gradient ord2acgt X dX pad) R).
  assert (Hall : length all = length R) by apply length_map.
  split.
  - intros HR. destruct (keep_all all Zmask) as (kept & -> & Hkept); [lia|].
    cbn. exists (concat kept). split; [reflexivity|]. split; [exact Hkept|].
    rewrite Hkept, !bool_index_length by lia. reflexivity.
  - intros HR.
    destruct (mapM_first_raise (keep all Zmask) (Py.range (Py.len all))
                (Z.of_nat (length Zmask)) (IndexError ""))
      as (i & e & _ & He & ->).
    + apply list_elem_of_lookup. exists (length Zmask). rewrite range_lookup.
      unfold Py.len. destruct (Z.ltb_spec (Z.of_nat (length Zmask)) (Z.of_nat (length all)));
        [reflexivity | lia].
    + subst keep. cbv beta. rewrite !item_nat.
      rewrite (lookup_ge_None_2 Zmask) by lia. reflexivity.
    + apply keep_raises in He as ->. reflexivity.
Qed.

(** Property X19.  After finite differences the gradient maps are those of
    the forward strand: when both strands were scored, the regions at the
    even rows of [R], in their order, and every region otherwise.  The
    packaging never raises. *)
Theorem finite_diff_gradients_forward (flags : gmap string pyval)
    (X : list Z) (dX : list (list npfloat)) (pad : Z) (R : list (Z * Z)) :
  exists g,
    finite_diff_gradients ord2acgt flags X dX pad R = Return g
    /\ match flags !! "reverse_complement" with
       | Some _ =>
           Py.len g = (Py.len R + 1) / 2
           /\ forall i : nat,
                g !! i = region_gradient ord2acgt X dX pad <$> R !! (2 * i)%nat
       | None => g = map (region_gradient ord2acgt X dX pad) R
       end.
Proof.
  unfold finite_diff_gradients.
  destruct (flags !! "reverse_complement") as [v|]; [|eexists; split; reflexivity].
  destruct (range3_up (Py.len R) 2 ltac:(lia)) as (idx & -> & Hlen & Hidx).
  cbn [or_raise mbind outcome_bind].
  destruct (mapM_Return_Forall2
              (fun i => or_raise (IndexError "") (Ix.item R i))
              (fun i r => R !! Z.to_nat i = Some r) idx) as (rows & -> & Hrows).
  { intros i Hi. apply list_elem_of_lookup in Hi as [k Hk]. rewrite Hidx in Hk.
    destruct (Z.ltb_spec (Z.of_nat k * 2) (Py.len R)); [|discriminate].
    injection Hk as <-. unfold Py.len in *.
    destruct (lookup_lt_is_Some_2 R (Z.to_nat (Z.of_nat k * 2))) as [r Hr]; [lia|].
    exists r. split; [|exact Hr].
    unfold Ix.item. destruct (Z.ltb_spec (Z.of_nat k * 2) 0); [lia|].
    rewrite Hr. reflexivity. }
  cbn [mbind outcome_bind]. eexists. split; [reflexivity|].
  pose proof (Forall2_length _ _ _ Hrows) as Hsame.
  split.
  - unfold Py.len in *. rewrite length_map, <- Hsame, Hlen.
    replace (Z.of_nat (length R) + 2 - 1) with (Z.of_nat (length R) + 1) by lia.
    apply Z.max_r. apply Z.div_pos; lia.
  - intros i. rewrite list_lookup_fmap. f_equal.
    specialize (Hidx i).
    destruct (Z.ltb_spec (Z.of_nat i * 2) (Py.len R)) as [Hlt|Hge].
    + destruct (Forall2_lookup_l _ _ _ _ _ Hrows Hidx) as (r & -> & Hr).
      rewrite <- Hr. f_equal. lia.
    + rewrite (lookup_ge_None_2 R) by (unfold Py.len in Hge; lia).
      apply lookup_ge_None_2. rewrite <- Hsame. apply lookup_ge_None_1. exact Hidx.
Qed.

End SequenceGradientFacts.

(** Two sequences scored on both strands, four regions of one symbol:
    the reverse strand of the first and the forward strand of the second
    are kept, with their gradients. *)
Lemma instantaneous_gradients_follow_scores_witness :
  exists g,
    instantaneous_gradients (fun _ => "A") [0; 1; 2; 3]
      [[Fin 1]; [Fin 2]; [Fin 3]; [Fin 4]] 0 [(0, 1); (1, 2); (2, 3); (3, 4)]
      (Some [false; true; true; false]) = Return g
    /\ length g = 2%nat.
Proof.
  pose (flags := ({[ "reverse_complement" := VBool true ]} : gmap string pyval)).
  assert (Hmask : maskout_revcomp flags [Fin 1; Fin 2; Fin 4; Fin 3]
                  = Return ([Fin 2; Fin 4], Some [false; true; true; false]))
    by reflexivity.
  destruct (proj1 (instantaneous_gradients_follow_scores (fun _ => "A") flags
                     [Fin 1; Fin 2; Fin 4; Fin 3] [Fin 2; Fin 4]
                     [false; true; true; false] [0; 1; 2; 3]
                     [[Fin 1]; [Fin 2]; [Fin 3]; [Fin 4]] 0
                     [(0, 1); (1, 2); (2, 3); (3, 4)] Hmask) eq_refl)
    as (g & Hrun & _ & Hlen).
  exists g. split; [exact Hrun | exact Hlen].
Defined.

(** ** A network job in scan mode *)

Lemma subwindows_nonempty (w s : Z) (rawseq : string) (ws : list string) :
  1 <= s -> subwindows w s rawseq = Some ws -> ws <> [].
Proof.
  intros Hs. unfold subwindows, window_starts.
  destruct (range3_up (Z.max 1 (Py.len_str (padseq w rawseq) - w + 1)) s Hs)
    as (idx & -> & _ & Hidx).
  cbn. intros [= <-]. specialize (Hidx 0%nat).
  destruct (Z.ltb_spec (Z.of_nat 0 * s) (Z.max 1 (Py.len_str (padseq w rawseq) - w + 1)));
    [|lia].
  destruct idx; [discriminate | discriminate].
Qed.

Lemma scan_predictions_entries (modelid : string) (pd : list (list npfloat))
    (pmaps : list (list npfloat)) (wp wg : pyval) (g : resval) (d : gmap string resval) :
  scan_predictions modelid pd pmaps wp wg g = Return d ->
  exists maxs,
    pmap_max pmaps = Return maxs
    /\ d !! (modelid +:+ ".max") = Some (RArray maxs)
    /\ d !! (modelid +:+ ".avg") = Some (RArray (map Np.mean pmaps))
    /\ d !! (modelid +:+ ".sum") = Some (RArray (map Np.sum pmaps)).
Proof.
  unfold scan_predictions. destruct (pmap_max pmaps) as [maxs|e]; [|discriminate].
  cbn. intros [= <-]. exists maxs. split; [reflexivity|].
  destruct (truthy wg), (truthy wp); repeat split;
    repeat (rewrite lookup_insert_ne by key_neq); apply lookup_insert_eq.
Qed.

Section ScanJob.

Variable net : Type.
Variable read_pfm : string -> outcome (list (list npfloat)).
Variable load_pickle : string -> outcome net.
Variable data_requirements : net -> outcome unit.
Variable load_preprocessors : string -> outcome unit.
Variable gen_convnet_predictions :
  net -> datasrc -> pyval ->
  outcome (list (list npfloat) * option (gmap string (list (ginput * list (list npfloat))))).
Variable big : Q.
Variable unknown_ord : Z.
Variable flags : gmap string pyval.

Let the_job : params -> outcome (gmap string resval) :=
  job net read_pfm load_pickle data_requirements load_preprocessors
    gen_convnet_predictions big unknown_ord flags.

(** Property X20.  A network job in scan mode reports, for every sequence,
    the largest, the mean and the sum of the scores of its windows.  When
    the network scores every input on its own and gradient maps are not
    requested, the job returns; [.direct] holds the scores of the whole
    sequences, and entry [i] of [.max], [.avg] and [.sum] is the maximum,
    the mean and the sum over the scores of the windows of sequence [i]. *)
Theorem scan_job_summaries (p : params) (n : net) (w : Z)
    (score : string -> list npfloat) :
  load_model net read_pfm load_pickle (job_modelinfo p) = Return (Net n) ->
  data_requirements n = Return tt ->
  preprocessors (job_data p) = true ->
  job_scan p = Some w -> w <> 0 ->
  1 <= job_stride p ->
  Py.len (sequencenames (job_data p)) <= 1 ->
  truthy (job_want_gmaps p) = false ->
  (forall chunk want_gmaps, truthy want_gmaps = false ->
     gen_convnet_predictions n chunk want_gmaps = Return (map score (X_seq chunk), None)) ->
  (forall window, score window <> []) ->
  exists d maxs avgs sums,
    the_job p = Return d
    /\ d !! (job_modelid p +:+ ".direct")
       = Some (RDirect (map score (X_seq (job_data p))))
    /\ d !! (job_modelid p +:+ ".max") = Some (RArray maxs)
    /\ d !! (job_modelid p +:+ ".avg") = Some (RArray avgs)
    /\ d !! (job_modelid p +:+ ".sum") = Some (RArray sums)
    /\ forall (i : nat) (rawseq : string),
         X_seq (job_data p) !! i = Some rawseq ->
         exists ws,
           subwindows w (job_stride p) rawseq = Some ws
           /\ maxs !! i = Np.max (concat (map score ws))
           /\ avgs !! i = Some (Np.mean (concat (map score ws)))
           /\ sums !! i = Some (Np.sum (concat (map score ws))).
Proof.
  intros Hload Hreq Hprep Hscan Hw Hs Hsingle Hwg Hnet Hscore.
  subst the_job. unfold job. rewrite Hload. cbn [mbind outcome_bind].
  rewrite Hreq, Hprep. cbn [mbind outcome_bind].
  assert (Htruthy : truthy_scan (job_scan p) = true).
  { rewrite Hscan. cbn. apply negb_true_iff, Z.eqb_neq. exact Hw. }
  rewrite Htruthy, Hnet by reflexivity. cbn [mbind outcome_bind X_seq fst].
  rewrite (scan_returns_windows net gen_convnet_predictions big n
             {| sequencenames := sequencenames (job_data p);
                X_seq := X_seq (job_data p); preprocessors := true |}
             (job_stride p) (default 0 (job_scan p)) (job_want_gmaps p) score Hs Hsingle
             (fun chunk => Hnet chunk _ Hwg)).
  cbv zeta. cbn [mbind outcome_bind fst snd X_seq orb]. rewrite Hscan.
  change (default 0 (Some w)) with w.
  set (pmaps := map (fun rawseq => concat _) (X_seq (job_data p))).
  assert (Hpm : forall (i : nat) (rawseq : string),
            X_seq (job_data p) !! i = Some rawseq ->
            exists ws, subwindows w (job_stride p) rawseq = Some ws
                       /\ pmaps !! i = Some (concat (map score ws))
                       /\ concat (map score ws) <> []).
  { intros i rawseq Hi.
    destruct (subwindows_returns w (job_stride p) rawseq Hs) as [ws Hws].
    exists ws. split; [exact Hws|]. split.
    - subst pmaps. rewrite list_lookup_fmap, Hi.
      cbn [fmap option_fmap option_map]. rewrite Hws. reflexivity.
    - pose proof (subwindows_nonempty _ _ _ _ Hs Hws) as Hne.
      destruct ws as [|win ws]; [contradiction|]. cbn.
      specialize (Hscore win). destruct (score win); [contradiction | discriminate]. }
  destruct (scan_predictions_returns (job_modelid p) (map score (X_seq (job_data p)))
              pmaps (job_want_pmaps p) (job_want_gmaps p)
              (opt_resval RGmaps (if truthy (job_want_gmaps p) then Some [] else None)))
    as [d Hd].
  { apply Forall_forall. intros pmap Hin. apply list_elem_of_lookup in Hin as [i Hi].
    pose proof Hi as Hraw. unfold pmaps in Hraw.
    apply list_lookup_fmap_Some in Hraw as (rawseq & _ & Hraw).
    destruct (Hpm i rawseq Hraw) as (ws & _ & Hpmi & Hne).
    rewrite Hi in Hpmi. injection Hpmi as ->.
    unfold Py.len. destruct (concat (map score ws)); [contradiction | cbn; lia]. }
  destruct (scan_predictions_entries _ _ _ _ _ _ _ Hd) as (maxs & Hmaxs & Hmax & Havg & Hsum).
  exists d, maxs, (map Np.mean pmaps), (map Np.sum pmaps).
  split; [exact Hd|]. split; [eapply scan_predictions_direct; exact Hd|].
  split; [exact Hmax|]. split; [exact Havg|]. split; [exact Hsum|].
  intros i rawseq Hi. destruct (Hpm i rawseq Hi) as (ws & Hws & Hpmi & _).
  exists ws. split; [exact Hws|].
  rewrite !list_lookup_fmap, Hpmi. split; [|split; reflexivity].
  unfold pmap_max in Hmaxs. apply mapM_Return_inv in Hmaxs.
  destruct (Forall2_lookup_l _ _ _ _ _ Hmaxs Hpmi) as (m & -> & Hm).
  destruct (Np.max (concat (map score ws))); [|discriminate].
  cbn in Hm. injection Hm as ->. reflexivity.
Qed.

End ScanJob.

(** The sample network, which scores every input 0, scanning "ACGT" with
    windows of 2 symbols. *)
Lemma scan_job_summaries_witness :
  exists d maxs,
    job unit sample_read_pfm sample_load_pickle sample_requirements
      sample_load_preprocessors sample_gradients float32_max 255 ∅ scan_job = Return d
    /\ d !! "m3.max" = Some (RArray maxs).
Proof.
  destruct (scan_job_summaries unit sample_read_pfm sample_load_pickle
              sample_requirements sample_load_preprocessors sample_gradients
              float32_max 255 ∅ scan_job tt 2 (fun _ => [Fin 0]))
    as (d & maxs & _ & _ & Hjob & _ & Hmax & _).
  - reflexivity.
  - reflexivity.
  - reflexivity.
  - reflexivity.
  - discriminate.
  - simpl. lia.
  - vm_compute. discriminate.
  - reflexivity.
  - intros chunk want_gmaps Hwg. unfold sample_gradients. rewrite Hwg. reflexivity.
  - discriminate.
  - exists d, maxs. split; [exact Hjob | exact Hmax].
Defined.

(** ** The merged predictions *)

Lemma list_ascii_inj (a b : string) :
  list_ascii_of_string a = list_ascii_of_string b -> a = b.
Proof.
  intros H. rewrite <- (string_of_list_ascii_of_string a),
    <- (string_of_list_ascii_of_string b), H. reflexivity.
Qed.

Lemma suffix_inj (a b s s' : string) :
  s ∈ ["direct"; "max"; "avg"; "sum"; "pmaps"; "gmaps"] ->
  s' ∈ ["direct"; "max"; "avg"; "sum"; "pmaps"; "gmaps"] ->
  a +:+ "." +:+ s = b +:+ "." +:+ s' -> a = b.
Proof.
  intros Hs Hs' Heq.
  apply (f_equal list_ascii_of_string) in Heq.
  rewrite !list_ascii_app in Heq.
  apply (f_equal reverse) in Heq. rewrite !reverse_app in Heq.
  repeat (apply elem_of_cons in Hs as [->|Hs]);
    try (apply elem_of_nil in Hs; contradiction);
    repeat (apply elem_of_cons in Hs' as [->|Hs']);
    try (apply elem_of_nil in Hs'; contradiction);
    cbn in Heq; try discriminate Heq;
    apply list_ascii_inj, (inj reverse); congruence.
Qed.

Lemma result_key_shared (id id' key : string) :
  result_key id key -> result_key id' key ->
  id = id'
  \/ (exists suffix, suffix ∈ ["direct"; "max"; "avg"; "sum"; "pmaps"; "gmaps"]
                     /\ id = id' +:+ "." +:+ suffix)
  \/ (exists suffix, suffix ∈ ["direct"; "max"; "avg"; "sum"; "pmaps"; "gmaps"]
                     /\ id' = id +:+ "." +:+ suffix).
Proof.
  intros [->|(s & Hs & ->)] [Hk|(s' & Hs' & Hk)].
  - left. exact Hk.
  - right. left. eauto.
  - right. right. exists s. split; [exact Hs | symmetry; exact Hk].
  - left. exact (suffix_inj id id' s s' Hs Hs' Hk).
Qed.

Lemma foldl_union_absent {V} (ds : list (gmap string V)) (acc : gmap string V)
    (key : string) :
  (forall d, d ∈ ds -> d !! key = None) ->
  foldl (fun acc d => d ∪ acc) acc ds !! key = acc !! key.
Proof.
  revert acc. induction ds as [|d ds IH]; intros acc Hnone; [reflexivity|].
  cbn. rewrite IH by (intros d' Hd'; apply Hnone; right; exact Hd').
  rewrite lookup_union_r; [reflexivity|]. apply Hnone. left.
Qed.

Lemma foldl_union_keeps {V} (ds : list (gmap string V)) (acc : gmap string V)
    (i : nat) (d : gmap string V) (key : string) (v : V) :
  ds !! i = Some d -> d !! key = Some v ->
  (forall j d', j <> i -> ds !! j = Some d' -> d' !! key = None) ->
  foldl (fun acc d => d ∪ acc) acc ds !! key = Some v.
Proof.
  revert acc i. induction ds as [|d0 ds IH]; intros acc i Hi Hv Hother; [discriminate|].
  destruct i as [|i]; cbn in Hi |- *.
  - injection Hi as ->. rewrite foldl_union_absent.
    + apply lookup_union_Some_l. exact Hv.
    + intros d' Hd'. apply list_elem_of_lookup in Hd' as [j Hj].
      apply (Hother (S j)); [lia | exact Hj].
  - apply (IH _ i Hi Hv). intros j d' Hj Hd'.
    apply (Hother (S j)); [lia | exact Hd'].
Qed.

Lemma insert_sorted_perm (x : string) (l : list string) : insert_sorted x l ≡ₚ x :: l.
Proof.
  induction l as [|y l IH]; cbn; [reflexivity|].
  destruct (String.leb x y); [reflexivity|].
  rewrite IH. apply Permutation_swap.
Qed.

Lemma sorted_perm (l : list string) : sorted l ≡ₚ l.
Proof.
  unfold sorted. induction l as [|x l IH]; cbn; [reflexivity|].
  rewrite insert_sorted_perm, IH. reflexivity.
Qed.

Lemma workerargs_NoDup (data : gmap string datasrc)
    (modelinfos : gmap string (gmap string string))
    (scan : option Z) (stride : Z) (outdir : string) (verbose : bool)
    (want_pmaps want_gmaps : pyval) (wargs : list params) :
  workerargs data modelinfos scan stride outdir verbose want_pmaps want_gmaps
    = Return wargs ->
  NoDup (map job_modelid wargs).
Proof.
  intros Hrun. rewrite (job_modelid_workerargs _ _ _ _ _ _ _ _ _ Hrun), sorted_perm.
  apply NoDup_fst_map_to_list.
Qed.

Section MergedPredictions.

Variable net : Type.
Variable read_pfm : string -> outcome (list (list npfloat)).
Variable load_pickle : string -> outcome net.
Variable data_requirements : net -> outcome unit.
Variable load_preprocessors : string -> outcome unit.
Variable gen_convnet_predictions :
  net -> datasrc -> pyval ->
  outcome (list (list npfloat) * option (gmap string (list (ginput * list (list npfloat))))).
Variable big : Q.
Variable unknown_ord : Z.
Variable flags : gmap string pyval.
Variable allow_multiprocessing : bool.
Variable format_exc : exn -> string.

Let the_job : params -> outcome (gmap string resval) :=
  job net read_pfm load_pickle data_requirements load_preprocessors
    gen_convnet_predictions big unknown_ord flags.

Let the_predict :=
  predict net read_pfm load_pickle data_requirements load_preprocessors
    gen_convnet_predictions big unknown_ord flags allow_multiprocessing format_exc.

Lemma job_loop_returned (wargs : list params) (acc r : gmap string resval) :
  for_each (fun predictions workerarg =>
              d ← the_job workerarg; Return (d ∪ predictions)) acc wargs = Return r ->
  exists ds, Forall2 (fun p d => the_job p = Return d) wargs ds
             /\ r = foldl (fun acc d => d ∪ acc) acc ds.
Proof.
  revert acc. induction wargs as [|p wargs IH]; intros acc Hrun.
  - cbn in Hrun. injection Hrun as <-. exists []. split; [constructor | reflexivity].
  - cbn in Hrun. destruct (the_job p) as [d|e] eqn:Hp; [|discriminate]. cbn in Hrun.
    destruct (IH _ Hrun) as (ds & Hall & ->).
    exists (d :: ds). split; [constructor; assumption | reflexivity].
Qed.

Lemma predict_returned (devices : list Z) (data : gmap string datasrc)
    (modelinfos : gmap string (gmap string string))
    (scan : option Z) (stride : Z) (outdir : string) (verbose : bool)
    (want_pmaps want_gmaps : pyval)
    (predictions : gmap string resval) (events : list pool_event) :
  the_predict devices data modelinfos scan stride outdir verbose want_pmaps want_gmaps
    = (Return predictions, events) ->
  exists wargs ds,
    workerargs data modelinfos scan stride outdir verbose want_pmaps want_gmaps
      = Return wargs
    /\ Forall2 (fun p d => the_job p = Return d) wargs ds
    /\ predictions = merged ds.
Proof.
  subst the_predict. unfold predict.
  destruct (workerargs _ _ _ _ _ _ _ _) as [wargs|e]; [|discriminate].
  intros Hrun. exists wargs.
  destruct allow_multiprocessing.
  - destruct (Py.len devices <? 1); [discriminate|].
    destruct (pool_map _ _ _ _ _ _ _ _ _ _ _ wargs) as [results|e] eqn:Hmap;
      [|discriminate].
    cbn [mbind outcome_bind] in Hrun.
    pose proof (pool_map_results _ _ _ _ _ _ _ _ _ _ wargs results Hmap) as Hall.
    destruct (results_split results) as [[ds ->]|(ds & err & tb & rest & ->)].
    + exists ds. split; [reflexivity|]. split.
      * apply Forall2_fmap_r in Hall. exact Hall.
      * rewrite collect_predictions in Hrun. injection Hrun as <- _. reflexivity.
    + apply Forall2_app_inv_r in Hall as (w1 & w2 & _ & Hw2 & _).
      inversion Hw2 as [|p r ws rs Hp _]; subst.
      cbn beta iota in Hp. destruct Hp as (He & _).
      rewrite collect_failure in Hrun by exact He. discriminate.
  - rewrite debug_loop in Hrun.
    destruct (for_each _ _ _) as [r|e] eqn:Hloop; [|discriminate].
    injection Hrun as <- _.
    apply job_loop_returned in Hloop as (ds & Hall & ->).
    exists ds. split; [reflexivity|]. split; [exact Hall | reflexivity].
Qed.

(** Property X21.  When no model id of the run is another model id followed
    by a dot and one of the six result suffixes, the predictions that
    [predict] returns hold every entry of every job: each model of
    [modelinfos] has a job that returned, and all the entries of its
    predictions are in the result, none overwritten by another job. *)
Theorem predict_keeps_every_entry (devices : list Z) (data : gmap string datasrc)
    (modelinfos : gmap string (gmap string string))
    (scan : option Z) (stride : Z) (outdir : string) (verbose : bool)
    (want_pmaps want_gmaps : pyval)
    (predictions : gmap string resval) (events : list pool_event) :
  the_predict devices data modelinfos scan stride outdir verbose want_pmaps want_gmaps
    = (Return predictions, events) ->
  (forall id id' suffix,
     is_Some (modelinfos !! id) -> is_Some (modelinfos !! id') ->
     suffix ∈ ["direct"; "max"; "avg"; "sum"; "pmaps"; "gmaps"] ->
     id <> id' +:+ "." +:+ suffix) ->
  forall id, is_Some (modelinfos !! id) ->
    exists p d,
      job_modelid p = id /\ the_job p = Return d
      /\ forall key v, d !! key = Some v -> predictions !! key = Some v.
Proof.
  intros Hrun Hindep id Hid.
  apply predict_returned in Hrun as (wargs & ds & Hwargs & Hall & ->).
  pose proof (job_modelid_workerargs _ _ _ _ _ _ _ _ _ Hwargs) as Hids.
  pose proof (workerargs_NoDup _ _ _ _ _ _ _ _ _ Hwargs) as Hnodup.
  assert (Hin : id ∈ map job_modelid wargs).
  { rewrite Hids. apply elem_of_sorted, elem_of_keys. exact Hid. }
  apply list_elem_of_lookup in Hin as [i Hi].
  rewrite list_lookup_fmap in Hi.
  destruct (wargs !! i) as [p|] eqn:Hp; [|discriminate]. injection Hi as Hpid.
  destruct (Forall2_lookup_l _ _ _ _ _ Hall Hp) as (d & Hd & Hjob).
  exists p, d. split; [exact Hpid|]. split; [exact Hjob|].
  intros key v Hv. unfold merged.
  apply (foldl_union_keeps ds ∅ i d key v Hd Hv).
  intros j d' Hji Hd'.
  destruct (d' !! key) as [v'|] eqn:Hv'; [exfalso | reflexivity].
  destruct (Forall2_lookup_r _ _ _ _ _ Hall Hd') as (p' & Hp' & Hjob').
  assert (Hk : result_key (job_modelid p) key)
    by (eapply (job_keys net); [exact Hjob | eauto]).
  assert (Hk' : result_key (job_modelid p') key)
    by (eapply (job_keys net); [exact Hjob' | eauto]).
  assert (Hid' : is_Some (modelinfos !! job_modelid p')).
  { apply elem_of_keys, elem_of_sorted. rewrite <- Hids.
    apply list_elem_of_lookup. exists j. rewrite list_lookup_fmap, Hp'. reflexivity. }
  rewrite <- Hpid in Hid.
  destruct (result_key_shared _ _ _ Hk Hk') as [Heq|[(s & Hs & Heq)|(s & Hs & Heq)]].
  - apply Hji. eapply (NoDup_lookup _ j i (job_modelid p)); [exact Hnodup | |].
    + rewrite list_lookup_fmap, Hp', Heq. reflexivity.
    + rewrite list_lookup_fmap, Hp. reflexivity.
  - exact (Hindep _ _ s Hid Hid' Hs Heq).
  - exact (Hindep _ _ s Hid' Hid Hs Heq).
Qed.

End MergedPredictions.

(** The run over the PFM "m1" alone. *)
Lemma predict_keeps_every_entry_witness :
  exists predictions events,
    predict unit sample_read_pfm sample_load_pickle sample_requirements
      sample_load_preprocessors sample_gradients float32_max 255 ∅ true sample_format_exc
      [0] sample_datas one_modelinfo None 1 "out" false (VBool false) (VBool true)
    = (Return predictions, events)
    /\ exists p d,
         job_modelid p = "m1"
         /\ job unit sample_read_pfm sample_load_pickle sample_requirements
              sample_load_preprocessors sample_gradients float32_max 255 ∅ p = Return d
         /\ forall key v, d !! key = Some v -> predictions !! key = Some v.
Proof.
  destruct (predict unit sample_read_pfm sample_load_pickle sample_requirements
              sample_load_preprocessors sample_gradients float32_max 255 ∅ true
              sample_format_exc [0] sample_datas one_modelinfo None 1 "out" false
              (VBool false) (VBool true)) as [[predictions|e] events] eqn:Hrun;
    [|vm_compute in Hrun; discriminate Hrun].
  exists predictions, events. split; [reflexivity|].
  apply (predict_keeps_every_entry unit sample_read_pfm sample_load_pickle
           sample_requirements sample_load_preprocessors sample_gradients
           float32_max 255 ∅ true sample_format_exc
           [0] sample_datas one_modelinfo None 1 "out" false (VBool false) (VBool true)
           predictions events Hrun).
  - intros id id' suffix [x Hx] [y Hy] Hs. unfold one_modelinfo in Hx, Hy.
    apply lookup_singleton_Some in Hx as [<- _].
    apply lookup_singleton_Some in Hy as [<- _].
    repeat (apply elem_of_cons in Hs as [->|Hs]);
      try (apply elem_of_nil in Hs; contradiction);
      intros H; vm_compute in H; discriminate H.
  - eexists. reflexivity.
Defined.

(** ** The device of a worker *)

Lemma str_split_none (sep : ascii) (a : string) :
  sep ∉ list_ascii_of_string a -> Py.str_split sep a = [a].
Proof.
  induction a as [|c a IH]; intros Hsep; [reflexivity|].
  cbn [list_ascii_of_string] in Hsep. apply not_elem_of_cons in Hsep as [Hc Ha].
  cbn [Py.str_split]. destruct (Ascii.eqb_spec c sep) as [->|_]; [contradiction|].
  rewrite (IH Ha). reflexivity.
Qed.

Lemma str_split_two (sep : ascii) (a b : string) :
  sep ∉ list_ascii_of_string a -> sep ∉ list_ascii_of_string b ->
  Py.str_split sep (a +:+ String sep b) = [a; b].
Proof.
  intros Ha Hb. induction a as [|c a IH].
  - rewrite append_nil_l. cbn [Py.str_split]. rewrite Ascii.eqb_refl.
    rewrite (str_split_none sep b Hb). reflexivity.
  - cbn [list_ascii_of_string] in Ha. apply not_elem_of_cons in Ha as [Hc Ha].
    rewrite append_cons. cbn [Py.str_split].
    destruct (Ascii.eqb_spec c sep) as [->|_]; [contradiction|].
    rewrite (IH Ha). reflexivity.
Qed.

Section WorkerInitFacts.

Variable set_devices : list Z -> list Z.
Variable int : string -> outcome Z.

Let init := predict_worker_init set_devices int.

(** Property X22.  A worker is always bound to a device of the list.  When
    [set_devices] stores the list it is given and the list is not empty,
    the constructor returns in the main process with worker id 0, and in a
    pool process named [<type>-<n>] with the worker id [(n-1) mod
    len(devices)], which lies in [0, len(devices)), and the device at that
    index.  Two pool processes whose numbers differ by less than the
    number of devices get different worker ids. *)
Theorem predict_worker_init_device (devices : list Z) :
  set_devices devices = devices ->
  devices <> [] ->
  (exists device, init devices "MainProcess" = Return (0, device)
                  /\ devices !! 0%nat = Some device)
  /\ forall (process_type process_id : string) (n : Z),
       "-"%char ∉ list_ascii_of_string process_type ->
       "-"%char ∉ list_ascii_of_string process_id ->
       int process_id = Return n ->
       exists workerid device,
         init devices (process_type +:+ String "-" process_id) = Return (workerid, device)
         /\ workerid = (n - 1) mod Py.len devices
         /\ 0 <= workerid < Py.len devices
         /\ devices !! Z.to_nat workerid = Some device
         /\ forall n', n' <> n -> Z.abs (n' - n) < Py.len devices ->
              (n' - 1) mod Py.len devices <> workerid.
Proof.
  intros Hset Hne. subst init. unfold predict_worker_init. rewrite Hset.
  assert (Hlen : 0 < Py.len devices).
  { unfold Py.len. destruct devices; [contradiction | cbn; lia]. }
  split.
  - destruct devices as [|d0 devices']; [contradiction|].
    exists d0. split; reflexivity.
  - intros process_type process_id n Htype Hid Hint.
    assert (Hname : process_type +:+ String "-" process_id <> "MainProcess").
    { intros Heq. apply (f_equal list_ascii_of_string) in Heq.
      assert (Hin : "-"%char ∈ list_ascii_of_string
                                  (process_type +:+ String "-" process_id)).
      { rewrite list_ascii_app. apply elem_of_app. right. left. }
      rewrite Heq in Hin. cbn in Hin.
      repeat (apply elem_of_cons in Hin as [Hin|Hin]; [discriminate Hin|]).
      apply elem_of_nil in Hin. exact Hin. }
    destruct (decide _) as [|_]; [contradiction|].
    rewrite (str_split_two "-" process_type process_id Htype Hid), Hint.
    cbn [mbind outcome_bind]. unfold worker_index.
    destruct (Z.eqb_spec (Py.len devices) 0); [lia|]. cbn [mbind outcome_bind].
    pose proof (Z.mod_pos_bound (n - 1) (Py.len devices) Hlen) as Hw.
    destruct (item_inside devices ((n - 1) mod Py.len devices) Hw) as (device & Hdev & _).
    rewrite Hdev. cbn [or_raise mbind outcome_bind].
    exists ((n - 1) mod Py.len devices), device.
    split; [reflexivity|]. split; [reflexivity|]. split; [exact Hw|]. split.
    + unfold Ix.item in Hdev. destruct (Z.ltb_spec ((n - 1) mod Py.len devices) 0); [lia|].
      exact Hdev.
    + intros n' Hn' Habs Heq.
      assert (Hdiv : ((n' - 1) - (n - 1)) mod Py.len devices = 0).
      { rewrite Zminus_mod, Heq, Z.sub_diag. apply Z.mod_0_l. lia. }
      apply Z.mod_divide in Hdiv; [|lia].
      destruct Hdiv as [q Hq].
      assert (q = 0) by nia. subst q. lia.
Qed.

End WorkerInitFacts.

(** Two devices and the pool process "PoolWorker-3": worker id 0 and the
    first device. *)
Lemma predict_worker_init_device_witness :
  predict_worker_init (fun devices => devices) sample_int [7; 9] "PoolWorker-3"
  = Return (0, 7).
Proof.
  destruct (proj2 (predict_worker_init_device (fun devices => devices) sample_int [7; 9]
                     eq_refl ltac:(discriminate)) "PoolWorker" "3" 3)
    as (workerid & device & Hrun & -> & _ & Hdevice & _).
  - intros H. cbn in H.
    repeat (apply elem_of_cons in H as [H|H]; [discriminate H|]).
    apply elem_of_nil in H. exact H.
  - intros H. cbn in H.
    repeat (apply elem_of_cons in H as [H|H]; [discriminate H|]).
    apply elem_of_nil in H. exact H.
  - reflexivity.
  - vm_compute in Hdevice. injection Hdevice as <-. exact Hrun.
Defined.

(** ** Static-weight models on any data *)

(** Property X23.  On a single sequence attribute over the alphabet, a
    static-weight model of width [k >= 1] never raises: with one strand or
    both it returns one prediction map per sequence, in the order of the
    data, and the map of a sequence of length [L] has [max(1, L + k - 1)]
    entries.  Gradient maps, when requested, are the empty list. *)
Theorem gen_pfm_predictionmaps_per_sequence (flags : gmap string pyval) (u : Z)
    (pfm : list (list npfloat)) (data : datasrc) (windowsize : option Z)
    (want_gmaps : pyval) :
  4 <= u -> 1 <= Py.len pfm -> four_columns pfm ->
  Py.len (sequencenames data) <= 1 ->
  Forall valid_sequence (X_seq data) ->
  exists predictionmaps,
    gen_pfm_predictionmaps flags u pfm data windowsize want_gmaps
      = Return (predictionmaps, if truthy want_gmaps then Some [] else None)
    /\ length predictionmaps = length (X_seq data)
    /\ forall (i : nat) (s : string), X_seq data !! i = Some s ->
         exists pmap, predictionmaps !! i = Some pmap
                      /\ Py.len pmap = Z.max 1 (Py.len_str s + Py.len pfm - 1).
Proof.
  intros Hu Hk Hpfm Hnames Hvalid.
  destruct (gen_pfm_predictionmaps_lengths flags u pfm data windowsize want_gmaps
              Hu Hk Hpfm Hnames Hvalid) as (pms & Hrun & Hall).
  exists pms. split; [exact Hrun|]. split.
  - symmetry. eapply Forall2_length. exact Hall.
  - intros i s Hi.
    destruct (Forall2_lookup_l _ _ _ _ _ Hall Hi) as (pmap & Hpmap & Hlen).
    exists pmap. split; assumption.
Qed.

(** Both strands, a model of width 2, sequences of 4 and of 1 symbols:
    maps of 5 and of 2 entries. *)
Lemma gen_pfm_predictionmaps_per_sequence_witness :
  exists predictionmaps,
    gen_pfm_predictionmaps {[ "reverse_complement" := VBool true ]} 255 (uniform_pfm 2)
      {| sequencenames := ["seq"]; X_seq := ["ACGT"; "A"]; preprocessors := true |}
      None (VBool false)
    = Return (predictionmaps, None)
    /\ length predictionmaps = 2%nat.
Proof.
  destruct (gen_pfm_predictionmaps_per_sequence
              {[ "reverse_complement" := VBool true ]} 255 (uniform_pfm 2)
              {| sequencenames := ["seq"]; X_seq := ["ACGT"; "A"]; preprocessors := true |}
              None (VBool false))
    as (pms & Hrun & Hlen & _).
  - lia.
  - vm_compute. discriminate.
  - repeat constructor.
  - vm_compute. discriminate.
  - repeat constructor.
  - exists pms. split; [exact Hrun | exact Hlen].
Defined.

(** ** Scanning with gradient maps at stride 1 *)

Lemma build_gmap_stride_1_rows (big : Q) (windowsize rawseq_len : Z)
    (dX : list (ginput * list (list npfloat))) (start_window_idx : Z) :
  let N := rawseq_len + windowsize - 1 in
  1 <= windowsize -> 0 <= N ->
  (forall j, 0 <= j < N ->
     exists e, Ix.item dX (start_window_idx + j) = Some e
               /\ Py.len (snd e) = windowsize /\ four_columns (snd e)) ->
  exists gmap,
    build_gmap big windowsize 1 rawseq_len dX start_window_idx (start_window_idx + N)
      = Return gmap
    /\ Py.len gmap = N.
Proof.
  intros N Hw HN Hgrad.
  destruct (build_gmap_per_position big windowsize 1 rawseq_len dX start_window_idx
              (start_window_idx + N)) as (gmap & Hrun & Hlen & _); try lia.
  - intros j Hj. replace (start_window_idx + N - start_window_idx) with N in Hj by lia.
    destruct (Hgrad j Hj) as (e & He & Hrows & Hcols).
    split; [rewrite He; eauto|].
    unfold clipped_gradient. rewrite He. split; [apply slice_columns; exact Hcols|].
    rewrite slice_prefix_length by lia. fold N. unfold span_rows. lia.
  - exists gmap. split; [exact Hrun | exact Hlen].
Qed.

Lemma stride_1_windows (w : Z) (rawseq : string) :
  1 <= w -> 1 <= Py.len_str rawseq + w - 1 ->
  exists ws,
    subwindows w 1 rawseq = Some ws
    /\ Py.len ws = Py.len_str rawseq + w - 1
    /\ Forall (fun win => Py.len_str win = w) ws.
Proof.
  intros Hw HN.
  destruct (subwindows_general rawseq w 1 Hw ltac:(lia)) as (ws & Hws & Hlen & _ & Hk).
  cbv zeta in Hlen, Hk.
  exists ws. split; [exact Hws|]. split.
  - rewrite Hlen, Z.div_1_r. lia.
  - apply Forall_lookup. intros k win Hwin. rewrite Hk in Hwin.
    destruct (Z.ltb_spec (Z.of_nat k * 1) (Z.max 1 (Py.len_str rawseq + w - 1)));
      [|discriminate].
    injection Hwin as <-. apply str_slice_inside; [lia | lia |].
    rewrite padseq_length by exact Hw. lia.
Qed.

Lemma lookup_concat_offset {A} (ls : list (list A)) (i j : nat) (x : list A) :
  ls !! i = Some x -> (j < length x)%nat ->
  concat ls !! (length (concat (take i ls)) + j)%nat = x !! j.
Proof.
  intros Hx Hj. set (pre := concat (take i ls)).
  rewrite <- (take_drop_middle ls i x Hx). fold pre.
  rewrite concat_app. cbn [concat]. fold pre.
  rewrite lookup_app_r by lia.
  replace (length pre + j - length pre)%nat with j by lia.
  apply lookup_app_l. exact Hj.
Qed.

Section ScanGradients.

Variable net : Type.
Variable gen_convnet_predictions :
  net -> datasrc -> pyval ->
  outcome (list (list npfloat) * option (gmap string (list (ginput * list (list npfloat))))).
Variable big : Q.

Let scan := gen_convnet_predictionmaps net gen_convnet_predictions big.

Lemma scan_sequences_gmaps (w : Z) (score : string -> list npfloat)
    (grad : string -> ginput * list (list npfloat))
    (rawseqs : list string) (cX : list (list string))
    (g : gmap string (list (ginput * list (list npfloat))))
    (maps : list (list npfloat) * list (list (list npfloat))) :
  1 <= w ->
  (forall win, score win <> []) ->
  (forall win, Py.len_str win = w ->
     Py.len (snd (grad win)) = w /\ four_columns (snd (grad win))) ->
  Forall2 (full_windows w) rawseqs cX ->
  g !! "dX_seq" = Some (map grad (concat cX)) ->
  exists gms,
    for_each (scan_sequence big w 1 rawseqs (map score (concat cX)) (Some g)
                (cumsum (0 :: nwindows cX)))
             maps (Py.range (Py.len cX))
    = Return ((fst maps ++ map (fun ws => concat (map score ws)) cX)%list,
              (snd maps ++ gms)%list)
    /\ Forall2 (fun rawseq gm => Py.len gm = Py.len_str rawseq + w - 1) rawseqs gms.
Proof.
  intros Hw Hscore Hgrad Hall Hg.
  pose proof (Forall2_length _ _ _ Hall) as Hsame.
  rewrite range_seq. unfold Py.len at 1. rewrite Nat2Z.id.
  destruct (for_each_seq_returns
              (fun i m => exists gms,
                 m = ((fst maps ++ map (fun ws => concat (map score ws)) (take i cX))%list,
                      (snd maps ++ gms)%list)
                 /\ Forall2 (fun rawseq gm => Py.len gm = Py.len_str rawseq + w - 1)
                      (take i rawseqs) gms)
              (scan_sequence big w 1 rawseqs (map score (concat cX)) (Some g)
                 (cumsum (0 :: nwindows cX)))
              (length cX) 0%nat maps) as (m' & Hrun & gms & -> & Hgms).
  - exists []. rewrite !take_0, !app_nil_r. split; [destruct maps; reflexivity | constructor].
  - intros i m Hi (gms & -> & Hgms).
    destruct (lookup_lt_is_Some_2 cX i) as [ws Hws]; [lia|].
    destruct (Forall2_lookup_r _ _ _ _ _ Hall Hws) as (rawseq & Hraw & Hlen & Hone & Hwins).
    assert (H0 : Ix.item (cumsum (0 :: nwindows cX)) (Z.of_nat i)
                 = Some (Py.len (concat (take i cX))))
      by (rewrite item_nat; apply cumsum_regions; lia).
    assert (H1 : Ix.item (cumsum (0 :: nwindows cX)) (Z.of_nat i + 1)
                 = Some (Py.len (concat (take (S i) cX)))).
    { replace (Z.of_nat i + 1) with (Z.of_nat (S i)) by lia.
      rewrite item_nat. apply cumsum_regions. lia. }
    assert (Hfirst : exists p0, Ix.item (map score (concat cX)) 0 = Some p0).
    { destruct (item_inside (map score (concat cX)) 0) as (p0 & Hp0 & _); [|eauto].
      unfold Py.len in *. rewrite length_map.
      rewrite <- (take_drop_middle cX i ws Hws), concat_app, length_app.
      cbn [concat]. rewrite length_app. lia. }
    destruct Hfirst as [p0 Hp0].
    assert (Hpmap : concat (Py.slice (map score (concat cX))
                              (Py.len (concat (take i cX)))
                              (Py.len (concat (take (S i) cX))))
                    = concat (map score ws))
      by (rewrite slice_fmap, (slice_concat cX i ws Hws); reflexivity).
    assert (Hne : concat (map score ws) <> []).
    { destruct ws as [|win ws']; [unfold Py.len in Hone; cbn in Hone; lia|].
      cbn. specialize (Hscore win). destruct (score win); [contradiction | discriminate]. }
    assert (Hend : Py.len (concat (take (S i) cX))
                   = Py.len (concat (take i cX)) + (Py.len_str rawseq + w - 1)).
    { rewrite (take_S_r cX i ws Hws), concat_app. cbn [concat]. rewrite app_nil_r.
      unfold Py.len in *. rewrite length_app. lia. }
    destruct (build_gmap_stride_1_rows big w (Py.len_str rawseq) (map grad (concat cX))
                (Py.len (concat (take i cX)))) as (gmap & Hgmap & Hrows); [exact Hw | lia | |].
    { intros j Hj.
      assert (Hj' : (Z.to_nat j < length ws)%nat) by (unfold Py.len in Hlen; lia).
      destruct (lookup_lt_is_Some_2 ws (Z.to_nat j) Hj') as [win Hwin].
      exists (grad win). split.
      - unfold Py.len.
        replace (Z.of_nat (length (concat (take i cX))) + j)
          with (Z.of_nat (length (concat (take i cX)) + Z.to_nat j)) by lia.
        rewrite item_nat, list_lookup_fmap, (lookup_concat_offset cX i _ ws Hws Hj'), Hwin.
        reflexivity.
      - apply Hgrad. rewrite Forall_forall in Hwins. apply Hwins.
        apply list_elem_of_lookup. eauto. }
    unfold scan_sequence. rewrite H0, H1. cbn [or_raise mbind outcome_bind].
    rewrite item_nat, Hraw, Hp0, Hg. cbn [or_raise mbind outcome_bind].
    unfold zeros4 at 1.
    destruct (Z.ltb_spec (Py.len_str rawseq + w - 1) 0); [lia|].
    cbn [mbind outcome_bind]. rewrite Hpmap.
    destruct (decide (concat (map score ws) = [])); [contradiction|].
    cbn [mbind outcome_bind]. rewrite Hend, Hgmap. cbn [mbind outcome_bind].
    eexists. split; [reflexivity|].
    exists (gms ++ [gmap])%list. split.
    + rewrite (take_S_r cX i ws Hws), map_app, !app_assoc. reflexivity.
    + rewrite (take_S_r rawseqs i rawseq Hraw). apply Forall2_app; [exact Hgms|].
      constructor; [exact Hrows | constructor].
  - exists gms. rewrite Hrun. cbn [Nat.add]. rewrite take_ge by lia.
    split; [reflexivity|]. rewrite take_ge in Hgms by lia. exact Hgms.
Qed.

Let wins (w : Z) (rawseq : string) : list string := default [] (subwindows w 1 rawseq).

Lemma scan_chunk_gmaps (model : net) (data : datasrc) (w : Z) (want_gmaps : pyval)
    (score : string -> list npfloat) (grad : string -> ginput * list (list npfloat))
    (maps : list (list npfloat) * list (list (list npfloat))) (ci : nat) :
  1 <= w ->
  (forall win, score win <> []) ->
  (forall win, Py.len_str win = w ->
     Py.len (snd (grad win)) = w /\ four_columns (snd (grad win))) ->
  Forall (fun rawseq => 1 <= Py.len_str rawseq + w - 1) (X_seq data) ->
  (forall chunk, exists g,
     gen_convnet_predictions model chunk want_gmaps
       = Return (map score (X_seq chunk), Some g)
     /\ g !! "dX_seq" = Some (map grad (X_seq chunk))) ->
  exists gms,
    scan_chunk net gen_convnet_predictions big model data w 1 want_gmaps maps (Z.of_nat ci)
    = Return ((fst maps ++ map (fun rawseq => concat (map score (wins w rawseq)))
                              (take 32 (drop (32 * ci) (X_seq data))))%list,
              (snd maps ++ gms)%list)
    /\ Forall2 (fun rawseq gm => Py.len gm = Py.len_str rawseq + w - 1)
         (take 32 (drop (32 * ci) (X_seq data))) gms.
Proof.
  intros Hw Hscore Hgrad Hseqs Hnet. unfold scan_chunk. cbv zeta.
  replace (Z.of_nat ci * 32) with (Z.of_nat (32 * ci)) by lia.
  replace ((Z.of_nat ci + 1) * 32) with (Z.of_nat (32 * ci) + Z.of_nat 32) by lia.
  rewrite slice_chunk.
  set (rawseqs := take 32 (drop (32 * ci) (X_seq data))).
  assert (Hin : forall rawseq, rawseq ∈ rawseqs -> 1 <= Py.len_str rawseq + w - 1).
  { intros rawseq Hr. rewrite Forall_forall in Hseqs. apply Hseqs.
    subst rawseqs. apply elem_of_take in Hr as (k & Hk & _).
    rewrite lookup_drop in Hk. apply list_elem_of_lookup. eauto. }
  assert (HcX : chunk_X w 1 rawseqs = Some (map (wins w) rawseqs)).
  { apply mapM_option_total. intros rawseq Hr. subst wins. cbv beta.
    destruct (stride_1_windows w rawseq Hw (Hin rawseq Hr)) as (ws & -> & _).
    reflexivity. }
  assert (Hfull : Forall2 (full_windows w) rawseqs (map (wins w) rawseqs)).
  { apply Forall2_fmap_r, Forall_Forall2_diag, Forall_forall. intros rawseq Hr.
    subst wins. unfold compose. cbv beta.
    destruct (stride_1_windows w rawseq Hw (Hin rawseq Hr)) as (ws & -> & Hlen & Hwins).
    change (default [] (Some ws)) with ws. split; [exact Hlen|]. split; [|exact Hwins].
    rewrite Hlen. apply Hin. exact Hr. }
  rewrite HcX. cbn [or_raise mbind outcome_bind].
  destruct (Hnet {| sequencenames := sequencenames data;
                    X_seq := concat (map (wins w) rawseqs);
                    preprocessors := preprocessors data |}) as (g & -> & Hg).
  cbn [mbind outcome_bind X_seq] in Hg |- *.
  replace (Py.len rawseqs) with (Py.len (map (wins w) rawseqs))
    by (unfold Py.len; rewrite length_map; reflexivity).
  destruct (scan_sequences_gmaps w score grad rawseqs (map (wins w) rawseqs) g maps
              Hw Hscore Hgrad Hfull Hg) as (gms & -> & Hgms).
  exists gms. split; [|exact Hgms]. rewrite map_map. reflexivity.
Qed.

(** Property X24.  With stride 1 the scan with gradient maps returns for
    every data.  For a window size [w >= 1], sequences that have
    [L + w - 1 >= 1], and a network that gives every window a score and a
    gradient of [w] rows by four columns under ["dX_seq"], the scan
    returns one prediction map and one gradient map per sequence, in the
    order of the data, and the gradient map of a sequence of length [L] has
    [L + w - 1] rows. *)
Theorem scan_stride_1_gradient_maps (model : net) (data : datasrc) (w : Z)
    (want_gmaps : pyval) (score : string -> list npfloat)
    (grad : string -> ginput * list (list npfloat)) :
  1 <= w ->
  Py.len (sequencenames data) <= 1 ->
  truthy want_gmaps = true ->
  (forall win, score win <> []) ->
  (forall win, Py.len_str win = w ->
     Py.len (snd (grad win)) = w /\ four_columns (snd (grad win))) ->
  Forall (fun rawseq => 1 <= Py.len_str rawseq + w - 1) (X_seq data) ->
  (forall chunk, exists g,
     gen_convnet_predictions model chunk want_gmaps
       = Return (map score (X_seq chunk), Some g)
     /\ g !! "dX_seq" = Some (map grad (X_seq chunk))) ->
  exists pmaps gmaps,
    scan model data 1 w want_gmaps = Return (pmaps, Some gmaps)
    /\ length pmaps = length (X_seq data)
    /\ length gmaps = length (X_seq data)
    /\ forall (i : nat) (rawseq : string),
         X_seq data !! i = Some rawseq ->
         exists gmap, gmaps !! i = Some gmap
                      /\ Py.len gmap = Py.len_str rawseq + w - 1.
Proof.
  intros Hw Hsingle Hwant Hscore Hgrad Hseqs Hnet.
  subst scan. unfold gen_convnet_predictionmaps.
  destruct (Z.ltb_spec 1 (Py.len (sequencenames data))); [lia|]. cbv zeta.
  set (pm := fun rawseq => concat (map score (wins w rawseq))).
  set (nchunk := (data_len data + 32 - 1) / 32).
  rewrite range_seq.
  destruct (for_each_seq_returns
              (fun ci maps =>
                 fst maps = map pm (take (32 * ci) (X_seq data))
                 /\ Forall2 (fun rawseq gm => Py.len gm = Py.len_str rawseq + w - 1)
                      (take (32 * ci) (X_seq data)) (snd maps))
              (scan_chunk net gen_convnet_predictions big model data w 1 want_gmaps)
              (Z.to_nat nchunk) 0%nat ([], [])) as (maps & Hrun & Hpm & Hgm).
  - split; [reflexivity | constructor].
  - intros ci maps _ [Hpm Hgm].
    destruct (scan_chunk_gmaps model data w want_gmaps score grad maps ci
                Hw Hscore Hgrad Hseqs Hnet) as (gms & -> & Hgms).
    eexists. split; [reflexivity|]. cbn [fst snd].
    replace (32 * S ci)%nat with (32 * ci + 32)%nat by lia.
    rewrite <- take_take_drop. split.
    + rewrite Hpm, map_app. reflexivity.
    + apply Forall2_app; assumption.
  - rewrite Hrun. cbn [mbind outcome_bind]. rewrite Hwant.
    assert (Hall : take (32 * (0 + Z.to_nat nchunk)) (X_seq data) = X_seq data).
    { apply take_ge. subst nchunk. unfold data_len, Py.len.
      pose proof (Z.div_mod (Z.of_nat (length (X_seq data)) + 32 - 1) 32 ltac:(lia)).
      pose proof (Z.mod_pos_bound (Z.of_nat (length (X_seq data)) + 32 - 1) 32 ltac:(lia)).
      lia. }
    rewrite Hall in Hpm, Hgm.
    exists (fst maps), (snd maps). split; [reflexivity|]. split.
    + rewrite Hpm. apply length_map.
    + split; [symmetry; eapply Forall2_length; exact Hgm|].
      intros i rawseq Hi.
      destruct (Forall2_lookup_l _ _ _ _ _ Hgm Hi) as (gmap & Hgmap & Hlen).
      exists gmap. split; assumption.
Qed.

End ScanGradients.

(** The sample network on "ACGT" with windows of 2 symbols: one gradient
    map, of 5 rows. *)
Lemma scan_stride_1_gradient_maps_witness :
  exists pmaps gmaps,
    gen_convnet_predictionmaps unit sample_gradients float32_max tt sample_data 1 2
      (VBool true) = Return (pmaps, Some gmaps)
    /\ length gmaps = 1%nat.
Proof.
  destruct (scan_stride_1_gradient_maps unit sample_gradients float32_max tt sample_data 2
              (VBool true) (fun _ => [Fin 0])
              (fun win => (GSeq win, replicate (String.length win) (replicate 4 (Fin 1)))))
    as (pmaps & gmaps & Hrun & _ & Hlen & _).
  - lia.
  - vm_compute. discriminate.
  - reflexivity.
  - discriminate.
  - intros win Hwin. cbn [snd]. split.
    + unfold Py.len. rewrite length_replicate. exact Hwin.
    + apply Forall_forall. intros row Hrow.
      apply elem_of_replicate in Hrow as [-> _]. reflexivity.
  - constructor; [vm_compute; discriminate | constructor].
  - intros chunk. eexists. split; [reflexivity|]. apply lookup_singleton_eq.
  - exists pmaps, gmaps. split; [exact Hrun | exact Hlen].
Defined.
